(** * Pika: notification dispatcher and property handlers

    A shallow embedding of [internal/service/notifier.go] and
    [internal/handler/property_handler.go], with the properties of the
    notification channels and of the property store proved about it.

    Go strings are byte sequences: they are modelled by [string] (a list
    of 8-bit characters), [[]byte] by [list byte], [int64] and [int] by
    [Z], [map[string]interface{}] by [gmap string json].  *)

From Stdlib Require Import ZArith NArith Lia Bool List.
From Stdlib Require Import Ascii String DecimalString PrimFloat FloatOps SpecFloat.
From Stdlib.Strings Require Import Byte.
From stdpp Require Import base option list gmap strings sorting.

Set Default Proof Using "Type".

Local Open Scope Z_scope.

(* ===================================================================== *)
(** * Part I: definitions                                                 *)
(* ===================================================================== *)

(** ** Strings as Go has them *)

(** [fmt.Sprintf("%d", z)] on a signed integer. *)
Definition format_d (z : Z) : string := NilZero.string_of_int (Z.to_int z).

(** [[]byte(s)] and [string(b)]. *)
Definition bytes_of_string (s : string) : list byte := list_byte_of_string s.
Definition string_of_bytes (b : list byte) : string := string_of_list_byte b.

(** [strings.HasPrefix(s, p)]. *)
Fixpoint has_prefix (p s : string) : bool :=
  match p, s with
  | EmptyString, _ => true
  | String _ _, EmptyString => false
  | String a p', String b s' => if Ascii.eqb a b then has_prefix p' s' else false
  end.

(** The number of positions of [s] at which [p] starts (occurrences may
    overlap); for a non-empty [p] this is how often the text [p] can be
    found in [s]. *)
Fixpoint count_sub (p s : string) : nat :=
  match s with
  | EmptyString => if has_prefix p EmptyString then 1%nat else 0%nat
  | String _ s' => ((if has_prefix p s then 1 else 0) + count_sub p s')%nat
  end.

(** [strings.Contains(s, p)]. *)
Definition contains (p s : string) : bool := negb (Nat.eqb (count_sub p s) 0).

Fixpoint string_mem (c : ascii) (s : string) : bool :=
  match s with
  | EmptyString => false
  | String a s' => if Ascii.eqb c a then true else string_mem c s'
  end.

Fixpoint string_repeat (c : ascii) (n : nat) : string :=
  match n with
  | O => EmptyString
  | S n' => String c (string_repeat c n')
  end.

(** [strings.Join(l, sep)]. *)
Fixpoint join (sep : string) (l : list string) : string :=
  match l with
  | [] => ""
  | [x] => x
  | x :: rest => x +:+ sep +:+ join sep rest
  end.

(** ** crypto/sha256 *)

Module SHA256.
Local Open Scope N_scope.

Definition mask32 (x : N) : N := N.land x 0xffffffff.
Definition add32 (x y : N) : N := mask32 (x + y).
Definition rotr (n x : N) : N :=
  N.lor (N.shiftr x n) (mask32 (N.shiftl x (32 - n))).
Definition not32 (x : N) : N := N.lxor x 0xffffffff.

Definition Ch (x y z : N) : N := N.lxor (N.land x y) (N.land (not32 x) z).
Definition Maj (x y z : N) : N :=
  N.lxor (N.lxor (N.land x y) (N.land x z)) (N.land y z).
Definition Sigma0 (x : N) : N := N.lxor (N.lxor (rotr 2 x) (rotr 13 x)) (rotr 22 x).
Definition Sigma1 (x : N) : N := N.lxor (N.lxor (rotr 6 x) (rotr 11 x)) (rotr 25 x).
Definition sigma0 (x : N) : N := N.lxor (N.lxor (rotr 7 x) (rotr 18 x)) (N.shiftr x 3).
Definition sigma1 (x : N) : N := N.lxor (N.lxor (rotr 17 x) (rotr 19 x)) (N.shiftr x 10).

(** The constants, as FIPS 180-4 defines them: the first 32 bits of the
    fractional parts of the cube roots (for [K]) and of the square roots
    (for the initial value) of the first primes. *)
Definition is_prime (n : nat) : bool :=
  forallb (fun d => negb (Nat.eqb (n mod d) 0)) (seq 2 (n - 2)).

Definition primes (count : nat) : list N :=
  map N.of_nat (firstn count (filter is_prime (seq 2 400))).

(** The integer cube root, bit by bit from the top. *)
Fixpoint root3 (bits : nat) (n acc : N) : N :=
  match bits with
  | O => acc
  | S b =>
      let c := acc + N.shiftl 1 (N.of_nat b) in
      root3 b n (if c * c * c <=? n then c else acc)
  end.

Definition K : list N :=
  Eval vm_compute in map (fun p => mask32 (root3 40 (N.shiftl p 96) 0)) (primes 64).

Definition H0 : list N :=
  Eval vm_compute in map (fun p => mask32 (N.sqrt (N.shiftl p 64))) (primes 8).

(** The eight working variables, also the chaining value. *)
Record digest := Digest {
  dA : N; dB : N; dC : N; dD : N; dE : N; dF : N; dG : N; dH : N }.

Definition init : digest :=
  Digest (nth 0 H0 0) (nth 1 H0 0) (nth 2 H0 0) (nth 3 H0 0)
         (nth 4 H0 0) (nth 5 H0 0) (nth 6 H0 0) (nth 7 H0 0).

Definition byte_of_N (n : N) : byte :=
  match Byte.of_N (N.land n 0xff) with Some b => b | None => x00 end.

(** Big-endian bytes of a 32-bit word and of a 64-bit length. *)
Definition be32 (w : N) : list byte :=
  [ byte_of_N (N.shiftr w 24); byte_of_N (N.shiftr w 16);
    byte_of_N (N.shiftr w 8); byte_of_N w ].
Definition be64 (w : N) : list byte :=
  be32 (N.shiftr w 32) ++ be32 (mask32 w).

Definition word_of (a b c d : byte) : N :=
  N.lor (N.lor (N.shiftl (Byte.to_N a) 24) (N.shiftl (Byte.to_N b) 16))
        (N.lor (N.shiftl (Byte.to_N c) 8) (Byte.to_N d)).

Fixpoint words_of (l : list byte) : list N :=
  match l with
  | a :: b :: c :: d :: rest => word_of a b c d :: words_of rest
  | _ => []
  end.

(** Message padding: a one bit, zeros up to 56 mod 64, the bit length. *)
Definition pad (msg : list byte) : list byte :=
  let len := length msg in
  let zeros := ((119 - len mod 64) mod 64)%nat in
  msg ++ [x80] ++ repeat x00 zeros ++ be64 (8 * N.of_nat len).

(** The message schedule, most recent word first. *)
Fixpoint extend (n : nat) (rw : list N) : list N :=
  match n with
  | O => rw
  | S n' =>
      let w := add32 (add32 (sigma1 (nth 1 rw 0)) (nth 6 rw 0))
                     (add32 (sigma0 (nth 14 rw 0)) (nth 15 rw 0)) in
      extend n' (w :: rw)
  end.
Definition schedule (block : list N) : list N := rev (extend 48 (rev block)).

Definition round (s : digest) (kw : N * N) : digest :=
  let '(k, w) := kw in
  let t1 := add32 (add32 (add32 (dH s) (Sigma1 (dE s))) (Ch (dE s) (dF s) (dG s)))
                  (add32 k w) in
  let t2 := add32 (Sigma0 (dA s)) (Maj (dA s) (dB s) (dC s)) in
  Digest (add32 t1 t2) (dA s) (dB s) (dC s) (add32 (dD s) t1) (dE s) (dF s) (dG s).

Definition compress (h : digest) (block : list N) : digest :=
  let s := fold_left round (combine K (schedule block)) h in
  Digest (add32 (dA h) (dA s)) (add32 (dB h) (dB s)) (add32 (dC h) (dC s))
         (add32 (dD h) (dD s)) (add32 (dE h) (dE s)) (add32 (dF h) (dF s))
         (add32 (dG h) (dG s)) (add32 (dH h) (dH s)).

(** Sixteen-word blocks, taken off the front, one per unit of fuel. *)
Fixpoint blocks (fuel : nat) (h : digest) (ws : list N) : digest :=
  match fuel with
  | O => h
  | S fuel' =>
      match ws with
      | [] => h
      | _ => blocks fuel' (compress h (firstn 16 ws)) (skipn 16 ws)
      end
  end.

Definition output (h : digest) : list byte :=
  be32 (dA h) ++ be32 (dB h) ++ be32 (dC h) ++ be32 (dD h) ++
  be32 (dE h) ++ be32 (dF h) ++ be32 (dG h) ++ be32 (dH h).

(** [sha256.Sum256]. *)
Definition sum (msg : list byte) : list byte :=
  let ws := words_of (pad msg) in
  output (blocks (length ws) init ws).
End SHA256.

(** ** crypto/hmac over SHA-256 (block size 64) *)

Module HMAC.
Definition xor_byte (a b : byte) : byte :=
  SHA256.byte_of_N (N.lxor (Byte.to_N a) (Byte.to_N b)).

(** The key as [hmac.New] prepares it: hashed when longer than a block,
    then filled with zeros to the block size. *)
Definition block_key (key : list byte) : list byte :=
  let k := if (64 <? length key)%nat then SHA256.sum key else key in
  k ++ repeat x00 (64 - length k)%nat.

(** The [hash.Hash] that [hmac.New(sha256.New, key)] returns: the outer
    pad, and everything written to the inner hash so far. *)
Record hash := Hash { opad : list byte; inner : list byte }.

Definition New (key : list byte) : hash :=
  let k := block_key key in
  Hash (map (xor_byte x5c) k) (map (xor_byte x36) k).

Definition Write (h : hash) (p : list byte) : hash :=
  Hash (opad h) (inner h ++ p).

Definition Sum (h : hash) (b : list byte) : list byte :=
  b ++ SHA256.sum (opad h ++ SHA256.sum (inner h)).
End HMAC.

(** ** encoding/base64, [StdEncoding] *)

Module Base64.
Definition encodeStd : string :=
  "ABCDEFGHIJKLMNOPQRSTUVWXYZabcdefghijklmnopqrstuvwxyz0123456789+/".

Definition enc (i : N) : ascii :=
  nth (N.to_nat (N.land i 0x3f)) (list_ascii_of_string encodeStd) "A"%char.

Definition padChar : ascii := "="%char.

(** [EncodeToString]: three bytes make four characters; a remainder of
    one or two bytes is padded with [=]. *)
Fixpoint EncodeToString (src : list byte) : string :=
  match src with
  | [] => ""
  | [a] =>
      let v := N.shiftl (Byte.to_N a) 16 in
      String (enc (N.shiftr v 18)) (String (enc (N.shiftr v 12))
        (String padChar (String padChar "")))
  | [a; b] =>
      let v := N.lor (N.shiftl (Byte.to_N a) 16) (N.shiftl (Byte.to_N b) 8) in
      String (enc (N.shiftr v 18)) (String (enc (N.shiftr v 12))
        (String (enc (N.shiftr v 6)) (String padChar "")))
  | a :: b :: c :: rest =>
      let v := N.lor (N.lor (N.shiftl (Byte.to_N a) 16) (N.shiftl (Byte.to_N b) 8))
                     (Byte.to_N c) in
      String (enc (N.shiftr v 18)) (String (enc (N.shiftr v 12))
        (String (enc (N.shiftr v 6)) (String (enc v) (EncodeToString rest))))
  end.
End Base64.

Definition hex_digit (n : N) : ascii :=
  nth (N.to_nat n) (list_ascii_of_string "0123456789abcdef") "0"%char.
Fixpoint hex (l : list byte) : string :=
  match l with
  | [] => ""
  | b :: rest =>
      String (hex_digit (N.shiftr (Byte.to_N b) 4))
        (String (hex_digit (N.land (Byte.to_N b) 15)) (hex rest))
  end.

(** ** encoding/json values

    The dynamic values behind [interface{}] that [encoding/json] reads
    and writes: [nil], [bool], [float64], [string], [[]interface{}] and
    [map[string]interface{}] (a [map[string]string] is an object of
    strings). *)

#[warnings="-register-all"]
Inductive json : Type :=
  | JNull
  | JBool (b : bool)
  | JNum (x : float)
  | JStr (s : string)
  | JArr (l : list json)
  | JObj (m : gmap string json).

(** [v, ok := m[k].(string)]: the zero string and [false] when the key
    is missing or holds a value of another type. *)
Definition string_field (m : gmap string json) (k : string) : string * bool :=
  match m !! k with
  | Some (JStr s) => (s, true)
  | _ => ("", false)
  end.

(** ** Errors and results

    A Go [error] is modelled by its message, the text of [err.Error()];
    a nil error is [None].  A pair [(T, error)] is a [result]. *)

Definition error : Type := string.

Inductive result (A : Type) : Type :=
  | Ok (a : A)
  | Err (e : error).
Arguments Ok {A} a.
Arguments Err {A} e.

Definition nl : string := String "010" "".

(** [fmt.Errorf("...: %v", errs)] prints a slice of errors as the
    messages between brackets, separated by spaces. *)
Definition format_v_errors (errs : list error) : string :=
  "[" +:+ join " " errs +:+ "]".

(** ** models *)

(** Modelled from the spec: the structs of [internal/models] are not among
    the sources.  [Agent] is the spec's Agent, with the fields that
    [buildMessage] reads, under the names it reads them by. *)
Record Agent := {
  Agent_ID : string;
  Agent_Name : string;
  Agent_Hostname : string;
  Agent_IP : string }.

(** Modelled from the spec: [models.AlertRecord], the spec's Alert Record;
    the times are epoch milliseconds, the threshold and the value are
    [float64]. *)
Record AlertRecord := {
  Record_AlertType : string;
  Record_Message : string;
  Record_Threshold : float;
  Record_ActualValue : float;
  Record_Level : string;
  Record_Status : string;
  Record_FiredAt : Z;
  Record_ResolvedAt : Z }.

(** Modelled from the spec: [models.NotificationChannelConfig], the spec's
    Notification Channel Config [(type, enabled, config)], [config] being
    the type-specific bag. *)
Record NotificationChannelConfig := {
  Channel_Type : string;
  Channel_Enabled : bool;
  Channel_Config : gmap string json }.

Record WeComResult := {
  Errcode : Z;
  Errmsg : string;
  WeCom_Type : string;
  MediaId : string;
  CreatedAt : string }.

(** Modelled from the spec: [models.Property], a row of the key-value
    store: the id, the name and the JSON text of the value. *)
Record Property := {
  Property_ID : string;
  Property_Name : string;
  Property_Value : string }.

(** ** The world outside the program

    What the code does to its environment is kept in a [World]: how often
    the clock was read, the requests handed to [client.Do], in order, and
    the lines written to the logger.  What the environment answers is a
    [Runtime]: the clock, the HTTP transport, the JSON codec and the two
    formatters of [fmt] and [time] that the message template uses. *)

Record Request := {
  req_method : string;
  req_url : string;
  req_header : list (string * string);
  req_body : string }.

Record LogEntry := {
  log_level : string;
  log_msg : string;
  log_fields : list (string * string) }.

Record World := {
  clock_reads : nat;
  requests : list Request;
  logged : list LogEntry }.

Record Runtime := {
  (** [time.Now().UnixMilli()] at the n-th reading of the clock *)
  now_ms : nat -> Z;
  (** [http.NewRequestWithContext]: the error for a URL it rejects *)
  url_error : string -> option error;
  (** [client.Do] after the given earlier requests: a transport error
      (also the 10 s timeout and a cancelled context), or the status
      code and the body that [io.ReadAll] yields *)
  client_Do : list Request -> Request -> result (Z * string);
  json_Marshal : json -> result string;
  (** [json.Unmarshal] into [interface{}], a [WeComResult] and the
      channel list *)
  json_Unmarshal : string -> result json;
  json_Unmarshal_WeComResult : string -> result WeComResult;
  json_Unmarshal_channels : string -> result (list NotificationChannelConfig);
  (** [fmt.Sprintf("%.2f", x)] *)
  format_f2 : float -> string;
  (** [time.Unix(sec, 0).Format("2006-01-02 15:04:05")] *)
  format_time : Z -> string }.

(** A computation over a state [S]; [M] is the one of the notifier. *)
Definition State (S A : Type) : Type := S -> A * S.
Definition ret {S A} (a : A) : State S A := fun s => (a, s).
Definition bind {S A B} (m : State S A) (k : A -> State S B) : State S B :=
  fun s => let (a, s') := m s in k a s'.

Notation "x <- m ;; k" := (bind m (fun x => k))
  (at level 100, m at next level, right associativity).
Notation "m ;;; k" := (bind m (fun _ => k))
  (at level 100, right associativity).

Definition M (A : Type) : Type := State World A.

Definition time_Now_UnixMilli (rt : Runtime) : M Z :=
  fun w => (now_ms rt (clock_reads w),
            {| clock_reads := S (clock_reads w); requests := requests w; logged := logged w |}).

Definition logger (level msg : string) (fields : list (string * string)) : M unit :=
  fun w => (tt, {| clock_reads := clock_reads w; requests := requests w;
                   logged := logged w ++ [ {| log_level := level; log_msg := msg; log_fields := fields |} ] |}).

Definition http_Do (rt : Runtime) (req : Request) : M (result (Z * string)) :=
  fun w => (client_Do rt (requests w) req,
            {| clock_reads := clock_reads w; requests := requests w ++ [req]; logged := logged w |}).

(** ** internal/service/notifier.go *)

(** [buildMessage]: the text of an alert, by the record's status. *)
Definition buildMessage (rt : Runtime) (agent : Agent) (record : AlertRecord) : string :=
  let levelIcon :=
    if String.eqb (Record_Level record) "info" then "ℹ️"
    else if String.eqb (Record_Level record) "warning" then "⚠️"
    else if String.eqb (Record_Level record) "critical" then "🚨"
    else "" in
  let alertTypeName :=
    if String.eqb (Record_AlertType record) "cpu" then "CPU告警"
    else if String.eqb (Record_AlertType record) "memory" then "内存告警"
    else if String.eqb (Record_AlertType record) "disk" then "磁盘告警"
    else if String.eqb (Record_AlertType record) "network" then "网络断开告警"
    else if String.eqb (Record_AlertType record) "cert" then "证书告警"
    else if String.eqb (Record_AlertType record) "service" then "服务告警"
    else "" in
  if String.eqb (Record_Status record) "firing" then
    levelIcon +:+ " " +:+ alertTypeName +:+ nl +:+ nl +:+
    "探针: " +:+ Agent_Name agent +:+ " (" +:+ Agent_ID agent +:+ ")" +:+ nl +:+
    "主机: " +:+ Agent_Hostname agent +:+ nl +:+
    "IP: " +:+ Agent_IP agent +:+ nl +:+
    "告警类型: " +:+ Record_AlertType record +:+ nl +:+
    "告警消息: " +:+ Record_Message record +:+ nl +:+
    "阈值: " +:+ format_f2 rt (Record_Threshold record) +:+ "%" +:+ nl +:+
    "当前值: " +:+ format_f2 rt (Record_ActualValue record) +:+ "%" +:+ nl +:+
    "触发时间: " +:+ format_time rt (Z.quot (Record_FiredAt record) 1000)
  else if String.eqb (Record_Status record) "resolved" then
    "✅ " +:+ alertTypeName +:+ "已恢复" +:+ nl +:+ nl +:+
    "探针: " +:+ Agent_Name agent +:+ " (" +:+ Agent_ID agent +:+ ")" +:+ nl +:+
    "主机: " +:+ Agent_Hostname agent +:+ nl +:+
    "IP: " +:+ Agent_IP agent +:+ nl +:+
    "告警类型: " +:+ Record_AlertType record +:+ nl +:+
    "当前值: " +:+ format_f2 rt (Record_ActualValue record) +:+ "%" +:+ nl +:+
    "恢复时间: " +:+ format_time rt (Z.quot (Record_ResolvedAt record) 1000)
  else "".

(** [sendJSONRequest]: marshal, build the POST, send it, read the answer;
    a status outside [200, 300) is an error that quotes the whole body. *)
Definition sendJSONRequest (rt : Runtime) (url : string) (body : json) : M (result string) :=
  match json_Marshal rt body with
  | Err e => ret (Err ("序列化请求体失败: " +:+ e))
  | Ok data =>
      match url_error rt url with
      | Some e => ret (Err ("创建请求失败: " +:+ e))
      | None =>
          let req := {| req_method := "POST"; req_url := url;
                        req_header := [("Content-Type", "application/json")];
                        req_body := data |} in
          resp <- http_Do rt req ;;
          match resp with
          | Err e => ret (Err ("发送请求失败: " +:+ e))
          | Ok (StatusCode, respBody) =>
              if (StatusCode <? 200) || (StatusCode >=? 300) then
                ret (Err ("请求失败，状态码: " +:+ format_d StatusCode +:+ ", 响应: " +:+ respBody))
              else
                logger "info" "通知发送成功" [("url", url); ("response", respBody)] ;;;
                ret (Ok respBody)
          end
      end
  end.

(** The [body] literals of the four senders. *)
Definition dingTalkBody (message : string) : json :=
  JObj (<["msgtype" := JStr "text"]> (<["text" := JObj {["content" := JStr message]}]> ∅)).
Definition weComBody (message : string) : json :=
  JObj (<["msgtype" := JStr "text"]> (<["text" := JObj {["content" := JStr message]}]> ∅)).
Definition feishuBody (message : string) : json :=
  JObj (<["msg_type" := JStr "text"]> (<["content" := JObj {["text" := JStr message]}]> ∅)).
Definition customWebhookBody (message : string) : json :=
  JObj (<["msg_type" := JStr "text"]> (<["text" := JObj {["content" := JStr message]}]> ∅)).

(** [calculateDingTalkSign] *)
Definition calculateDingTalkSign (timestamp : Z) (secret : string) : string :=
  let stringToSign := format_d timestamp +:+ nl +:+ secret in
  let h := HMAC.New (bytes_of_string secret) in
  let h := HMAC.Write h (bytes_of_string stringToSign) in
  Base64.EncodeToString (HMAC.Sum h []).

Definition error_of {A} (r : result A) : option error :=
  match r with
  | Ok _ => None
  | Err e => Some e
  end.

(** [sendDingTalk]: the clock is read whether or not a secret is set. *)
Definition sendDingTalk (rt : Runtime) (webhook secret message : string) : M (option error) :=
  let body := dingTalkBody message in
  timestamp <- time_Now_UnixMilli rt ;;
  let webhook :=
    if negb (String.eqb secret "") then
      let sign := calculateDingTalkSign timestamp secret in
      webhook +:+ "&timestamp=" +:+ format_d timestamp +:+ "&sign=" +:+ sign
    else webhook in
  r <- sendJSONRequest rt webhook body ;;
  ret (error_of r).

(** [sendWeCom]: a 2xx answer is still a failure when its body does not
    decode or carries a non-zero [errcode]. *)
Definition sendWeCom (rt : Runtime) (webhook message : string) : M (option error) :=
  let body := weComBody message in
  r <- sendJSONRequest rt webhook body ;;
  match r with
  | Err e => ret (Some e)
  | Ok result =>
      match json_Unmarshal_WeComResult rt result with
      | Err e => ret (Some e)
      | Ok weComResult =>
          if negb (Errcode weComResult =? 0) then ret (Some (Errmsg weComResult))
          else ret None
      end
  end.

Definition sendFeishu (rt : Runtime) (webhook message : string) : M (option error) :=
  let body := feishuBody message in
  r <- sendJSONRequest rt webhook body ;;
  ret (error_of r).

Definition sendCustomWebhook (rt : Runtime) (webhook message : string) : M (option error) :=
  let body := customWebhookBody message in
  r <- sendJSONRequest rt webhook body ;;
  ret (error_of r).

(** [sendDingTalkByConfig]: the access token makes the URL, the optional
    [signSecret] is handed on. *)
Definition sendDingTalkByConfig (rt : Runtime) (config : gmap string json)
    (message : string) : M (option error) :=
  let '(secretKey, ok) := string_field config "secretKey" in
  if negb ok || String.eqb secretKey "" then ret (Some "钉钉配置缺少 secretKey")
  else
    let webhook := "https://oapi.dingtalk.com/robot/send?access_token=" +:+ secretKey in
    let '(signSecret, _) := string_field config "signSecret" in
    sendDingTalk rt webhook signSecret message.

Definition sendWeComByConfig (rt : Runtime) (config : gmap string json)
    (message : string) : M (option error) :=
  let '(secretKey, ok) := string_field config "secretKey" in
  if negb ok || String.eqb secretKey "" then ret (Some "企业微信配置缺少 secretKey")
  else
    let webhook := "https://qyapi.weixin.qq.com/cgi-bin/webhook/send?key=" +:+ secretKey in
    sendWeCom rt webhook message.

Definition sendFeishuByConfig (rt : Runtime) (config : gmap string json)
    (message : string) : M (option error) :=
  let '(secretKey, ok) := string_field config "secretKey" in
  if negb ok || String.eqb secretKey "" then ret (Some "飞书配置缺少 secretKey")
  else
    let webhook := "https://open.feishu.cn/open-apis/bot/v2/hook/" +:+ secretKey in
    sendFeishu rt webhook message.

Definition sendWebhookByConfig (rt : Runtime) (config : gmap string json)
    (message : string) : M (option error) :=
  let '(url, ok) := string_field config "url" in
  if negb ok || String.eqb url "" then ret (Some "自定义Webhook配置缺少 url")
  else sendCustomWebhook rt url message.

(** [SendNotificationByConfig]: the pointers to the channel, the record
    and the agent are modelled by what they point to. *)
Definition SendNotificationByConfig (rt : Runtime) (channelConfig : NotificationChannelConfig)
    (record : AlertRecord) (agent : Agent) : M (option error) :=
  if negb (Channel_Enabled channelConfig) then ret (Some "通知渠道已禁用")
  else
    logger "info" "发送通知" [("channelType", Channel_Type channelConfig)] ;;;
    let message := buildMessage rt agent record in
    let ty := Channel_Type channelConfig in
    if String.eqb ty "dingtalk" then sendDingTalkByConfig rt (Channel_Config channelConfig) message
    else if String.eqb ty "wecom" then sendWeComByConfig rt (Channel_Config channelConfig) message
    else if String.eqb ty "feishu" then sendFeishuByConfig rt (Channel_Config channelConfig) message
    else if String.eqb ty "webhook" then sendWebhookByConfig rt (Channel_Config channelConfig) message
    else if String.eqb ty "email" then ret (Some "邮件通知暂未实现")
    else ret (Some ("不支持的通知渠道类型: " +:+ ty)).

(** The [for ... range channelConfigs] loop of [SendNotificationByConfigs],
    with [errs] as it stands before the remaining channels. *)
Fixpoint sendAll (rt : Runtime) (channelConfigs : list NotificationChannelConfig)
    (record : AlertRecord) (agent : Agent) (errs : list error) : M (list error) :=
  match channelConfigs with
  | [] => ret errs
  | channelConfig :: rest =>
      err <- SendNotificationByConfig rt channelConfig record agent ;;
      match err with
      | Some e =>
          logger "error" "发送通知失败"
            [("channelType", Channel_Type channelConfig); ("error", e)] ;;;
          sendAll rt rest record agent (errs ++ [e])
      | None => sendAll rt rest record agent errs
      end
  end.

Definition SendNotificationByConfigs (rt : Runtime)
    (channelConfigs : list NotificationChannelConfig)
    (record : AlertRecord) (agent : Agent) : M (option error) :=
  errs <- sendAll rt channelConfigs record agent [] ;;
  if (0 <? length errs)%nat then ret (Some ("部分通知发送失败: " +:+ format_v_errors errs))
  else ret None.

(** The exported wrappers. *)
Definition SendDingTalkByConfig := sendDingTalkByConfig.
Definition SendWeComByConfig := sendWeComByConfig.
Definition SendFeishuByConfig := sendFeishuByConfig.
Definition SendWebhookByConfig := sendWebhookByConfig.

(** ** internal/handler/property_handler.go *)

Definition PropertyIDNotificationChannels : string := "notification_channels".
Definition PropertyIDSystemConfig : string := "system_config".

(** Modelled from the spec: [service.PropertyService] is not among the
    sources.  These are the methods that the handlers call on it, as any
    implementation over a store state [db] offers them; [GetValue] is the
    one instance the handlers use, decoding into the channel list. *)
Record PropertyService (db : Type) := {
  svc_Get : string -> db -> result Property;
  svc_Set : string -> string -> json -> db -> option error * db;
  svc_Delete : string -> db -> option error * db;
  svc_GetValue : string -> db -> result (list NotificationChannelConfig) }.
Arguments svc_Get {db} _ _ _.
Arguments svc_Set {db} _ _ _ _ _.
Arguments svc_Delete {db} _ _ _.
Arguments svc_GetValue {db} _ _ _.

(** What a handler reads of its [echo.Context]: the path parameters and
    what [c.Bind] makes of the request body (the name and the value of
    [SetProperty]'s request). *)
Record Context := {
  params : gmap string string;
  bound : result (string * json) }.

Definition Param (c : Context) (name : string) : string :=
  default "" (params c !! name).

(** [c.JSON(code, body)] *)
Record Response := {
  status : Z;
  resp_json : json }.

Definition StatusOK : Z := 200.
Definition StatusBadRequest : Z := 400.
Definition StatusNotFound : Z := 404.
Definition StatusInternalServerError : Z := 500.

Definition H (db A : Type) : Type := State (db * World) A.

Definition liftW {db A} (m : M A) : H db A :=
  fun s => let (a, w') := m (snd s) in (a, (fst s, w')).
Definition readDB {db A} (f : db -> A) : H db A :=
  fun s => (f (fst s), s).
Definition updateDB {db A} (f : db -> A * db) : H db A :=
  fun s => let (a, d') := f (fst s) in (a, (d', snd s)).

Definition JSON {db} (code : Z) (body : json) : H db Response :=
  ret {| status := code; resp_json := body |}.

Definition GetProperty {db} (rt : Runtime) (service : PropertyService db)
    (c : Context) : H db Response :=
  let id := Param c "id" in
  r <- readDB (svc_Get service id) ;;
  match r with
  | Err err =>
      liftW (logger "error" "获取属性失败" [("id", id); ("error", err)]) ;;;
      JSON StatusInternalServerError (JObj {["error" := JStr "获取属性失败"]})
  | Ok property =>
      let respond value :=
        JSON StatusOK (JObj (<["id" := JStr (Property_ID property)]>
                            (<["name" := JStr (Property_Name property)]>
                            (<["value" := value]> ∅)))) in
      if negb (String.eqb (Property_Value property) "") then
        match json_Unmarshal rt (Property_Value property) with
        | Err err =>
            liftW (logger "error" "解析属性值失败" [("id", id); ("error", err)]) ;;;
            JSON StatusInternalServerError (JObj {["error" := JStr "解析属性值失败"]})
        | Ok value => respond value
        end
      else respond JNull
  end.

Definition SetProperty {db} (rt : Runtime) (service : PropertyService db)
    (c : Context) : H db Response :=
  let id := Param c "id" in
  match bound c with
  | Err _ => JSON StatusBadRequest (JObj {["error" := JStr "无效的请求参数"]})
  | Ok (Name, Value) =>
      r <- updateDB (svc_Set service id Name Value) ;;
      match r with
      | Some err =>
          liftW (logger "error" "设置属性失败" [("id", id); ("error", err)]) ;;;
          JSON StatusInternalServerError (JObj {["error" := JStr "设置属性失败"]})
      | None => JSON StatusOK (JObj {["message" := JStr "设置成功"]})
      end
  end.

Definition DeleteProperty {db} (rt : Runtime) (service : PropertyService db)
    (c : Context) : H db Response :=
  let id := Param c "id" in
  r <- updateDB (svc_Delete service id) ;;
  match r with
  | Some err =>
      liftW (logger "error" "删除属性失败" [("id", id); ("error", err)]) ;;;
      JSON StatusInternalServerError (JObj {["error" := JStr "删除属性失败"]})
  | None => JSON StatusOK (JObj {["message" := JStr "删除成功"]})
  end.

(** [GetSystemConfig]: any failure of [Get] is answered with the default. *)
Definition GetSystemConfig {db} (rt : Runtime) (service : PropertyService db)
    (c : Context) : H db Response :=
  r <- readDB (svc_Get service PropertyIDSystemConfig) ;;
  match r with
  | Err _ =>
      JSON StatusOK (JObj (<["id" := JStr PropertyIDSystemConfig]>
                          (<["name" := JStr "系统配置"]>
                          (<["value" := JObj (<["systemNameEn" := JStr "Pika Monitor"]>
                                             (<["systemNameZh" := JStr "皮卡监控"]>
                                             (<["logoBase64" := JStr ""]> ∅)))]> ∅))))
  | Ok property =>
      let respond value :=
        JSON StatusOK (JObj (<["id" := JStr (Property_ID property)]>
                            (<["name" := JStr (Property_Name property)]>
                            (<["value" := value]> ∅)))) in
      if negb (String.eqb (Property_Value property) "") then
        match json_Unmarshal rt (Property_Value property) with
        | Err err =>
            liftW (logger "error" "解析属性值失败"
                     [("id", PropertyIDSystemConfig); ("error", err)]) ;;;
            JSON StatusInternalServerError (JObj {["error" := JStr "解析属性值失败"]})
        | Ok value => respond value
        end
      else respond JNull
  end.

(** [TestNotificationChannel]: the first stored channel of the asked type
    is the target; the user-visible failure is the fixed prefix followed
    by the send error as it is. *)
Definition TestNotificationChannel {db} (rt : Runtime) (service : PropertyService db)
    (c : Context) : H db Response :=
  let channelType := Param c "type" in
  if String.eqb channelType "" then
    JSON StatusBadRequest (JObj {["error" := JStr "缺少渠道类型参数"]})
  else
    r <- readDB (svc_GetValue service PropertyIDNotificationChannels) ;;
    match r with
    | Err err =>
        liftW (logger "error" "获取通知渠道配置失败" [("error", err)]) ;;;
        JSON StatusInternalServerError (JObj {["error" := JStr "获取通知渠道配置失败"]})
    | Ok channels =>
        match find (fun ch => String.eqb (Channel_Type ch) channelType) channels with
        | None => JSON StatusNotFound (JObj {["error" := JStr "通知渠道不存在，请先配置"]})
        | Some targetChannel =>
            if negb (Channel_Enabled targetChannel) then
              JSON StatusBadRequest (JObj {["error" := JStr "通知渠道未启用"]})
            else
              let message := "这是一条测试通知消息" in
              let ty := Channel_Type targetChannel in
              let finish (send : M (option error)) : H db Response :=
                sendErr <- liftW send ;;
                match sendErr with
                | Some e =>
                    liftW (logger "error" "发送测试通知失败"
                             [("type", channelType); ("error", e)]) ;;;
                    JSON StatusInternalServerError
                      (JObj {["error" := JStr ("发送测试通知失败: " +:+ e)]})
                | None => JSON StatusOK (JObj {["message" := JStr "测试通知已发送"]})
                end in
              if String.eqb ty "dingtalk" then
                finish (SendDingTalkByConfig rt (Channel_Config targetChannel) message)
              else if String.eqb ty "wecom" then
                finish (SendWeComByConfig rt (Channel_Config targetChannel) message)
              else if String.eqb ty "feishu" then
                finish (SendFeishuByConfig rt (Channel_Config targetChannel) message)
              else if String.eqb ty "webhook" then
                finish (SendWebhookByConfig rt (Channel_Config targetChannel) message)
              else JSON StatusBadRequest (JObj {["error" := JStr "不支持的通知渠道类型"]})
        end
    end.

(** ** The property store *)

(** Modelled from the spec: [PropertyService.Get], which is not among the
    sources.  The spec has the service a typed facade over a single
    key-value store with JSON-encoded values; [get(id)] reads the row of
    the id and fails when there is none. *)
Definition kv_Get (id : string) (db : gmap string Property) : result Property :=
  match db !! id with
  | Some p => Ok p
  | None => Err "record not found"
  end.

(** Modelled from the spec: [PropertyService.Set], [set(id, name, value)],
    an upsert of the row with the JSON encoding of the value. *)
Definition kv_Set (rt : Runtime) (id name : string) (value : json)
    (db : gmap string Property) : option error * gmap string Property :=
  match json_Marshal rt value with
  | Err e => (Some e, db)
  | Ok encoded =>
      (None, <[id := {| Property_ID := id; Property_Name := name;
                        Property_Value := encoded |}]> db)
  end.

(** Modelled from the spec: [PropertyService.Delete], [delete(id)]. *)
Definition kv_Delete (id : string) (db : gmap string Property)
    : option error * gmap string Property :=
  (None, delete id db).

(** Modelled from the spec: [PropertyService.GetValue], [getInto(id,
    destType)], which decodes the stored value into the caller's schema,
    here the channel list. *)
Definition kv_GetValue (rt : Runtime) (id : string) (db : gmap string Property)
    : result (list NotificationChannelConfig) :=
  match kv_Get id db with
  | Err e => Err e
  | Ok p => json_Unmarshal_channels rt (Property_Value p)
  end.

(** Modelled from the spec: the property service over the key-value
    store. *)
Definition kvService (rt : Runtime) : PropertyService (gmap string Property) :=
  {| svc_Get := kv_Get; svc_Set := kv_Set rt; svc_Delete := kv_Delete;
     svc_GetValue := kv_GetValue rt |}.

(** ** A runtime to run the model with

    The theorems below hold for every [Runtime].  To evaluate the model
    on concrete inputs, [RefJSON] is a small encoder and decoder of JSON
    texts in the way of [encoding/json] (object keys sorted, the HTML-safe
    escapes; numbers are covered where they are integers), and
    [refRuntime] completes it with a clock, a server and UTC time. *)

Module RefJSON.

Definition float_of_Z (z : Z) : float :=
  match z with
  | Z0 => PrimFloat.zero
  | Zpos p => SF2Prim (S754_finite false p 0)
  | Zneg p => SF2Prim (S754_finite true p 0)
  end.

Definition Z_of_float (f : float) : option Z :=
  match Prim2SF f with
  | S754_zero _ => Some 0
  | S754_finite s m e =>
      let signed (v : Z) := if s then - v else v in
      if 0 <=? e then Some (signed (Zpos m * 2 ^ e))
      else if Zpos m mod 2 ^ (- e) =? 0 then Some (signed (Zpos m / 2 ^ (- e)))
      else None
  | _ => None
  end.

Definition dquote : string := String "034" "".

Definition hex2 (n : N) : string :=
  String (hex_digit (N.shiftr n 4)) (String (hex_digit (N.land n 15)) "").

Definition escape_char (c : ascii) : string :=
  let n := N_of_ascii c in
  if (n =? 34)%N then "\" +:+ dquote
  else if (n =? 92)%N then "\\"
  else if (n =? 10)%N then "\n"
  else if (n =? 13)%N then "\r"
  else if (n =? 9)%N then "\t"
  else if (n <? 32)%N || (n =? 60)%N || (n =? 62)%N || (n =? 38)%N then "\u00" +:+ hex2 n
  else String c "".

Fixpoint escape (s : string) : string :=
  match s with
  | EmptyString => ""
  | String c r => escape_char c +:+ escape r
  end.

Definition quoted (s : string) : string := dquote +:+ escape s +:+ dquote.

Definition field_le (a b : string * string) : Prop := String.leb a.1 b.1.
#[local] Instance field_le_dec a b : Decision (field_le a b) := _.

Fixpoint Marshal (v : json) : result string :=
  match v with
  | JNull => Ok "null"
  | JBool b => Ok (if b then "true" else "false")
  | JNum x =>
      match Z_of_float x with
      | Some z => Ok (format_d z)
      | None => Err "json: unsupported value"
      end
  | JStr s => Ok (quoted s)
  | JArr l =>
      let parts :=
        (fix go (l : list json) : result (list string) :=
           match l with
           | [] => Ok []
           | x :: r =>
               match Marshal x, go r with
               | Ok a, Ok b => Ok (a :: b)
               | Err e, _ => Err e
               | _, Err e => Err e
               end
           end) l in
      match parts with
      | Ok parts => Ok ("[" +:+ join "," parts +:+ "]")
      | Err e => Err e
      end
  | JObj m =>
      let fields :=
        map_fold (fun k x acc =>
                    match Marshal x, acc with
                    | Ok a, Ok l => Ok ((k, a) :: l)
                    | Err e, _ => Err e
                    | _, Err e => Err e
                    end) (Ok []) m in
      match fields with
      | Ok fields =>
          Ok ("{" +:+ join "," (map (fun f => quoted f.1 +:+ ":" +:+ f.2)
                                   (merge_sort field_le fields)) +:+ "}")
      | Err e => Err e
      end
  end.

Definition is_ws (c : ascii) : bool :=
  let n := N_of_ascii c in
  ((n =? 32) || (n =? 9) || (n =? 10) || (n =? 13))%N.

Fixpoint skip_ws (s : string) : string :=
  match s with
  | String c r => if is_ws c then skip_ws r else s
  | EmptyString => s
  end.

Fixpoint drop_chars (n : nat) (s : string) : string :=
  match n, s with
  | S n', String _ r => drop_chars n' r
  | _, _ => s
  end.

Definition hex_val (c : ascii) : option N :=
  let n := N_of_ascii c in
  if ((48 <=? n) && (n <=? 57))%N then Some (n - 48)%N
  else if ((97 <=? n) && (n <=? 102))%N then Some (n - 87)%N
  else if ((65 <=? n) && (n <=? 70))%N then Some (n - 55)%N
  else None.

(** UTF-8 of a code point of the basic plane. *)
Definition utf8 (u : N) : string :=
  if (u <? 0x80)%N then String (ascii_of_N u) ""
  else if (u <? 0x800)%N then
    String (ascii_of_N (N.lor 0xc0 (N.shiftr u 6)))
      (String (ascii_of_N (N.lor 0x80 (N.land u 0x3f))) "")
  else
    String (ascii_of_N (N.lor 0xe0 (N.shiftr u 12)))
      (String (ascii_of_N (N.lor 0x80 (N.land (N.shiftr u 6) 0x3f)))
        (String (ascii_of_N (N.lor 0x80 (N.land u 0x3f))) "")).

(** The rest of a string literal, after its opening quote. *)
Fixpoint string_body (s : string) : option (string * string) :=
  match s with
  | EmptyString => None
  | String c r =>
      let n := N_of_ascii c in
      if (n =? 34)%N then Some ("", r)
      else if (n =? 92)%N then
        match r with
        | String e r' =>
            let m := N_of_ascii e in
            if (m =? 117)%N then
              match r' with
              | String h1 (String h2 (String h3 (String h4 r''))) =>
                  match hex_val h1, hex_val h2, hex_val h3, hex_val h4, string_body r'' with
                  | Some a, Some b, Some c', Some d, Some (t, rest) =>
                      let u := (a * 4096 + b * 256 + c' * 16 + d)%N in
                      if ((0xd800 <=? u) && (u <=? 0xdfff))%N then None
                      else Some (utf8 u +:+ t, rest)
                  | _, _, _, _, _ => None
                  end
              | _ => None
              end
            else
              let ch :=
                if (m =? 34)%N || (m =? 92)%N || (m =? 47)%N then Some e
                else if (m =? 110)%N then Some "010"%char
                else if (m =? 114)%N then Some "013"%char
                else if (m =? 116)%N then Some "009"%char
                else if (m =? 98)%N then Some "008"%char
                else if (m =? 102)%N then Some "012"%char
                else None in
              match ch, string_body r' with
              | Some ch, Some (t, rest) => Some (String ch t, rest)
              | _, _ => None
              end
        | EmptyString => None
        end
      else if (n <? 32)%N then None
      else
        match string_body r with
        | Some (t, rest) => Some (String c t, rest)
        | None => None
        end
  end.

Definition is_digit (c : ascii) : bool :=
  let n := N_of_ascii c in ((48 <=? n) && (n <=? 57))%N.

Fixpoint digits (s : string) (acc : Z) : Z * string :=
  match s with
  | String c r =>
      if is_digit c then digits r (10 * acc + Z.of_N (N_of_ascii c - 48)) else (acc, s)
  | EmptyString => (acc, s)
  end.

(** An integer literal; a fraction or an exponent is not covered. *)
Definition number (s : string) : option (Z * string) :=
  let '(neg, s') :=
    match s with
    | String c r => if (N_of_ascii c =? 45)%N then (true, r) else (false, s)
    | EmptyString => (false, s)
    end in
  match s' with
  | String c _ =>
      if is_digit c then
        let '(z, rest) := digits s' 0 in
        match rest with
        | String d _ =>
            if ((N_of_ascii d =? 46) || (N_of_ascii d =? 101) || (N_of_ascii d =? 69))%N
            then None else Some (if neg then - z else z, rest)
        | EmptyString => Some (if neg then - z else z, rest)
        end
      else None
  | EmptyString => None
  end.

Fixpoint value (fuel : nat) (s : string) : option (json * string) :=
  match fuel with
  | O => None
  | S fuel =>
      match skip_ws s with
      | EmptyString => None
      | String c r as s' =>
          let n := N_of_ascii c in
          if (n =? 123)%N then
            match skip_ws r with
            | String c' r' =>
                if (N_of_ascii c' =? 125)%N then Some (JObj ∅, r')
                else members fuel (String c' r') ∅
            | EmptyString => None
            end
          else if (n =? 91)%N then
            match skip_ws r with
            | String c' r' =>
                if (N_of_ascii c' =? 93)%N then Some (JArr [], r')
                else elements fuel (String c' r') []
            | EmptyString => None
            end
          else if (n =? 34)%N then
            match string_body r with
            | Some (t, rest) => Some (JStr t, rest)
            | None => None
            end
          else if has_prefix "null" s' then Some (JNull, drop_chars 4 s')
          else if has_prefix "true" s' then Some (JBool true, drop_chars 4 s')
          else if has_prefix "false" s' then Some (JBool false, drop_chars 5 s')
          else
            match number s' with
            | Some (z, rest) => Some (JNum (float_of_Z z), rest)
            | None => None
            end
      end
  end
with elements (fuel : nat) (s : string) (acc : list json) : option (json * string) :=
  match fuel with
  | O => None
  | S fuel =>
      match value fuel s with
      | Some (v, r) =>
          match skip_ws r with
          | String c r' =>
              if (N_of_ascii c =? 44)%N then elements fuel r' (acc ++ [v])
              else if (N_of_ascii c =? 93)%N then Some (JArr (acc ++ [v]), r')
              else None
          | EmptyString => None
          end
      | None => None
      end
  end
with members (fuel : nat) (s : string) (acc : gmap string json) : option (json * string) :=
  match fuel with
  | O => None
  | S fuel =>
      match skip_ws s with
      | String q r =>
          if (N_of_ascii q =? 34)%N then
            match string_body r with
            | Some (k, r1) =>
                match skip_ws r1 with
                | String colon r2 =>
                    if (N_of_ascii colon =? 58)%N then
                      match value fuel r2 with
                      | Some (v, r3) =>
                          match skip_ws r3 with
                          | String c r4 =>
                              if (N_of_ascii c =? 44)%N then members fuel r4 (<[k := v]> acc)
                              else if (N_of_ascii c =? 125)%N then Some (JObj (<[k := v]> acc), r4)
                              else None
                          | EmptyString => None
                          end
                      | None => None
                      end
                    else None
                | EmptyString => None
                end
            | None => None
            end
          else None
      | EmptyString => None
      end
  end.

(** [json.Unmarshal(data, &v)] for [v interface{}]. *)
Definition Unmarshal (data : string) : result json :=
  match value (2 * String.length data + 2) data with
  | Some (v, rest) =>
      match skip_ws rest with
      | EmptyString => Ok v
      | _ => Err "invalid character after top-level value"
      end
  | None => Err "unexpected end of JSON input"
  end.

Definition lower_char (c : ascii) : ascii :=
  let n := N_of_ascii c in
  if ((65 <=? n) && (n <=? 90))%N then ascii_of_N (n + 32) else c.

Fixpoint lower (s : string) : string :=
  match s with
  | EmptyString => ""
  | String c r => String (lower_char c) (lower r)
  end.

(** The member that fills the struct field tagged [name]: the exact
    key, or else one that matches without regard to case. *)
Definition member (m : gmap string json) (name : string) : option json :=
  match m !! name with
  | Some v => Some v
  | None =>
      snd <$> find (fun kv => String.eqb (lower kv.1) name) (map_to_list m)
  end.

Definition string_member (m : gmap string json) (name : string) : result string :=
  match member m name with
  | None | Some JNull => Ok ""
  | Some (JStr s) => Ok s
  | Some _ => Err ("json: cannot unmarshal into Go struct field " +:+ name +:+ " of type string")
  end.

(** [json.Unmarshal(data, &weComResult)] *)
Definition Unmarshal_WeComResult (data : string) : result WeComResult :=
  match Unmarshal data with
  | Err e => Err e
  | Ok JNull => Ok {| Errcode := 0; Errmsg := ""; WeCom_Type := ""; MediaId := ""; CreatedAt := "" |}
  | Ok (JObj m) =>
      let code :=
        match member m "errcode" with
        | None | Some JNull => Ok 0
        | Some (JNum x) =>
            match Z_of_float x with
            | Some z => Ok z
            | None => Err "json: cannot unmarshal number into Go struct field errcode of type int"
            end
        | Some _ => Err "json: cannot unmarshal into Go struct field errcode of type int"
        end in
      match code, string_member m "errmsg", string_member m "type",
            string_member m "media_id", string_member m "created_at" with
      | Ok c, Ok msg, Ok t, Ok mid, Ok cat =>
          Ok {| Errcode := c; Errmsg := msg; WeCom_Type := t; MediaId := mid; CreatedAt := cat |}
      | Err e, _, _, _, _ | _, Err e, _, _, _ | _, _, Err e, _, _
      | _, _, _, Err e, _ | _, _, _, _, Err e => Err e
      end
  | Ok _ => Err "json: cannot unmarshal into Go value of type service.WeComResult"
  end.

Definition channel_of (v : json) : result NotificationChannelConfig :=
  match v with
  | JNull => Ok {| Channel_Type := ""; Channel_Enabled := false; Channel_Config := ∅ |}
  | JObj m =>
      let enabled :=
        match member m "enabled" with
        | None | Some JNull => Ok false
        | Some (JBool b) => Ok b
        | Some _ => Err "json: cannot unmarshal into Go struct field enabled of type bool"
        end in
      let config :=
        match member m "config" with
        | None | Some JNull => Ok ∅
        | Some (JObj c) => Ok c
        | Some _ => Err "json: cannot unmarshal into Go struct field config of type map[string]interface {}"
        end in
      match string_member m "type", enabled, config with
      | Ok t, Ok e, Ok c => Ok {| Channel_Type := t; Channel_Enabled := e; Channel_Config := c |}
      | Err e, _, _ | _, Err e, _ | _, _, Err e => Err e
      end
  | _ => Err "json: cannot unmarshal into Go value of type struct"
  end.

Fixpoint channels_of (l : list json) : result (list NotificationChannelConfig) :=
  match l with
  | [] => Ok []
  | v :: r =>
      match channel_of v, channels_of r with
      | Ok c, Ok cs => Ok (c :: cs)
      | Err e, _ | _, Err e => Err e
      end
  end.

(** [json.Unmarshal(data, &channels)] *)
Definition Unmarshal_channels (data : string) : result (list NotificationChannelConfig) :=
  match Unmarshal data with
  | Err e => Err e
  | Ok JNull => Ok []
  | Ok (JArr l) => channels_of l
  | Ok _ => Err "json: cannot unmarshal into Go value of type []struct"
  end.

End RefJSON.

(** UTC civil time of a count of seconds since the epoch, in the layout
    [2006-01-02 15:04:05]. *)
Definition pad_d (width : nat) (z : Z) : string :=
  let s := format_d z in
  string_repeat "0" (width - String.length s) +:+ s.

Definition utc_time (sec : Z) : string :=
  let days := sec / 86400 in
  let rem := sec mod 86400 in
  let z := days + 719468 in
  let era := z / 146097 in
  let doe := z - era * 146097 in
  let yoe := (doe - doe / 1460 + doe / 36524 - doe / 146096) / 365 in
  let doy := doe - (365 * yoe + yoe / 4 - yoe / 100) in
  let mp := (5 * doy + 2) / 153 in
  let d := doy - (153 * mp + 2) / 5 + 1 in
  let m := if mp <? 10 then mp + 3 else mp - 9 in
  let y := yoe + era * 400 + (if m <=? 2 then 1 else 0) in
  pad_d 4 y +:+ "-" +:+ pad_d 2 m +:+ "-" +:+ pad_d 2 d +:+ " " +:+
  pad_d 2 (rem / 3600) +:+ ":" +:+ pad_d 2 (rem mod 3600 / 60) +:+ ":" +:+ pad_d 2 (rem mod 60).

(** Two decimals of a number that is a whole number of hundredths. *)
Definition f2 (x : float) : string :=
  match RefJSON.Z_of_float (x * 100)%float with
  | Some h =>
      (if h <? 0 then "-" else "") +:+ format_d (Z.abs h / 100) +:+ "." +:+ pad_d 2 (Z.abs h mod 100)
  | None => "NaN"
  end.

Definition has_control (u : string) : bool :=
  existsb (fun c => (N_of_ascii c <? 32)%N || (N_of_ascii c =? 127)%N) (list_ascii_of_string u).

(** The runtime of a process whose clock starts at [t0] and advances a
    millisecond per reading, talking to [server]. *)
Definition refRuntime (t0 : Z) (server : list Request -> Request -> result (Z * string)) : Runtime :=
  {| now_ms := fun n => t0 + Z.of_nat n;
     url_error := fun u =>
       if has_control u then Some "net/url: invalid control character in URL" else None;
     client_Do := server;
     json_Marshal := RefJSON.Marshal;
     json_Unmarshal := RefJSON.Unmarshal;
     json_Unmarshal_WeComResult := RefJSON.Unmarshal_WeComResult;
     json_Unmarshal_channels := RefJSON.Unmarshal_channels;
     format_f2 := f2;
     format_time := utc_time |}.

Definition world0 : World := {| clock_reads := 0; requests := []; logged := [] |}.

(** A server that answers every request alike. *)
Definition always (code : Z) (body : string) : list Request -> Request -> result (Z * string) :=
  fun _ _ => Ok (code, body).

(** ** The notions the properties speak of *)

(** HMAC as RFC 2104 words it, [H((K xor opad) || H((K xor ipad) || m))]
    with SHA-256 for [H], and the DingTalk sign as the specification
    words it: [base64(HMAC_SHA256(secret, "{timestamp}\n{secret}"))]. *)
Definition HMAC_SHA256 (key msg : list byte) : list byte :=
  let k := HMAC.block_key key in
  SHA256.sum (map (HMAC.xor_byte x5c) k ++ SHA256.sum (map (HMAC.xor_byte x36) k ++ msg)).

Definition spec_sign (timestamp : Z) (secret : string) : string :=
  Base64.EncodeToString
    (HMAC_SHA256 (bytes_of_string secret)
                 (bytes_of_string (format_d timestamp +:+ nl +:+ secret))).

(** The world after the clock was read once. *)
Definition tick (w : World) : World :=
  {| clock_reads := S (clock_reads w); requests := requests w; logged := logged w |}.

(** The world after one more line of the log. *)
Definition log_line (level msg : string) (fields : list (string * string)) (w : World) : World :=
  snd (logger level msg fields w).

(** Sending [body] to [url] and keeping the error only. *)
Definition post (rt : Runtime) (url : string) (body : json) : M (option error) :=
  fun w => let (r, w') := sendJSONRequest rt url body w in (error_of r, w').

(** The answer that a POST of [body] to [url] receives in world [w], if
    the request can be made and the transport delivers one. *)
Definition exchange (rt : Runtime) (url : string) (body : json) (w : World) : option (Z * string) :=
  match json_Marshal rt body with
  | Err _ => None
  | Ok data =>
      match url_error rt url with
      | Some _ => None
      | None =>
          match client_Do rt (requests w)
                  {| req_method := "POST"; req_url := url;
                     req_header := [("Content-Type", "application/json")];
                     req_body := data |} with
          | Ok r => Some r
          | Err _ => None
          end
      end
  end.

(** The URL that [sendDingTalk] posts to, for the timestamp it read. *)
Definition dingTalkURL (webhook secret : string) (timestamp : Z) : string :=
  if String.eqb secret "" then webhook
  else webhook +:+ "&timestamp=" +:+ format_d timestamp +:+ "&sign=" +:+
       calculateDingTalkSign timestamp secret.

(** One dispatch per channel, in order, each in the world its
    predecessors left, whatever they returned: the outcomes, one per
    channel, and the final world. *)
Fixpoint attempts (rt : Runtime) (channelConfigs : list NotificationChannelConfig)
    (record : AlertRecord) (agent : Agent) (w : World) : list (option error) * World :=
  match channelConfigs with
  | [] => ([], w)
  | channelConfig :: rest =>
      let (o, w1) := SendNotificationByConfig rt channelConfig record agent w in
      let w2 :=
        match o with
        | Some e => log_line "error" "发送通知失败"
                      [("channelType", Channel_Type channelConfig); ("error", e)] w1
        | None => w1
        end in
      let (os, w3) := attempts rt rest record agent w2 in
      (o :: os, w3)
  end.

(** The errors among the outcomes. *)
Definition failures (outcomes : list (option error)) : list error :=
  omap id outcomes.

(** The bodies that a sender posts for a message, as the reference
    runtime encodes them. *)
Definition posted (send : Runtime -> string -> string -> M (option error))
    (message : string) : list string :=
  map req_body
    (requests (snd (send (refRuntime 0 (always 200 "")) "http://localhost/hook" message world0))).

(** A user-visible message that includes the channel type and no piece
    of the remote text longer than [limit] bytes. *)
Definition includes_type_and_truncated (limit : nat) (channelType remote msg : string) : Prop :=
  contains channelType msg = true /\
  forall piece, contains piece remote = true -> contains piece msg = true ->
                (String.length piece <= limit)%nat.

(** The message of an [{error: ...}] body. *)
Definition error_message (r : Response) : option string :=
  match resp_json r with
  | JObj m => match m !! "error" with Some (JStr s) => Some s | _ => None end
  | _ => None
  end.

(** A JSON text written with single quotes for the double ones. *)
Definition json_text (s : string) : string :=
  string_of_list_ascii
    (map (fun c => if Ascii.eqb c "'" then "034"%char else c) (list_ascii_of_string s)).

(** The value that [GetSystemConfig] answers when there is no stored one. *)
Definition defaultSystemConfig : json :=
  JObj (<["systemNameEn" := JStr "Pika Monitor"]>
       (<["systemNameZh" := JStr "皮卡监控"]>
       (<["logoBase64" := JStr ""]> ∅))).

(** The value of a result, if it is one. *)
Definition value_of {A} (r : result A) : option A :=
  match r with
  | Ok a => Some a
  | Err _ => None
  end.

(** The member [k] of a JSON object. *)
Definition field (v : json) (k : string) : option json :=
  match v with
  | JObj m => m !! k
  | _ => None
  end.

(** All 256 bytes, and the character that ends a Base64 text of
    [3k + 2] bytes before its padding. *)
Definition all_bytes : list byte :=
  map (fun n => SHA256.byte_of_N (N.of_nat n)) (seq 0 256).

Definition last_enc (a b : byte) : ascii :=
  Base64.enc (N.shiftr (N.lor (N.shiftl (Byte.to_N a) 16) (N.shiftl (Byte.to_N b) 8)) 6).

(** ** Further notions *)

(** Every character of [s] satisfies [P]. *)
Fixpoint string_all (P : ascii -> bool) (s : string) : bool :=
  match s with
  | EmptyString => true
  | String c r => P c && string_all P r
  end.

(** A character of the Base64 alphabet (the padding is not one). *)
Definition base64_char (c : ascii) : bool := string_mem c Base64.encodeStd.

(** The request that [sendJSONRequest] builds for a URL and the encoded
    body. *)
Definition json_post (url data : string) : Request :=
  {| req_method := "POST"; req_url := url;
     req_header := [("Content-Type", "application/json")];
     req_body := data |}.


(** The endpoints that the configured channels post to. *)
Definition dingTalkEndpoint : string := "https://oapi.dingtalk.com/robot/send?access_token=".
Definition weComEndpoint : string := "https://qyapi.weixin.qq.com/cgi-bin/webhook/send?key=".
Definition feishuEndpoint : string := "https://open.feishu.cn/open-apis/bot/v2/hook/".

(** The string that a configuration holds under a key, if it holds a
    non-empty one. *)
Definition configured (config : gmap string json) (k : string) : option string :=
  match config !! k with
  | Some (JStr s) => if String.eqb s "" then None else Some s
  | _ => None
  end.


(** A world that continues another: the requests [new] were handed to
    the client after the earlier ones, the log went on, the clock was not
    turned back. *)
Definition continues (w w' : World) (new : list Request) : Prop :=
  requests w' = requests w ++ new
  /\ (exists lines, logged w' = logged w ++ lines)
  /\ (clock_reads w <= clock_reads w')%nat.

(** A POST with the JSON content type. *)
Definition is_json_post (r : Request) : Prop :=
  req_method r = "POST" /\ req_header r = [("Content-Type", "application/json")].

(** The types that [SendNotificationByConfig] knows. *)
Definition known_type (ty : string) : bool :=
  String.eqb ty "dingtalk" || String.eqb ty "wecom" || String.eqb ty "feishu"
  || String.eqb ty "webhook" || String.eqb ty "email".

(** The step from [w] to [w'] handed exactly one request to the client,
    and the client answered it with a status code in [200, 300). *)
Definition answered_2xx (rt : Runtime) (w w' : World) : Prop :=
  exists url data code respBody,
    requests w' = requests w ++ [json_post url data]
    /\ client_Do rt (requests w) (json_post url data) = Ok (code, respBody)
    /\ 200 <= code < 300.

(** The types that are sent over HTTP. *)
Definition http_type (ty : string) : bool :=
  String.eqb ty "dingtalk" || String.eqb ty "wecom" || String.eqb ty "feishu"
  || String.eqb ty "webhook".

(** The key of the configuration that a type needs. *)
Definition needed_key (ty : string) : string :=
  if String.eqb ty "webhook" then "url" else "secretKey".

(** A step of the world that made no request and did not read the
    clock. *)
Definition quiet (w w' : World) : Prop :=
  requests w' = requests w /\ clock_reads w' = clock_reads w.

(** The log went on by the one line [entry]. *)
Definition logged_one (w w' : World) (entry : LogEntry) : Prop :=
  logged w' = logged w ++ [entry].

(** The object [{id, name, value}] that the reading handlers answer. *)
Definition property_json (id name : string) (value : json) : json :=
  JObj (<["id" := JStr id]> (<["name" := JStr name]> (<["value" := value]> ∅))).

(** The text that the test endpoint sends. *)
Definition testMessage : string := "这是一条测试通知消息".

(** The sender that the [switch] of [TestNotificationChannel] picks for
    a channel, if it picks one. *)
Definition test_send (rt : Runtime) (ch : NotificationChannelConfig)
    : option (M (option error)) :=
  let ty := Channel_Type ch in
  if String.eqb ty "dingtalk" then Some (SendDingTalkByConfig rt (Channel_Config ch) testMessage)
  else if String.eqb ty "wecom" then Some (SendWeComByConfig rt (Channel_Config ch) testMessage)
  else if String.eqb ty "feishu" then Some (SendFeishuByConfig rt (Channel_Config ch) testMessage)
  else if String.eqb ty "webhook" then Some (SendWebhookByConfig rt (Channel_Config ch) testMessage)
  else None.

(** The channels of the asked type. *)
Definition of_type (ty : string) (ch : NotificationChannelConfig) : bool :=
  String.eqb (Channel_Type ch) ty.

(** ** The page of the notification channels (src/unnamed/part_005)

    [handleSave] turns the values of the form into the list of channels
    that it saves.  A switch of the form yields a boolean and an input a
    string; a field that was never set is [undefined], here [None].  The
    channels it builds have the shape that the server decodes into
    [NotificationChannelConfig]. *)
Record FormValues := {
  dingtalkEnabled : option bool;
  dingtalkSecretKey : option string;
  dingtalkSignSecret : option string;
  wecomEnabled : option bool;
  wecomSecretKey : option string;
  feishuEnabled : option bool;
  feishuSecretKey : option string;
  feishuSignSecret : option string;
  webhookEnabled : option bool;
  webhookUrl : option string }.

(** Whether JavaScript takes the value of a switch, of an input, for
    true. *)
Definition truthy_bool (b : option bool) : bool :=
  match b with
  | Some b => b
  | None => false
  end.
Definition truthy_string (s : option string) : bool :=
  match s with
  | Some s => negb (String.eqb s "")
  | None => false
  end.

(** [b || false] and [s || ''] *)
Definition or_false (b : option bool) : bool :=
  if truthy_bool b then true else false.
Definition or_empty (s : option string) : string :=
  match s with
  | Some s => if truthy_string (Some s) then s else ""
  | None => ""
  end.

(** [handleSave], up to the list that it hands to the save mutation. *)
Definition handleSave (values : FormValues) : list NotificationChannelConfig :=
  let newChannels : list NotificationChannelConfig := [] in
  let newChannels :=
    if truthy_bool (dingtalkEnabled values) || truthy_string (dingtalkSecretKey values) then
      newChannels ++
      [ {| Channel_Type := "dingtalk";
           Channel_Enabled := or_false (dingtalkEnabled values);
           Channel_Config :=
             <["secretKey" := JStr (or_empty (dingtalkSecretKey values))]>
             (<["signSecret" := JStr (or_empty (dingtalkSignSecret values))]> ∅) |} ]
    else newChannels in
  let newChannels :=
    if truthy_bool (wecomEnabled values) || truthy_string (wecomSecretKey values) then
      newChannels ++
      [ {| Channel_Type := "wecom";
           Channel_Enabled := or_false (wecomEnabled values);
           Channel_Config := <["secretKey" := JStr (or_empty (wecomSecretKey values))]> ∅ |} ]
    else newChannels in
  let newChannels :=
    if truthy_bool (feishuEnabled values) || truthy_string (feishuSecretKey values) then
      newChannels ++
      [ {| Channel_Type := "feishu";
           Channel_Enabled := or_false (feishuEnabled values);
           Channel_Config :=
             <["secretKey" := JStr (or_empty (feishuSecretKey values))]>
             (<["signSecret" := JStr (or_empty (feishuSignSecret values))]> ∅) |} ]
    else newChannels in
  let newChannels :=
    if truthy_bool (webhookEnabled values) || truthy_string (webhookUrl values) then
      newChannels ++
      [ {| Channel_Type := "webhook";
           Channel_Enabled := or_false (webhookEnabled values);
           Channel_Config := <["url" := JStr (or_empty (webhookUrl values))]> ∅ |} ]
    else newChannels in
  newChannels.

(** The switch and the key field of the form that belong to a type. *)
Definition switch_of (values : FormValues) (ty : string) : option bool :=
  if String.eqb ty "dingtalk" then dingtalkEnabled values
  else if String.eqb ty "wecom" then wecomEnabled values
  else if String.eqb ty "feishu" then feishuEnabled values
  else if String.eqb ty "webhook" then webhookEnabled values
  else None.
Definition key_field_of (values : FormValues) (ty : string) : option string :=
  if String.eqb ty "dingtalk" then dingtalkSecretKey values
  else if String.eqb ty "wecom" then wecomSecretKey values
  else if String.eqb ty "feishu" then feishuSecretKey values
  else if String.eqb ty "webhook" then webhookUrl values
  else None.

(* ===================================================================== *)
(** * Part II: properties                                                 *)
(* ===================================================================== *)

#[local] Arguments Ascii.eqb : simpl never.

(** ** The library functions on known inputs *)

Example sha256_constants :
  nth 0 SHA256.K 0%N = 0x428a2f98%N /\ nth 63 SHA256.K 0%N = 0xc67178f2%N
  /\ SHA256.dA SHA256.init = 0x6a09e667%N /\ SHA256.dH SHA256.init = 0x5be0cd19%N.
Proof. vm_compute. auto. Qed.

Example sha256_abc :
  hex (SHA256.sum (bytes_of_string "abc"))
  = "ba7816bf8f01cfea414140de5dae2223b00361a396177a9cb410ff61f20015ad".
Proof. vm_compute. reflexivity. Qed.

Example hmac_rfc4231_2 :
  hex (HMAC.Sum (HMAC.Write (HMAC.New (bytes_of_string "Jefe"))
                   (bytes_of_string "what do ya want for nothing?")) [])
  = "5bdcc146bf60754e6a042426089575c75a003f089d2739839dec58b964ec3843".
Proof. vm_compute. reflexivity. Qed.

Example format_d_ex : format_d 1700000000000 = "1700000000000" /\ format_d 0 = "0" /\ format_d (-42) = "-42".
Proof. vm_compute. auto. Qed.

(** ** The model on known inputs *)

Example buildMessage_resolved :
  buildMessage (refRuntime 0 (always 200 ""))
    {| Agent_ID := "a1"; Agent_Name := "web-1"; Agent_Hostname := "web-1.local";
       Agent_IP := "10.0.0.1" |}
    {| Record_AlertType := "disk"; Record_Message := "disk full";
       Record_Threshold := 90; Record_ActualValue := 42.5;
       Record_Level := "critical"; Record_Status := "resolved";
       Record_FiredAt := 1700000000000; Record_ResolvedAt := 1700000060999 |}
  = "✅ 磁盘告警已恢复" +:+ nl +:+ nl +:+
    "探针: web-1 (a1)" +:+ nl +:+
    "主机: web-1.local" +:+ nl +:+
    "IP: 10.0.0.1" +:+ nl +:+
    "告警类型: disk" +:+ nl +:+
    "当前值: 42.50%" +:+ nl +:+
    "恢复时间: 2023-11-14 22:14:20".
Proof. vm_compute. reflexivity. Qed.

Example wecom_errcode :
  RefJSON.Unmarshal_WeComResult (json_text "{'errcode':93000,'errmsg':'invalid webhook url'}")
  = Ok {| Errcode := 93000; Errmsg := "invalid webhook url"; WeCom_Type := "";
          MediaId := ""; CreatedAt := "" |}
  /\ Errcode <$> value_of (RefJSON.Unmarshal_WeComResult "{}") = Some 0.
Proof. vm_compute. auto. Qed.

(** ** Occurrences of a text in a string *)


Lemma string_mem_cons c a s :
  string_mem c (String a s) = false -> Ascii.eqb c a = false /\ string_mem c s = false.
Proof. simpl. destruct (Ascii.eqb c a); auto. discriminate. Qed.

Lemma has_prefix_app_sep p : forall a c b,
  string_mem c p = false -> has_prefix p (a +:+ String c b) = has_prefix p a.
Proof.
  induction p as [|x p IH]; intros a c b Hc; [by destruct a|].
  apply string_mem_cons in Hc as [Hx Hp].
  destruct a as [|y a]; simpl.
  - rewrite Ascii.eqb_sym, Hx. reflexivity.
  - destruct (Ascii.eqb x y); [apply IH; exact Hp | reflexivity].
Qed.

Lemma count_sub_app_sep x p a c b :
  string_mem c (String x p) = false ->
  count_sub (String x p) (a +:+ String c b)
  = (count_sub (String x p) a + count_sub (String x p) (String c b))%nat.
Proof.
  intros Hc. remember (count_sub (String x p) (String c b)) as k eqn:Hk.
  induction a as [|y a IH]; [by rewrite Hk|].
  change (String y a +:+ String c b) with (String y (a +:+ String c b)).
  cbn [count_sub]. rewrite IH.
  change (String y (a +:+ String c b)) with (String y a +:+ String c b).
  rewrite (has_prefix_app_sep _ (String y a) c b Hc).
  destruct (has_prefix (String x p) (String y a)); lia.
Qed.

Lemma count_sub_no_first x p s :
  string_mem x s = false -> count_sub (String x p) s = 0%nat.
Proof.
  induction s as [|a s IH]; intros H; [reflexivity|].
  apply string_mem_cons in H as [Hx Hs].
  cbn [count_sub has_prefix]. rewrite Hx, (IH Hs). reflexivity.
Qed.

(** A text that ends in [x] and a [=] does not occur in a string whose
    only [=] is its last character, after a character other than [x]. *)
Lemma has_prefix_pad_end q : forall x u c,
  string_mem "="%char u = false -> Ascii.eqb c "="%char = false -> Ascii.eqb x c = false ->
  has_prefix (q +:+ String x "=") (u +:+ String c "=") = false.
Proof.
  induction q as [|b q IH]; intros x u c Hu Hc Hx.
  - destruct u as [|a u]; simpl.
    + rewrite Hx. reflexivity.
    + destruct (Ascii.eqb x a); [|reflexivity].
      apply string_mem_cons in Hu as [Ha Hu].
      destruct u as [|a' u]; simpl.
      * rewrite Ascii.eqb_sym, Hc. reflexivity.
      * apply string_mem_cons in Hu as [Ha' _]. rewrite Ha'. reflexivity.
  - destruct u as [|a u]; simpl.
    + destruct (Ascii.eqb b c); [|reflexivity].
      destruct q as [|d q]; simpl.
      * destruct (Ascii.eqb x "="); reflexivity.
      * destruct (Ascii.eqb d "="); [|reflexivity]. by destruct q.
    + destruct (Ascii.eqb b a); [|reflexivity].
      apply string_mem_cons in Hu as [_ Hu]. apply IH; assumption.
Qed.

Lemma count_sub_pad_end q x u c :
  string_mem "="%char u = false -> Ascii.eqb c "="%char = false -> Ascii.eqb x c = false ->
  count_sub (q +:+ String x "=") (u +:+ String c "=") = 0%nat.
Proof.
  intros Hu Hc Hx. induction u as [|a u IH].
  - pose proof (has_prefix_pad_end q x "" c eq_refl Hc Hx) as H0.
    change ("" +:+ String c "=") with (String c "=") in *.
    cbn [count_sub]. rewrite H0.
    destruct q as [|d q]; simpl.
    + destruct (Ascii.eqb x "="); reflexivity.
    + destruct (Ascii.eqb d "="); [|reflexivity]. by destruct q.
  - pose proof (has_prefix_pad_end q x (String a u) c Hu Hc Hx) as H0.
    apply string_mem_cons in Hu as [_ Hu].
    change (String a u +:+ String c "=") with (String a (u +:+ String c "=")) in *.
    cbn [count_sub]. rewrite H0, (IH Hu). reflexivity.
Qed.

Lemma string_mem_false s c :
  string_mem c s = false ->
  forall a, In a (list_ascii_of_string s) -> Ascii.eqb c a = false.
Proof.
  induction s as [|b s IH]; intros H a; [intros []|].
  apply string_mem_cons in H as [Hb Hs]. intros [<-|Ha]; auto.
Qed.

(** ** The characters of [%d] *)

Lemma string_of_uint_digits c d :
  string_mem c "0123456789" = false ->
  string_mem c (NilEmpty.string_of_uint d) = false.
Proof.
  intros H. pose proof (string_mem_false _ _ H) as Hd. simpl in Hd.
  induction d; simpl; rewrite ?Hd by tauto; auto.
Qed.

Lemma format_d_chars c z :
  string_mem c "-0123456789" = false -> string_mem c (format_d z) = false.
Proof.
  intros H. apply string_mem_cons in H as [Hm Hd].
  pose proof (string_of_uint_digits c) as Hu.
  assert (Hz : forall d, string_mem c (NilZero.string_of_uint d) = false).
  { intros d. destruct d; try apply (Hu _ Hd).
    simpl. apply string_mem_cons in Hd as [-> _]. reflexivity. }
  unfold format_d, NilZero.string_of_int.
  destruct (Z.to_int z); [apply Hz|].
  simpl. rewrite Hm. apply Hz.
Qed.

(** ** The shape of a Base64 text *)

Lemma list_ind3 {A} (P : list A -> Prop) :
  P [] -> (forall a, P [a]) -> (forall a b, P [a; b]) ->
  (forall a b c r, P r -> P (a :: b :: c :: r)) ->
  forall l, P l.
Proof.
  intros H0 H1 H2 H3. fix IH 1.
  intros [|a [|b [|c r]]]; [apply H0 | apply H1 | apply H2 | apply H3, IH].
Qed.

Lemma enc_not_pad i : Ascii.eqb (Base64.enc i) "=" = false.
Proof.
  unfold Base64.enc.
  set (k := N.to_nat (N.land i 63)).
  set (l := list_ascii_of_string Base64.encodeStd).
  assert (Hall : forallb (fun c => negb (Ascii.eqb c "=")) ("A"%char :: l) = true)
    by (vm_compute; reflexivity).
  rewrite forallb_forall in Hall.
  apply negb_true_iff, Hall.
  destruct (nth_in_or_default k l "A"%char) as [Hin| ->]; [right; exact Hin | left; reflexivity].
Qed.

Lemma string_mem_enc i u :
  string_mem "=" (String (Base64.enc i) u) = string_mem "=" u.
Proof. cbn [string_mem]. rewrite Ascii.eqb_sym, enc_not_pad. reflexivity. Qed.

Lemma all_bytes_complete (b : byte) : In b all_bytes.
Proof.
  unfold all_bytes. apply in_map_iff.
  exists (N.to_nat (Byte.to_N b)). split.
  - rewrite N2Nat.id. destruct b; reflexivity.
  - apply in_seq. pose proof (Byte.to_N_bounded b). lia.
Qed.

Lemma forall_bytes (P : byte -> bool) :
  forallb P all_bytes = true -> forall b, P b = true.
Proof.
  intros H b. rewrite forallb_forall in H. apply H, all_bytes_complete.
Qed.

(** The last character before the padding of a two-byte remainder
    carries four bits only: it is never [n] nor [p]. *)
Lemma last_enc_class a b :
  Ascii.eqb "n" (last_enc a b) = false /\ Ascii.eqb "p" (last_enc a b) = false.
Proof.
  assert (H : forallb (fun a => forallb (fun b =>
              negb (Ascii.eqb "n" (last_enc a b)) && negb (Ascii.eqb "p" (last_enc a b)))
              all_bytes) all_bytes = true) by (vm_compute; reflexivity).
  pose proof (forall_bytes _ (forall_bytes _ H a) b) as Hab.
  apply andb_true_iff in Hab as [Hn Hp].
  split; apply negb_true_iff; assumption.
Qed.

Lemma EncodeToString_shape : forall l,
  (length l mod 3 = 2)%nat ->
  exists u c, Base64.EncodeToString l = u +:+ String c "="
    /\ string_mem "=" u = false /\ Ascii.eqb c "=" = false
    /\ Ascii.eqb "n" c = false /\ Ascii.eqb "p" c = false.
Proof.
  induction l as [| a | a b | a b c r IH] using list_ind3; intros Hlen.
  - discriminate.
  - discriminate.
  - destruct (last_enc_class a b) as [Hn Hp].
    eexists (String _ (String _ "")), (last_enc a b).
    split; [reflexivity|].
    rewrite !string_mem_enc. repeat split; auto. apply enc_not_pad.
  - assert (Hr : (length r mod 3 = 2)%nat).
    { change (length (a :: b :: c :: r)) with (3 + length r)%nat in Hlen.
      replace (3 + length r)%nat with (length r + 1 * 3)%nat in Hlen by lia.
      rewrite Nat.Div0.mod_add in Hlen. exact Hlen. }
    destruct (IH Hr) as (u & x & Hu & Hmem & Hx & Hn & Hp).
    eexists (String _ (String _ (String _ (String _ u)))), x.
    split; [cbn [Base64.EncodeToString]; rewrite Hu; reflexivity|].
    rewrite !string_mem_enc. auto.
Qed.

Lemma sha256_sum_length msg : length (SHA256.sum msg) = 32%nat.
Proof. reflexivity. Qed.

Lemma count_sub_base64_digest (q : string) (x : ascii) key msg :
  x = "n"%char \/ x = "p"%char ->
  count_sub (q +:+ String x "=")
    (Base64.EncodeToString (HMAC.Sum (HMAC.Write (HMAC.New key) msg) [])) = 0%nat.
Proof.
  intros Hx.
  destruct (EncodeToString_shape (HMAC.Sum (HMAC.Write (HMAC.New key) msg) []))
    as (u & c & -> & Hu & Hc & Hn & Hp).
  { unfold HMAC.Sum. rewrite app_nil_l, sha256_sum_length. reflexivity. }
  apply count_sub_pad_end; auto. destruct Hx as [-> | ->]; assumption.
Qed.

(** ** DingTalk: the sign and the URL *)

Lemma append_cons x (a b : string) : String x a +:+ b = String x (a +:+ b).
Proof. reflexivity. Qed.

Lemma append_assoc (a b c : string) : (a +:+ b) +:+ c = a +:+ (b +:+ c).
Proof. induction a as [|x a IH]; [reflexivity | by rewrite !append_cons, IH]. Qed.

(** The streaming hash of [crypto/hmac] computes the RFC 2104 formula. *)
Lemma HMAC_stream key msg :
  HMAC.Sum (HMAC.Write (HMAC.New key) msg) [] = HMAC_SHA256 key msg.
Proof. reflexivity. Qed.

Lemma sendDingTalk_post rt webhook secret message w :
  sendDingTalk rt webhook secret message w
  = post rt (dingTalkURL webhook secret (now_ms rt (clock_reads w)))
         (dingTalkBody message) (tick w).
Proof.
  unfold sendDingTalk, post, dingTalkURL, bind, time_Now_UnixMilli, ret, tick.
  destruct (String.eqb secret ""); cbn [negb];
    match goal with |- context [sendJSONRequest ?r ?u ?b ?w'] =>
      destruct (sendJSONRequest r u b w') end; reflexivity.
Qed.

(** A POST hands at most one request to the client, and that one goes to
    the URL it was given. *)
Lemma post_requests rt url body w :
  requests (snd (post rt url body w)) = requests w
  \/ exists data,
       json_Marshal rt body = Ok data
       /\ requests (snd (post rt url body w))
          = requests w ++ [ {| req_method := "POST"; req_url := url;
                               req_header := [("Content-Type", "application/json")];
                               req_body := data |} ].
Proof.
  unfold post, sendJSONRequest.
  destruct (json_Marshal rt body) as [data|e]; [|left; reflexivity].
  destruct (url_error rt url) as [e|]; [left; reflexivity|].
  right. exists data. split; [reflexivity|].
  unfold bind, http_Do, ret, logger.
  destruct (client_Do rt (requests w) _) as [[code respBody]|e]; [|reflexivity].
  destruct ((code <? 200) || (code >=? 300)); reflexivity.
Qed.

Ltac count_known :=
  lazy [count_sub has_prefix String.append Ascii.eqb Bool.eqb Nat.add]; reflexivity.

Lemma count_timestamp_suffix t sign :
  count_sub "timestamp=" ("&timestamp=" +:+ format_d t +:+ "&sign=" +:+ sign)
  = S (count_sub "timestamp=" sign).
Proof.
  change ("&sign=" +:+ sign) with (String "&" ("sign=" +:+ sign)).
  rewrite <- append_assoc, count_sub_app_sep by reflexivity.
  replace (count_sub "timestamp=" ("&timestamp=" +:+ format_d t))
    with (S (count_sub "timestamp=" (format_d t))) by count_known.
  rewrite count_sub_no_first by (apply format_d_chars; reflexivity).
  replace (count_sub "timestamp=" (String "&" ("sign=" +:+ sign)))
    with (count_sub "timestamp=" sign) by count_known.
  reflexivity.
Qed.

Lemma count_sign_suffix t sign :
  count_sub "sign=" ("&timestamp=" +:+ format_d t +:+ "&sign=" +:+ sign)
  = S (count_sub "sign=" sign).
Proof.
  change ("&sign=" +:+ sign) with (String "&" ("sign=" +:+ sign)).
  rewrite <- append_assoc, count_sub_app_sep by reflexivity.
  replace (count_sub "sign=" ("&timestamp=" +:+ format_d t))
    with (count_sub "sign=" (format_d t)) by count_known.
  rewrite count_sub_no_first by (apply format_d_chars; reflexivity).
  replace (count_sub "sign=" (String "&" ("sign=" +:+ sign)))
    with (S (count_sub "sign=" sign)) by count_known.
  reflexivity.
Qed.

(** What signing adds to a URL: one [timestamp=] and one [sign=]. *)
Lemma signed_url_counts webhook secret t :
  secret <> "" ->
  count_sub "timestamp=" (dingTalkURL webhook secret t) = S (count_sub "timestamp=" webhook)
  /\ count_sub "sign=" (dingTalkURL webhook secret t) = S (count_sub "sign=" webhook).
Proof.
  intros Hne. unfold dingTalkURL.
  destruct (String.eqb_spec secret "") as [->|_]; [contradiction|].
  change ("&timestamp=" +:+ format_d t +:+ "&sign=" +:+ calculateDingTalkSign t secret)
    with (String "&" ("timestamp=" +:+ format_d t +:+ "&sign=" +:+ calculateDingTalkSign t secret)).
  rewrite !count_sub_app_sep by reflexivity.
  change (String "&" ("timestamp=" +:+ format_d t +:+ "&sign=" +:+ calculateDingTalkSign t secret))
    with ("&timestamp=" +:+ format_d t +:+ "&sign=" +:+ calculateDingTalkSign t secret).
  rewrite count_timestamp_suffix, count_sign_suffix.
  unfold calculateDingTalkSign.
  rewrite (count_sub_base64_digest "timestam" "p"), (count_sub_base64_digest "sig" "n") by auto.
  lia.
Qed.

(** C1. For a non-empty signing secret [secret] and the millisecond
    timestamp [t] that the adapter reads, the sign it computes is
    [base64(HMAC_SHA256(secret, "{t}\n{secret}"))]; the request goes to
    the webhook URL followed by [&timestamp={t}&sign={sign}] (no request
    that it hands to the client goes anywhere else), which adds
    exactly one [timestamp=] and exactly one [sign=] to it, so that a
    webhook URL that carried neither ends with exactly one of each.  With
    an empty secret the request goes to the webhook URL as it is. *)
Theorem dingtalk_sign_and_url (rt : Runtime) (webhook secret message : string) (w : World) :
  let t := now_ms rt (clock_reads w) in
  let sign := calculateDingTalkSign t secret in
  let url := webhook +:+ "&timestamp=" +:+ format_d t +:+ "&sign=" +:+ sign in
  (secret <> "" ->
     sign = spec_sign t secret
     /\ sendDingTalk rt webhook secret message w = post rt url (dingTalkBody message) (tick w)
     /\ (forall req, In req (requests (snd (sendDingTalk rt webhook secret message w))) ->
                     In req (requests w) \/ req_url req = url)
     /\ count_sub "timestamp=" url = S (count_sub "timestamp=" webhook)
     /\ count_sub "sign=" url = S (count_sub "sign=" webhook)
     /\ (count_sub "timestamp=" webhook = 0%nat -> count_sub "sign=" webhook = 0%nat ->
         count_sub "timestamp=" url = 1%nat /\ count_sub "sign=" url = 1%nat))
  /\ (secret = "" ->
      sendDingTalk rt webhook secret message w = post rt webhook (dingTalkBody message) (tick w)).
Proof.
  intros t sign url. split.
  - intros Hne.
    assert (Hurl : dingTalkURL webhook secret t = url).
    { unfold dingTalkURL. destruct (String.eqb_spec secret ""); [contradiction | reflexivity]. }
    destruct (signed_url_counts webhook secret t Hne) as [Hts Hsg].
    rewrite Hurl in Hts, Hsg.
    split; [unfold sign, calculateDingTalkSign, spec_sign; by rewrite HMAC_stream|].
    assert (Hpost : sendDingTalk rt webhook secret message w
                    = post rt url (dingTalkBody message) (tick w))
      by (by rewrite sendDingTalk_post; fold t; rewrite Hurl).
    split; [exact Hpost|].
    split.
    { intros req. rewrite Hpost.
      destruct (post_requests rt url (dingTalkBody message) (tick w)) as [->|(data & _ & ->)].
      - auto.
      - rewrite in_app_iff. cbn [In]. intros [H|[<-|[]]]; [left; exact H | right; reflexivity]. }
    split; [exact Hts|]. split; [exact Hsg|].
    rewrite Hts, Hsg. intros -> ->. split; reflexivity.
  - intros ->. rewrite sendDingTalk_post. reflexivity.
Qed.

(** The scenario of the specification: timestamp 1700000000000, secret
    [s], on the URL of an access token. *)
Lemma dingtalk_sign_and_url_witness :
  let rt := refRuntime 1700000000000 (always 200 "ok") in
  let webhook := "https://oapi.dingtalk.com/robot/send?access_token=tok" in
  let url := webhook +:+ "&timestamp=1700000000000&sign=izNUYw3bO0KxsDYzYMDR365t+vMgZSe8PyS8sv7esqs=" in
  calculateDingTalkSign 1700000000000 "s" = spec_sign 1700000000000 "s"
  /\ calculateDingTalkSign 1700000000000 "s" = "izNUYw3bO0KxsDYzYMDR365t+vMgZSe8PyS8sv7esqs="
  /\ sendDingTalk rt webhook "s" "m" world0 = post rt url (dingTalkBody "m") (tick world0)
  /\ count_sub "timestamp=" url = 1%nat /\ count_sub "sign=" url = 1%nat.
Proof.
  intros rt webhook url.
  assert (Hs : calculateDingTalkSign 1700000000000 "s"
               = "izNUYw3bO0KxsDYzYMDR365t+vMgZSe8PyS8sv7esqs=") by (vm_compute; reflexivity).
  destruct (dingtalk_sign_and_url rt webhook "s" "m" world0) as [H _].
  destruct (H ltac:(discriminate)) as (H1 & H2 & _ & _ & _ & H5).
  destruct (H5 ltac:(vm_compute; reflexivity) ltac:(vm_compute; reflexivity)) as [H6 H7].
  change (now_ms rt (clock_reads world0)) with 1700000000000 in H1, H2, H6, H7.
  rewrite Hs in H2, H6, H7.
  repeat split; assumption.
Defined.

(** ** What makes a send succeed *)

Lemma sendJSONRequest_answered rt url body w code respBody :
  exchange rt url body w = Some (code, respBody) ->
  fst (sendJSONRequest rt url body w)
  = if (code <? 200) || (code >=? 300)
    then Err ("请求失败，状态码: " +:+ format_d code +:+ ", 响应: " +:+ respBody)
    else Ok respBody.
Proof.
  unfold sendJSONRequest, exchange.
  destruct (json_Marshal rt body) as [data|e]; [|discriminate].
  destruct (url_error rt url) as [e|]; [discriminate|].
  unfold bind, http_Do, ret, logger.
  destruct (client_Do rt (requests w) _) as [[c b]|e]; [|discriminate].
  intros [= -> ->].
  destruct ((code <? 200) || (code >=? 300)); reflexivity.
Qed.

Lemma sendJSONRequest_unanswered rt url body w :
  exchange rt url body w = None ->
  exists e, fst (sendJSONRequest rt url body w) = Err e.
Proof.
  unfold sendJSONRequest, exchange.
  destruct (json_Marshal rt body) as [data|e]; [|eauto].
  destruct (url_error rt url) as [e|]; [eauto|].
  unfold bind, http_Do, ret.
  destruct (client_Do rt (requests w) _) as [[c b]|e]; [discriminate | eauto].
Qed.

Lemma sendJSONRequest_ok rt url body w respBody :
  fst (sendJSONRequest rt url body w) = Ok respBody
  <-> exists code, exchange rt url body w = Some (code, respBody) /\ 200 <= code < 300.
Proof.
  destruct (exchange rt url body w) as [[code b]|] eqn:Hx.
  - rewrite (sendJSONRequest_answered _ _ _ _ _ _ Hx).
    destruct (Z.ltb_spec code 200); destruct (Z.geb_spec code 300); cbn [orb]; split;
      try (intros [=]; subst; exists code; split; [reflexivity | lia]);
      try (intros (c & [= <- <-] & Hc); first [lia | reflexivity]); try discriminate.
  - destruct (sendJSONRequest_unanswered _ _ _ _ Hx) as [e ->].
    split; [discriminate | intros (c & [=] & _)].
Qed.

Lemma post_ok rt url body w :
  fst (post rt url body w) = None
  <-> exists code respBody,
        exchange rt url body w = Some (code, respBody) /\ 200 <= code < 300.
Proof.
  unfold post.
  destruct (sendJSONRequest rt url body w) as [r w'] eqn:Hs.
  assert (Hr : fst (sendJSONRequest rt url body w) = r) by (rewrite Hs; reflexivity).
  destruct r as [respBody|e]; cbn [fst error_of].
  - apply sendJSONRequest_ok in Hr as (code & Hx & Hc). split; [|reflexivity].
    intros _. exists code, respBody. auto.
  - split; [discriminate|]. intros (code & respBody & Hx & Hc).
    assert (Hok : fst (sendJSONRequest rt url body w) = Ok respBody)
      by (apply sendJSONRequest_ok; eauto).
    congruence.
Qed.

Lemma sendFeishu_post rt webhook message :
  sendFeishu rt webhook message = post rt webhook (feishuBody message).
Proof. reflexivity. Qed.

Lemma sendCustomWebhook_post rt webhook message :
  sendCustomWebhook rt webhook message = post rt webhook (customWebhookBody message).
Proof. reflexivity. Qed.

Lemma sendWeCom_result rt webhook message w :
  fst (sendWeCom rt webhook message w)
  = match fst (sendJSONRequest rt webhook (weComBody message) w) with
    | Err e => Some e
    | Ok result =>
        match json_Unmarshal_WeComResult rt result with
        | Err e => Some e
        | Ok weComResult =>
            if negb (Errcode weComResult =? 0) then Some (Errmsg weComResult) else None
        end
    end.
Proof.
  unfold sendWeCom, bind, ret.
  destruct (sendJSONRequest rt webhook (weComBody message) w) as [[result|e] w']; cbn [fst];
    [|reflexivity].
  destruct (json_Unmarshal_WeComResult rt result) as [r|e]; [|reflexivity].
  destruct (negb (Errcode r =? 0)); reflexivity.
Qed.

(** C3. A send returns no error if and only if the request received an
    answer whose status code is in [200, 300) and, for WeCom only, whose
    body decodes to a result with [errcode = 0]; a WeCom answer with a
    2xx status and a non-zero [errcode] is the error [errmsg]. *)
Theorem send_succeeds_iff (rt : Runtime) (webhook secret message : string) (w : World) :
  (fst (sendDingTalk rt webhook secret message w) = None
   <-> exists code respBody,
         exchange rt (dingTalkURL webhook secret (now_ms rt (clock_reads w)))
                  (dingTalkBody message) (tick w) = Some (code, respBody)
         /\ 200 <= code < 300)
  /\ (fst (sendFeishu rt webhook message w) = None
      <-> exists code respBody,
            exchange rt webhook (feishuBody message) w = Some (code, respBody)
            /\ 200 <= code < 300)
  /\ (fst (sendCustomWebhook rt webhook message w) = None
      <-> exists code respBody,
            exchange rt webhook (customWebhookBody message) w = Some (code, respBody)
            /\ 200 <= code < 300)
  /\ (fst (sendWeCom rt webhook message w) = None
      <-> exists code respBody,
            exchange rt webhook (weComBody message) w = Some (code, respBody)
            /\ 200 <= code < 300
            /\ exists weComResult,
                 json_Unmarshal_WeComResult rt respBody = Ok weComResult
                 /\ Errcode weComResult = 0)
  /\ (forall code respBody weComResult,
        exchange rt webhook (weComBody message) w = Some (code, respBody) ->
        200 <= code < 300 ->
        json_Unmarshal_WeComResult rt respBody = Ok weComResult ->
        Errcode weComResult <> 0 ->
        fst (sendWeCom rt webhook message w) = Some (Errmsg weComResult)).
Proof.
  split; [rewrite sendDingTalk_post; apply post_ok|].
  split; [rewrite sendFeishu_post; apply post_ok|].
  split; [rewrite sendCustomWebhook_post; apply post_ok|].
  split.
  - rewrite sendWeCom_result.
    destruct (fst (sendJSONRequest rt webhook (weComBody message) w)) as [result|e] eqn:Hs.
    + apply sendJSONRequest_ok in Hs as (code & Hx & Hc).
      destruct (json_Unmarshal_WeComResult rt result) as [r|e] eqn:Hu.
      * destruct (Z.eqb_spec (Errcode r) 0) as [H0|H0]; cbn [negb]; split.
        -- intros _. exists code, result. eauto.
        -- reflexivity.
        -- discriminate.
        -- intros (c & b & Hx' & _ & r' & Hu' & Hr').
           rewrite Hx in Hx'. injection Hx' as <- <-. congruence.
      * split; [discriminate|].
        intros (c & b & Hx' & _ & r' & Hu' & _).
        rewrite Hx in Hx'. injection Hx' as <- <-. congruence.
    + split; [discriminate|].
      intros (c & b & Hx & Hc & _).
      assert (Hok : fst (sendJSONRequest rt webhook (weComBody message) w) = Ok b)
        by (apply sendJSONRequest_ok; eauto).
      congruence.
  - intros code respBody r Hx Hc Hu Hne.
    rewrite sendWeCom_result.
    assert (Hok : fst (sendJSONRequest rt webhook (weComBody message) w) = Ok respBody)
      by (apply sendJSONRequest_ok; eauto).
    rewrite Hok, Hu. destruct (Z.eqb_spec (Errcode r) 0); [contradiction | reflexivity].
Qed.

(** ** The bodies of the Feishu and the custom webhook adapters *)

Lemma body_field_1 k1 v1 k2 v2 :
  field (JObj (<[k1 := v1]> (<[k2 := v2]> ∅))) k1 = Some v1.
Proof. cbn [field]. apply lookup_insert_eq. Qed.

Lemma body_field_2 k1 v1 k2 v2 :
  k1 <> k2 -> field (JObj (<[k1 := v1]> (<[k2 := v2]> ∅))) k2 = Some v2.
Proof. intros H. cbn [field]. rewrite lookup_insert_ne by exact H. apply lookup_insert_eq. Qed.

Lemma body_field_other k1 v1 k2 v2 k :
  k1 <> k -> k2 <> k -> field (JObj (<[k1 := v1]> (<[k2 := v2]> ∅))) k = None.
Proof. intros H1 H2. cbn [field]. by rewrite !lookup_insert_ne, lookup_empty. Qed.

(** C2, as the code has it.  For every message the custom webhook
    adapter posts [{msg_type: "text", text: {content: message}}] and the
    Feishu adapter posts [{msg_type: "text", content: {text: message}}]:
    the two bodies share the entry [msg_type] and nothing else, the
    webhook body carrying the message under [text.content], where the
    DingTalk and WeCom bodies have it, and they differ for every
    message. *)
Theorem webhook_body_shape (rt : Runtime) (webhook message : string) :
  sendCustomWebhook rt webhook message = post rt webhook (customWebhookBody message)
  /\ sendFeishu rt webhook message = post rt webhook (feishuBody message)
  /\ field (customWebhookBody message) "msg_type" = Some (JStr "text")
  /\ field (customWebhookBody message) "text" = Some (JObj {["content" := JStr message]})
  /\ (forall k, k <> "msg_type" -> k <> "text" -> field (customWebhookBody message) k = None)
  /\ field (customWebhookBody message) "text" = field (dingTalkBody message) "text"
  /\ field (feishuBody message) "msg_type" = Some (JStr "text")
  /\ field (feishuBody message) "content" = Some (JObj {["text" := JStr message]})
  /\ (forall k, k <> "msg_type" -> k <> "content" -> field (feishuBody message) k = None)
  /\ customWebhookBody message <> feishuBody message.
Proof.
  split; [reflexivity|]. split; [reflexivity|].
  split; [apply body_field_1|].
  split; [by apply body_field_2|].
  split; [intros k H1 H2; apply body_field_other; congruence|].
  split; [unfold customWebhookBody, dingTalkBody; by rewrite !body_field_2|].
  split; [apply body_field_1|].
  split; [by apply body_field_2|].
  split; [intros k H1 H2; apply body_field_other; congruence|].
  intros Heq. apply (f_equal (fun v => field v "text")) in Heq.
  unfold customWebhookBody, feishuBody in Heq.
  rewrite body_field_2, body_field_other in Heq by done. discriminate.
Qed.

(** C2, as the specification words it, fails: for the message [hi] the two
    adapters post different JSON texts. *)
Lemma webhook_body_counterexample :
  posted sendCustomWebhook "hi" = [json_text "{'msg_type':'text','text':{'content':'hi'}}"]
  /\ posted sendFeishu "hi" = [json_text "{'content':{'text':'hi'},'msg_type':'text'}"]
  /\ posted sendCustomWebhook "hi" <> posted sendFeishu "hi"
  /\ customWebhookBody "hi" <> feishuBody "hi".
Proof.
  assert (H1 : posted sendCustomWebhook "hi"
               = [json_text "{'msg_type':'text','text':{'content':'hi'}}"])
    by (vm_compute; reflexivity).
  assert (H2 : posted sendFeishu "hi"
               = [json_text "{'content':{'text':'hi'},'msg_type':'text'}"])
    by (vm_compute; reflexivity).
  split; [exact H1|]. split; [exact H2|]. split.
  - rewrite H1, H2. vm_compute. discriminate.
  - intros Heq. apply (f_equal (fun v => field v "text")) in Heq.
    vm_compute in Heq. discriminate.
Qed.

(** ** Feishu and the signing secret *)

Lemma string_field_insert_ne config k k' v :
  k' <> k -> string_field (<[k' := v]> config) k = string_field config k.
Proof. intros H. unfold string_field. by rewrite lookup_insert_ne. Qed.

(** C4, where the code departs from it.  With the hook token [hook] and
    the signing secret [s3cret] configured, the one request that goes out
    is the plain text body to the hook URL, with no timestamp and no
    sign; whatever is stored under [signSecret], the Feishu adapter does
    what it does without it. *)
Theorem feishu_sign_secret_ignored :
  let rt := refRuntime 1700000000000 (always 200 "{}") in
  let config : gmap string json :=
    <["secretKey" := JStr "hook"]> (<["signSecret" := JStr "s3cret"]> ∅) in
  requests (snd (sendFeishuByConfig rt config "hi" world0))
  = [ {| req_method := "POST";
         req_url := "https://open.feishu.cn/open-apis/bot/v2/hook/hook";
         req_header := [("Content-Type", "application/json")];
         req_body := json_text "{'content':{'text':'hi'},'msg_type':'text'}" |} ]
  /\ field (feishuBody "hi") "timestamp" = None
  /\ field (feishuBody "hi") "sign" = None
  /\ forall (rt : Runtime) (config : gmap string json) (v : json) (message : string) (w : World),
       sendFeishuByConfig rt (<["signSecret" := v]> config) message w
       = sendFeishuByConfig rt config message w.
Proof.
  split; [vm_compute; reflexivity|].
  split; [by apply body_field_other|].
  split; [by apply body_field_other|].
  intros rt config v message w. unfold sendFeishuByConfig.
  by rewrite string_field_insert_ne.
Qed.

(** ** Channels that send nothing *)

(** C7. For an enabled channel of type [email], [SendNotificationByConfig]
    returns the error "邮件通知暂未实现" (mail notification is not
    implemented yet); it writes the one log line of every dispatch and
    hands no request to the HTTP client. *)
Theorem email_not_implemented (rt : Runtime) (channelConfig : NotificationChannelConfig)
    (record : AlertRecord) (agent : Agent) (w : World) :
  Channel_Enabled channelConfig = true ->
  Channel_Type channelConfig = "email" ->
  SendNotificationByConfig rt channelConfig record agent w
  = (Some "邮件通知暂未实现", log_line "info" "发送通知" [("channelType", "email")] w)
  /\ requests (snd (SendNotificationByConfig rt channelConfig record agent w)) = requests w
  /\ clock_reads (snd (SendNotificationByConfig rt channelConfig record agent w)) = clock_reads w.
Proof.
  intros He Ht.
  assert (H : SendNotificationByConfig rt channelConfig record agent w
              = (Some "邮件通知暂未实现", log_line "info" "发送通知" [("channelType", "email")] w)).
  { unfold SendNotificationByConfig. rewrite He, Ht. reflexivity. }
  rewrite H. repeat split; reflexivity.
Qed.

Lemma email_not_implemented_witness :
  let channelConfig := {| Channel_Type := "email"; Channel_Enabled := true;
                          Channel_Config := {["to" := JStr "ops@example.org"]} |} in
  let record := {| Record_AlertType := "cpu"; Record_Message := "cpu high";
                   Record_Threshold := 80; Record_ActualValue := 91.5;
                   Record_Level := "warning"; Record_Status := "firing";
                   Record_FiredAt := 1700000000000; Record_ResolvedAt := 0 |} in
  let agent := {| Agent_ID := "a1"; Agent_Name := "web-1"; Agent_Hostname := "web-1.local";
                  Agent_IP := "10.0.0.1" |} in
  let rt := refRuntime 1700000000000 (always 200 "ok") in
  fst (SendNotificationByConfig rt channelConfig record agent world0) = Some "邮件通知暂未实现"
  /\ requests (snd (SendNotificationByConfig rt channelConfig record agent world0)) = [].
Proof.
  intros channelConfig record agent rt.
  destruct (email_not_implemented rt channelConfig record agent world0 eq_refl eq_refl)
    as (H1 & H2 & _).
  rewrite H1 in *. split; [reflexivity | exact H2].
Defined.

(** C9. A channel with [Enabled = false] makes [SendNotificationByConfig]
    return the error "通知渠道已禁用" at once: the world is left as it
    was (no log line, no reading of the clock, no request) and neither
    the record nor the agent is looked at.  The test endpoint answers a
    channel that is stored but disabled with 400 and "通知渠道未启用",
    the world being as the lookup of the channels left it. *)
Theorem disabled_channel_rejected (rt : Runtime) (channelConfig : NotificationChannelConfig)
    (record : AlertRecord) (agent : Agent) (w : World)
    (db : Type) (service : PropertyService db) (c : Context) (d : db)
    (channels : list NotificationChannelConfig) (targetChannel : NotificationChannelConfig) :
  (Channel_Enabled channelConfig = false ->
   SendNotificationByConfig rt channelConfig record agent w = (Some "通知渠道已禁用", w)
   /\ forall record' agent',
        SendNotificationByConfig rt channelConfig record' agent' w
        = SendNotificationByConfig rt channelConfig record agent w)
  /\ (Param c "type" <> "" ->
      svc_GetValue service PropertyIDNotificationChannels d = Ok channels ->
      find (fun ch => String.eqb (Channel_Type ch) (Param c "type")) channels
      = Some targetChannel ->
      Channel_Enabled targetChannel = false ->
      TestNotificationChannel rt service c (d, w)
      = ({| status := 400; resp_json := JObj {["error" := JStr "通知渠道未启用"]} |}, (d, w))).
Proof.
  split.
  - intros He.
    assert (H : forall r a, SendNotificationByConfig rt channelConfig r a w
                            = (Some "通知渠道已禁用", w)).
    { intros r a. unfold SendNotificationByConfig. rewrite He. reflexivity. }
    split; [apply H | intros; by rewrite !H].
  - intros Hty Hget Hfind Hoff. unfold TestNotificationChannel.
    destruct (String.eqb_spec (Param c "type") "") as [E|_]; [contradiction|].
    unfold bind, readDB. cbn [fst]. rewrite Hget, Hfind, Hoff. reflexivity.
Qed.

Lemma disabled_channel_rejected_witness :
  let off := {| Channel_Type := "feishu"; Channel_Enabled := false;
                Channel_Config := {["secretKey" := JStr "hook"]} |} in
  let record := {| Record_AlertType := "cpu"; Record_Message := "cpu high";
                   Record_Threshold := 80; Record_ActualValue := 91.5;
                   Record_Level := "warning"; Record_Status := "firing";
                   Record_FiredAt := 1700000000000; Record_ResolvedAt := 0 |} in
  let agent := {| Agent_ID := "a1"; Agent_Name := "web-1"; Agent_Hostname := "web-1.local";
                  Agent_IP := "10.0.0.1" |} in
  let rt := refRuntime 1700000000000 (always 200 "ok") in
  let c := {| params := {["type" := "feishu"]}; bound := Err "no body" |} in
  let d : gmap string Property :=
    {[ "notification_channels" :=
         {| Property_ID := "notification_channels"; Property_Name := "channels";
            Property_Value :=
              json_text "[{'type':'feishu','enabled':false,'config':{'secretKey':'hook'}}]" |} ]} in
  SendNotificationByConfig rt off record agent world0 = (Some "通知渠道已禁用", world0)
  /\ TestNotificationChannel rt (kvService rt) c (d, world0)
     = ({| status := 400; resp_json := JObj {["error" := JStr "通知渠道未启用"]} |}, (d, world0)).
Proof.
  intros off record agent rt c d.
  destruct (disabled_channel_rejected rt off record agent world0 _ (kvService rt) c d [off] off)
    as [H1 H2].
  split.
  - apply H1. reflexivity.
  - apply H2; [discriminate | vm_compute; reflexivity | reflexivity | reflexivity].
Defined.

(** ** The system configuration *)

(** C10. When the store's [Get] of [system_config] fails,
    [GetSystemConfig] answers 200 with the default value
    [{systemNameEn: "Pika Monitor", systemNameZh: "皮卡监控",
    logoBase64: ""}], and changes nothing.  Its answer is 200 or 500, and
    it is 500 exactly when [Get] returned a property whose value is not
    empty and does not parse as JSON. *)
Theorem system_config_default (rt : Runtime) (db : Type) (service : PropertyService db)
    (c : Context) (d : db) (w : World) :
  (forall err,
     svc_Get service PropertyIDSystemConfig d = Err err ->
     GetSystemConfig rt service c (d, w)
     = ({| status := 200;
           resp_json := JObj (<["id" := JStr "system_config"]>
                             (<["name" := JStr "系统配置"]>
                             (<["value" := defaultSystemConfig]> ∅))) |}, (d, w)))
  /\ (status (fst (GetSystemConfig rt service c (d, w))) = 200
      \/ status (fst (GetSystemConfig rt service c (d, w))) = 500)
  /\ (status (fst (GetSystemConfig rt service c (d, w))) = 500
      <-> exists property err,
            svc_Get service PropertyIDSystemConfig d = Ok property
            /\ Property_Value property <> ""
            /\ json_Unmarshal rt (Property_Value property) = Err err).
Proof.
  unfold GetSystemConfig, bind, readDB. cbn [fst].
  destruct (svc_Get service PropertyIDSystemConfig d) as [property|e] eqn:Hget.
  - split; [discriminate|].
    destruct (String.eqb_spec (Property_Value property) "") as [Hv|Hv]; cbn [negb].
    + split; [left; reflexivity|]. split; [discriminate|].
      intros (p & err & [= <-] & Hne & _). contradiction.
    + destruct (json_Unmarshal rt (Property_Value property)) as [value|err] eqn:Hu.
      * split; [left; reflexivity|]. split; [discriminate|].
        intros (p & err & [= <-] & _ & Hu'). congruence.
      * split; [right; reflexivity|]. split; [|reflexivity].
        intros _. exists property, err. auto.
  - split; [intros err _; reflexivity|].
    split; [left; reflexivity|]. split; [discriminate|].
    intros (p & err & [=] & _).
Qed.

Lemma system_config_default_witness :
  let rt := refRuntime 1700000000000 (always 200 "ok") in
  let c := {| params := ∅; bound := Err "no body" |} in
  GetSystemConfig rt (kvService rt) c (∅, world0)
  = ({| status := 200;
        resp_json := JObj (<["id" := JStr "system_config"]>
                          (<["name" := JStr "系统配置"]>
                          (<["value" := defaultSystemConfig]> ∅))) |}, (∅, world0)).
Proof.
  intros rt c.
  destruct (system_config_default rt _ (kvService rt) c ∅ world0) as [H _].
  apply (H "record not found"). reflexivity.
Defined.

(** ** Dispatch to many channels *)

Lemma has_prefix_app p b : has_prefix p (p +:+ b) = true.
Proof.
  induction p as [|x p IH]; [reflexivity|].
  rewrite append_cons. cbn [has_prefix]. by rewrite Ascii.eqb_refl.
Qed.

Lemma contains_infix a p b : contains p (a +:+ p +:+ b) = true.
Proof.
  unfold contains. apply negb_true_iff, Nat.eqb_neq.
  induction a as [|x a IH].
  - change ("" +:+ p +:+ b) with (p +:+ b).
    pose proof (has_prefix_app p b) as Hp.
    destruct (p +:+ b) eqn:E; cbn [count_sub]; rewrite Hp; lia.
  - rewrite append_cons. cbn [count_sub]. lia.
Qed.

Lemma append_nil_r (s : string) : s +:+ "" = s.
Proof. induction s as [|x s IH]; [reflexivity | by rewrite append_cons, IH]. Qed.

Lemma join_infix sep l e :
  In e l -> exists a b, join sep l = a +:+ e +:+ b.
Proof.
  induction l as [|x l IH]; [intros []|].
  intros [<-|Hin].
  - destruct l as [|y l].
    + exists "", "". cbn [join]. by rewrite append_nil_r.
    + exists "", (sep +:+ join sep (y :: l)). reflexivity.
  - destruct l as [|y l]; [destruct Hin|].
    destruct (IH Hin) as (a & b & Hj).
    exists (x +:+ sep +:+ a), b.
    change (join sep (x :: y :: l)) with (x +:+ sep +:+ join sep (y :: l)).
    by rewrite Hj, !append_assoc.
Qed.

Lemma aggregate_contains errs e :
  In e errs -> contains e ("部分通知发送失败: " +:+ format_v_errors errs) = true.
Proof.
  intros Hin. destruct (join_infix " " errs e Hin) as (a & b & Hj).
  unfold format_v_errors. rewrite Hj.
  replace ("部分通知发送失败: " +:+ "[" +:+ (a +:+ e +:+ b) +:+ "]")
    with (("部分通知发送失败: " +:+ "[" +:+ a) +:+ e +:+ (b +:+ "]"))
    by (by rewrite !append_assoc).
  apply contains_infix.
Qed.

Lemma failures_cons o os :
  failures (o :: os) = match o with Some e => e :: failures os | None => failures os end.
Proof. by destruct o. Qed.

Lemma failures_In e os : In e (failures os) <-> In (Some e) os.
Proof.
  induction os as [|o os IH]; [reflexivity|].
  rewrite failures_cons. destruct o as [e'|]; cbn [In]; rewrite ?IH.
  - split; (intros [H|H]; [left; congruence | right; exact H]).
  - split; [auto | intros [H|H]; [discriminate | exact H]].
Qed.

Lemma failures_nil os : failures os = [] <-> Forall (fun o => o = None) os.
Proof.
  induction os as [|o os IH]; [by split|].
  rewrite failures_cons. destruct o as [e|].
  - split; [discriminate | intros H; inversion H; discriminate].
  - rewrite IH. split; [by constructor | by inversion 1].
Qed.

(** The loop equals the dispatches one after the other: it adds the
    errors among the outcomes to the ones it started with. *)
Lemma sendAll_attempts rt record agent channelConfigs : forall errs w,
  sendAll rt channelConfigs record agent errs w
  = (errs ++ failures (fst (attempts rt channelConfigs record agent w)),
     snd (attempts rt channelConfigs record agent w)).
Proof.
  induction channelConfigs as [|ch rest IH]; intros errs w.
  - cbn. by rewrite app_nil_r.
  - cbn [sendAll attempts]. unfold bind at 1.
    destruct (SendNotificationByConfig rt ch record agent w) as [[e|] w1].
    + unfold bind, logger at 1. rewrite IH. unfold log_line, logger. cbn [snd].
      destruct (attempts rt rest record agent _) as [os w3]. cbn [fst snd].
      by rewrite failures_cons, <- app_assoc.
    + rewrite IH. destruct (attempts rt rest record agent w1) as [os w3]. reflexivity.
Qed.

Lemma attempts_length rt record agent channelConfigs : forall w,
  length (fst (attempts rt channelConfigs record agent w)) = length channelConfigs.
Proof.
  induction channelConfigs as [|ch rest IH]; intros w; [reflexivity|].
  cbn [attempts]. destruct (SendNotificationByConfig rt ch record agent w) as [o w1].
  match goal with |- context [attempts rt rest record agent ?w2] =>
    specialize (IH w2); destruct (attempts rt rest record agent w2) as [os w3] end.
  cbn [fst length] in *. by rewrite IH.
Qed.

(** Every channel is dispatched, in the world that the channels before
    it left, and its outcome is the one recorded at its position. *)
Lemma attempts_nth rt record agent before ch after : forall w,
  nth_error (fst (attempts rt (before ++ ch :: after) record agent w)) (length before)
  = Some (fst (SendNotificationByConfig rt ch record agent
                 (snd (attempts rt before record agent w)))).
Proof.
  induction before as [|b before IH]; intros w.
  - cbn [app attempts length snd].
    destruct (SendNotificationByConfig rt ch record agent w) as [o w1].
    match goal with |- context [attempts rt after record agent ?w2] =>
      destruct (attempts rt after record agent w2) as [os w3] end.
    reflexivity.
  - cbn [app attempts length].
    destruct (SendNotificationByConfig rt b record agent w) as [o w1].
    match goal with |- context [attempts rt (before ++ ch :: after) record agent ?w2] =>
      specialize (IH w2);
      destruct (attempts rt (before ++ ch :: after) record agent w2) as [os w3];
      destruct (attempts rt before record agent w2) as [os' w3'] end.
    exact IH.
Qed.

(** C5. [SendNotificationByConfigs] dispatches to every channel of the
    list, whatever the channels before it returned: there is one outcome
    per channel, the outcome of a channel being what
    [SendNotificationByConfig] returns for it in the world its
    predecessors left.  The result is nil if and only if every outcome is
    nil; otherwise it is the one error "部分通知发送失败: [...]" that
    lists the errors of the failed channels in order, so that the message
    of each of them is a part of it. *)
Theorem multi_channel_dispatch (rt : Runtime) (channelConfigs : list NotificationChannelConfig)
    (record : AlertRecord) (agent : Agent) (w : World) :
  let outcomes := fst (attempts rt channelConfigs record agent w) in
  let result := fst (SendNotificationByConfigs rt channelConfigs record agent w) in
  length outcomes = length channelConfigs
  /\ (forall before ch after,
        channelConfigs = before ++ ch :: after ->
        nth_error outcomes (length before)
        = Some (fst (SendNotificationByConfig rt ch record agent
                       (snd (attempts rt before record agent w)))))
  /\ snd (SendNotificationByConfigs rt channelConfigs record agent w)
     = snd (attempts rt channelConfigs record agent w)
  /\ (result = None <-> Forall (fun o => o = None) outcomes)
  /\ (result <> None ->
      result = Some ("部分通知发送失败: " +:+ format_v_errors (failures outcomes))
      /\ forall e, In (Some e) outcomes ->
           contains e ("部分通知发送失败: " +:+ format_v_errors (failures outcomes)) = true).
Proof.
  intros outcomes result.
  assert (Hrun : SendNotificationByConfigs rt channelConfigs record agent w
                 = (match failures outcomes with
                    | [] => None
                    | _ => Some ("部分通知发送失败: " +:+ format_v_errors (failures outcomes))
                    end, snd (attempts rt channelConfigs record agent w))).
  { unfold SendNotificationByConfigs, bind. rewrite sendAll_attempts.
    cbn [app]. fold outcomes. destruct (failures outcomes); reflexivity. }
  split; [apply attempts_length|].
  split; [intros before ch after ->; apply attempts_nth|].
  split; [by rewrite Hrun|].
  unfold result. rewrite Hrun. cbn [fst].
  split.
  - rewrite <- failures_nil.
    destruct (failures outcomes); split; intros H; first [reflexivity | discriminate H].
  - intros Hne. split.
    + destruct (failures outcomes); [contradiction | reflexivity].
    + intros e He. apply aggregate_contains, failures_In, He.
Qed.

Lemma multi_channel_dispatch_witness :
  let rt := refRuntime 1700000000000 (always 500 "down") in
  let record := {| Record_AlertType := "cpu"; Record_Message := "cpu high";
                   Record_Threshold := 80; Record_ActualValue := 91.5;
                   Record_Level := "warning"; Record_Status := "firing";
                   Record_FiredAt := 1700000000000; Record_ResolvedAt := 0 |} in
  let agent := {| Agent_ID := "a1"; Agent_Name := "web-1"; Agent_Hostname := "web-1.local";
                  Agent_IP := "10.0.0.1" |} in
  let off := {| Channel_Type := "feishu"; Channel_Enabled := false;
                Channel_Config := {["secretKey" := JStr "hook"]} |} in
  let mail := {| Channel_Type := "email"; Channel_Enabled := true; Channel_Config := ∅ |} in
  let hook := {| Channel_Type := "webhook"; Channel_Enabled := true;
                 Channel_Config := {["url" := JStr "http://localhost/hook"]} |} in
  fst (SendNotificationByConfigs rt [off; mail; hook] record agent world0)
  = Some ("部分通知发送失败: [通知渠道已禁用 邮件通知暂未实现 请求失败，状态码: 500, 响应: down]")
  /\ length (requests (snd (SendNotificationByConfigs rt [off; mail; hook] record agent world0)))
     = 1%nat
  /\ contains "邮件通知暂未实现"
       ("部分通知发送失败: [通知渠道已禁用 邮件通知暂未实现 请求失败，状态码: 500, 响应: down]")
     = true.
Proof.
  intros rt record agent off mail hook.
  destruct (multi_channel_dispatch rt [off; mail; hook] record agent world0)
    as (_ & _ & _ & _ & H).
  assert (Hr : fst (SendNotificationByConfigs rt [off; mail; hook] record agent world0)
               = Some ("部分通知发送失败: [通知渠道已禁用 邮件通知暂未实现 请求失败，状态码: 500, 响应: down]"))
    by (vm_compute; reflexivity).
  destruct (H ltac:(rewrite Hr; discriminate)) as [_ Hc].
  split; [exact Hr|]. split; [vm_compute; reflexivity|].
  specialize (Hc "邮件通知暂未实现" ltac:(vm_compute; tauto)).
  vm_compute in Hc |- *. exact Hc.
Defined.

Lemma send_succeeds_iff_witness :
  let body := json_text "{'errcode':93000,'errmsg':'invalid webhook url'}" in
  let rt := refRuntime 1700000000000 (always 200 body) in
  fst (sendWeCom rt "https://qyapi.weixin.qq.com/cgi-bin/webhook/send?key=k" "hi" world0)
  = Some "invalid webhook url".
Proof.
  intros body rt.
  destruct (send_succeeds_iff rt "https://qyapi.weixin.qq.com/cgi-bin/webhook/send?key=k"
              "" "hi" world0) as (_ & _ & _ & _ & H).
  apply (H 200 body {| Errcode := 93000; Errmsg := "invalid webhook url"; WeCom_Type := "";
                       MediaId := ""; CreatedAt := "" |});
    [vm_compute; reflexivity | lia | vm_compute; reflexivity | discriminate].
Defined.

(** ** The property store: set, then get *)

(** C6. For every id, name and JSON-encodable value [v] (a value that
    [json.Marshal] encodes to a non-empty text which [json.Unmarshal]
    reads back as [v]), [SetProperty] answers 200 and stores the row, and
    [GetProperty] of the same id then answers 200 with the id, the name
    and a value equal to [v]. *)
Theorem property_roundtrip (rt : Runtime) (id name : string) (v : json) (encoded : string)
    (db : gmap string Property) (w : World) :
  json_Marshal rt v = Ok encoded ->
  encoded <> "" ->
  json_Unmarshal rt encoded = Ok v ->
  let set_c := {| params := {["id" := id]}; bound := Ok (name, v) |} in
  let get_c := {| params := {["id" := id]}; bound := Err "no body" |} in
  let after_set := SetProperty rt (kvService rt) set_c (db, w) in
  let after_get := GetProperty rt (kvService rt) get_c (snd after_set) in
  fst after_set = {| status := 200; resp_json := JObj {["message" := JStr "设置成功"]} |}
  /\ kv_Get id (fst (snd after_set))
     = Ok {| Property_ID := id; Property_Name := name; Property_Value := encoded |}
  /\ fst after_get
     = {| status := 200;
          resp_json := JObj (<["id" := JStr id]> (<["name" := JStr name]>
                            (<["value" := v]> ∅))) |}
  /\ field (resp_json (fst after_get)) "value" = Some v.
Proof.
  intros Hm Hne Hu set_c get_c after_set after_get.
  assert (Hid : forall b, Param {| params := {["id" := id]}; bound := b |} "id" = id).
  { intros b. unfold Param. cbn [params]. by rewrite lookup_singleton_eq. }
  assert (Hset : after_set
                 = ({| status := 200; resp_json := JObj {["message" := JStr "设置成功"]} |},
                    (<[id := {| Property_ID := id; Property_Name := name;
                                Property_Value := encoded |}]> db, w))).
  { unfold after_set, SetProperty, set_c. rewrite Hid. cbn [bound].
    unfold bind, updateDB. cbn [fst snd svc_Set kvService]. unfold kv_Set. rewrite Hm.
    reflexivity. }
  assert (Hget : fst after_get
                 = {| status := 200;
                      resp_json := JObj (<["id" := JStr id]> (<["name" := JStr name]>
                                        (<["value" := v]> ∅))) |}).
  { unfold after_get. rewrite Hset. cbn [snd]. unfold GetProperty, get_c. rewrite Hid.
    unfold bind, readDB. cbn [fst svc_Get kvService]. unfold kv_Get.
    rewrite lookup_insert_eq. cbn [Property_Value Property_ID Property_Name].
    destruct (String.eqb_spec encoded "") as [E|_]; [contradiction|]. cbn [negb].
    rewrite Hu. reflexivity. }
  split; [by rewrite Hset|].
  split; [rewrite Hset; cbn [fst snd]; unfold kv_Get; by rewrite lookup_insert_eq|].
  split; [exact Hget|].
  rewrite Hget. cbn [resp_json field].
  do 2 (rewrite lookup_insert_ne by done). apply lookup_insert_eq.
Qed.

Lemma property_roundtrip_witness :
  let rt := refRuntime 1700000000000 (always 200 "ok") in
  let v := JObj (<["theme" := JStr "dark"]>
                (<["tags" := JArr [JStr "a<b"; JBool true; JNull; JNum 42]]> ∅)) in
  let set_c := {| params := {["id" := "ui"]}; bound := Ok ("UI settings", v) |} in
  let get_c := {| params := {["id" := "ui"]}; bound := Err "no body" |} in
  field (resp_json (fst (GetProperty rt (kvService rt) get_c
                           (snd (SetProperty rt (kvService rt) set_c (∅, world0)))))) "value"
  = Some v.
Proof.
  intros rt v set_c get_c.
  destruct (property_roundtrip rt "ui" "UI settings" v
              (json_text "{'tags':['a\u003cb',true,null,42],'theme':'dark'}") ∅ world0)
    as (_ & _ & _ & H);
    [vm_compute; reflexivity | discriminate | vm_compute; reflexivity |].
  exact H.
Defined.

(** ** The message of a failed channel test *)

(** Decide the comparisons of a known channel type with the given
    literals. *)
Ltac eqb_literals l :=
  match l with
  | nil => idtac
  | ?b :: ?rest =>
      repeat match goal with
             | |- context [String.eqb ?a b] =>
                 let r := eval vm_compute in (String.eqb a b) in
                 match r with
                 | true => change (String.eqb a b) with true
                 | false => change (String.eqb a b) with false
                 end
             end;
      eqb_literals rest
  end.

(** C8, as the code has it.  When the test of a stored, enabled channel
    of one of the four HTTP types fails with the send error [e], the
    answer is 500 with the message "发送测试通知失败: " followed by [e]
    as it is; the channel type goes to the log line only.  For an answer
    with a status outside [200, 300) the send error quotes the status
    code and the whole body of the answer, whatever its length. *)
Theorem test_channel_failure_message (rt : Runtime) (db : Type) (service : PropertyService db)
    (c : Context) (d : db) (w w' : World) (channels : list NotificationChannelConfig)
    (targetChannel : NotificationChannelConfig) (e : error) :
  (Param c "type" <> "" ->
   svc_GetValue service PropertyIDNotificationChannels d = Ok channels ->
   find (fun ch => String.eqb (Channel_Type ch) (Param c "type")) channels = Some targetChannel ->
   Channel_Enabled targetChannel = true ->
   let config := Channel_Config targetChannel in
   let message := "这是一条测试通知消息" in
   (Channel_Type targetChannel = "dingtalk"
      /\ SendDingTalkByConfig rt config message w = (Some e, w'))
   \/ (Channel_Type targetChannel = "wecom"
      /\ SendWeComByConfig rt config message w = (Some e, w'))
   \/ (Channel_Type targetChannel = "feishu"
      /\ SendFeishuByConfig rt config message w = (Some e, w'))
   \/ (Channel_Type targetChannel = "webhook"
      /\ SendWebhookByConfig rt config message w = (Some e, w')) ->
   TestNotificationChannel rt service c (d, w)
   = ({| status := 500; resp_json := JObj {["error" := JStr ("发送测试通知失败: " +:+ e)]} |},
      (d, log_line "error" "发送测试通知失败" [("type", Param c "type"); ("error", e)] w')))
  /\ (forall url body code respBody,
        exchange rt url body w = Some (code, respBody) ->
        code < 200 \/ 300 <= code ->
        fst (sendJSONRequest rt url body w)
        = Err ("请求失败，状态码: " +:+ format_d code +:+ ", 响应: " +:+ respBody)).
Proof.
  split.
  - intros Hty Hget Hfind Hon config message Hsend. unfold TestNotificationChannel.
    destruct (String.eqb_spec (Param c "type") "") as [E|_]; [contradiction|].
    unfold bind at 1. unfold readDB at 1. cbn [fst]. rewrite Hget, Hfind, Hon. cbn [negb].
    fold config.
    destruct Hsend as [[Ht Hs]|[[Ht Hs]|[[Ht Hs]|[Ht Hs]]]]; rewrite Ht;
      eqb_literals ("dingtalk" :: "wecom" :: "feishu" :: "webhook" :: nil);
      unfold bind, liftW; cbn [fst snd]; fold message; rewrite Hs; reflexivity.
  - intros url body code respBody Hx Hc.
    rewrite (sendJSONRequest_answered _ _ _ _ _ _ Hx).
    destruct (Z.ltb_spec code 200); destruct (Z.geb_spec code 300); cbn [orb];
      first [reflexivity | lia].
Qed.

Lemma test_channel_failure_message_witness :
  let rt := refRuntime 1700000000000 (always 500 "boom") in
  let c := {| params := {["type" := "feishu"]}; bound := Err "no body" |} in
  let d : gmap string Property :=
    {[ "notification_channels" :=
         {| Property_ID := "notification_channels"; Property_Name := "channels";
            Property_Value :=
              json_text "[{'type':'feishu','enabled':true,'config':{'secretKey':'hook'}}]" |} ]} in
  fst (TestNotificationChannel rt (kvService rt) c (d, world0))
  = {| status := 500;
       resp_json := JObj {["error" := JStr "发送测试通知失败: 请求失败，状态码: 500, 响应: boom"]} |}.
Proof.
  intros rt c d.
  pose (ch := {| Channel_Type := "feishu"; Channel_Enabled := true;
                 Channel_Config := {["secretKey" := JStr "hook"]} |}).
  destruct (test_channel_failure_message rt _ (kvService rt) c d world0
              (snd (SendFeishuByConfig rt (Channel_Config ch) "这是一条测试通知消息" world0))
              [ch] ch "请求失败，状态码: 500, 响应: boom") as [H _].
  rewrite H; [reflexivity | discriminate | vm_compute; reflexivity | reflexivity | reflexivity |].
  right. right. left. split; [reflexivity | vm_compute; reflexivity].
Defined.

(** C8, as the specification words it, fails: a Feishu hook that answers 500 with
    600 bytes gives a message that does not name the channel type and
    carries all 600 bytes. *)
Lemma test_channel_message_counterexample :
  let remote := string_repeat "x" 600 in
  let rt := refRuntime 1700000000000 (always 500 remote) in
  let c := {| params := {["type" := "feishu"]}; bound := Err "no body" |} in
  let d : gmap string Property :=
    {[ "notification_channels" :=
         {| Property_ID := "notification_channels"; Property_Name := "channels";
            Property_Value :=
              json_text "[{'type':'feishu','enabled':true,'config':{'secretKey':'hook'}}]" |} ]} in
  exists msg,
    error_message (fst (TestNotificationChannel rt (kvService rt) c (d, world0))) = Some msg
    /\ msg = "发送测试通知失败: 请求失败，状态码: 500, 响应: " +:+ remote
    /\ contains "feishu" msg = false
    /\ contains remote msg = true
    /\ ~ includes_type_and_truncated 512 "feishu" remote msg.
Proof.
  intros remote rt c d.
  exists ("发送测试通知失败: 请求失败，状态码: 500, 响应: " +:+ remote).
  split; [vm_compute; reflexivity|]. split; [reflexivity|].
  assert (Hty : contains "feishu"
                  ("发送测试通知失败: 请求失败，状态码: 500, 响应: " +:+ remote) = false)
    by (vm_compute; reflexivity).
  split; [exact Hty|]. split; [vm_compute; reflexivity|].
  intros [H _]. rewrite Hty in H. discriminate.
Qed.

(* ===================================================================== *)
(** * Part III: further properties of the code                            *)
(* ===================================================================== *)

(** ** The shape of the DingTalk sign *)

Lemma enc_base64_char i : base64_char (Base64.enc i) = true.
Proof.
  unfold base64_char, Base64.enc.
  set (k := N.to_nat (N.land i 63)).
  set (l := list_ascii_of_string Base64.encodeStd).
  assert (Hall : forallb (fun c => string_mem c Base64.encodeStd) ("A"%char :: l) = true)
    by (vm_compute; reflexivity).
  rewrite forallb_forall in Hall. apply Hall.
  destruct (nth_in_or_default k l "A"%char) as [Hin| ->]; [right; exact Hin | left; reflexivity].
Qed.

Lemma EncodeToString_length : forall l,
  String.length (Base64.EncodeToString l) = (4 * ((length l + 2) / 3))%nat.
Proof.
  induction l as [| a | a b | a b c r IH] using list_ind3; try reflexivity.
  cbn [Base64.EncodeToString String.length length]. rewrite IH.
  replace (S (S (S (length r))) + 2)%nat with (1 * 3 + (length r + 2))%nat by lia.
  rewrite Nat.div_add_l by lia. lia.
Qed.

Lemma EncodeToString_two_left : forall l,
  (length l mod 3 = 2)%nat ->
  exists body, Base64.EncodeToString l = body +:+ "="
               /\ string_all base64_char body = true.
Proof.
  induction l as [| a | a b | a b c r IH] using list_ind3; intros Hlen.
  - discriminate.
  - discriminate.
  - eexists (String _ (String _ (String _ ""))). split; [reflexivity|].
    cbn [string_all]. by rewrite !enc_base64_char.
  - assert (Hr : (length r mod 3 = 2)%nat).
    { change (length (a :: b :: c :: r)) with (3 + length r)%nat in Hlen.
      replace (3 + length r)%nat with (length r + 1 * 3)%nat in Hlen by lia.
      rewrite Nat.Div0.mod_add in Hlen. exact Hlen. }
    destruct (IH Hr) as (body & Hb & Hall).
    eexists (String _ (String _ (String _ (String _ body)))).
    split; [cbn [Base64.EncodeToString]; rewrite Hb; reflexivity|].
    cbn [string_all]. by rewrite !enc_base64_char, Hall.
Qed.

Lemma length_append (a b : string) :
  String.length (a +:+ b) = (String.length a + String.length b)%nat.
Proof. induction a as [|x a IH]; [reflexivity|]. rewrite append_cons. cbn [String.length]. by rewrite IH. Qed.

(** X1. Whatever the timestamp and the secret, the sign that
    [calculateDingTalkSign] returns has 44 characters: 43 of the Base64
    alphabet (so none of them a padding character) and one [=] at the
    end. *)
Theorem dingtalk_sign_shape (timestamp : Z) (secret : string) :
  String.length (calculateDingTalkSign timestamp secret) = 44%nat
  /\ exists body,
       calculateDingTalkSign timestamp secret = body +:+ "="
       /\ String.length body = 43%nat
       /\ string_all base64_char body = true
       /\ string_mem "=" body = false.
Proof.
  unfold calculateDingTalkSign.
  set (digest := HMAC.Sum _ []).
  assert (Hd : length digest = 32%nat)
    by (unfold digest, HMAC.Sum; rewrite app_nil_l; apply sha256_sum_length).
  assert (Hlen : String.length (Base64.EncodeToString digest) = 44%nat)
    by (rewrite EncodeToString_length, Hd; reflexivity).
  split; [exact Hlen|].
  destruct (EncodeToString_two_left digest) as (body & Hb & Hall); [by rewrite Hd|].
  exists body. split; [exact Hb|].
  split; [rewrite Hb, length_append in Hlen; cbn [String.length] in Hlen; lia|].
  split; [exact Hall|].
  clear Hb Hlen. induction body as [|c body IH]; [reflexivity|].
  cbn [string_all] in Hall. apply andb_true_iff in Hall as [Hc Hall].
  cbn [string_mem]. rewrite (IH Hall).
  destruct (Ascii.eqb_spec "=" c) as [<-|_]; [|reflexivity].
  vm_compute in Hc. discriminate.
Qed.

(** ** What [sendJSONRequest] does to the world *)

(** X2. [sendJSONRequest] never reads the clock.  When the body does not
    marshal or the URL is rejected it leaves the world as it was;
    otherwise it hands exactly one request to the client, the POST of the
    encoded body to the URL with the JSON content type, after the earlier
    ones.  It writes one log line, "通知发送成功" with the URL and the
    answer's body, exactly when it returns a body, and none otherwise. *)
Theorem sendJSONRequest_effects (rt : Runtime) (url : string) (body : json) (w : World) :
  let r := sendJSONRequest rt url body w in
  clock_reads (snd r) = clock_reads w
  /\ match json_Marshal rt body, url_error rt url with
     | Ok data, None => requests (snd r) = requests w ++ [json_post url data]
     | _, _ => snd r = w
     end
  /\ logged (snd r)
     = match fst r with
       | Ok respBody =>
           logged w ++ [ {| log_level := "info"; log_msg := "通知发送成功";
                            log_fields := [("url", url); ("response", respBody)] |} ]
       | Err _ => logged w
       end.
Proof.
  unfold sendJSONRequest.
  destruct (json_Marshal rt body) as [data|e]; [|by destruct w].
  destruct (url_error rt url) as [e|]; [by destruct w|].
  unfold bind, http_Do, ret, logger. fold (json_post url data).
  destruct (client_Do rt (requests w) (json_post url data)) as [[code respBody]|e];
    [|repeat split].
  destruct ((code <? 200) || (code >=? 300)); repeat split.
Qed.

(** ** The configured senders: keys, URLs *)

Lemma string_field_configured config k :
  string_field config k
  = match configured config k with
    | Some s => (s, true)
    | None => match config !! k with Some (JStr _) => ("", true) | _ => ("", false) end
    end.
Proof.
  unfold string_field, configured.
  destruct (config !! k) as [[| | |s| |]|]; try reflexivity.
  destruct (String.eqb_spec s "") as [->|_]; reflexivity.
Qed.

Lemma configured_nonempty config k s : configured config k = Some s -> s <> "".
Proof.
  unfold configured. destruct (config !! k) as [[| | |s'| |]|]; try discriminate.
  destruct (String.eqb_spec s' ""); [discriminate|]. by intros [= <-].
Qed.

(** X3. A sender whose key is missing from the configuration, is not a
    string or is empty ([secretKey], or [url] for the custom webhook)
    returns its "缺少" (missing) error and leaves the world as it was:
    no request, no reading of the clock, no log line. *)
Theorem by_config_missing_key (rt : Runtime) (config : gmap string json) (message : string)
    (w : World) :
  (configured config "secretKey" = None ->
   sendDingTalkByConfig rt config message w = (Some "钉钉配置缺少 secretKey", w)
   /\ sendWeComByConfig rt config message w = (Some "企业微信配置缺少 secretKey", w)
   /\ sendFeishuByConfig rt config message w = (Some "飞书配置缺少 secretKey", w))
  /\ (configured config "url" = None ->
      sendWebhookByConfig rt config message w = (Some "自定义Webhook配置缺少 url", w)).
Proof.
  split; intros Hk.
  - unfold sendDingTalkByConfig, sendWeComByConfig, sendFeishuByConfig.
    rewrite string_field_configured, Hk.
    destruct (config !! "secretKey") as [[| | |s| |]|]; repeat split.
  - unfold sendWebhookByConfig. rewrite string_field_configured, Hk.
    destruct (config !! "url") as [[| | |s| |]|]; repeat split.
Qed.

Lemma by_config_missing_key_witness :
  let rt := refRuntime 1700000000000 (always 200 "ok") in
  let config : gmap string json := <["secretKey" := JNum 42]> (<["url" := JStr ""]> ∅) in
  sendWeComByConfig rt config "hi" world0 = (Some "企业微信配置缺少 secretKey", world0)
  /\ sendWebhookByConfig rt config "hi" world0 = (Some "自定义Webhook配置缺少 url", world0).
Proof.
  intros rt config.
  destruct (by_config_missing_key rt config "hi" world0) as [H1 H2].
  destruct (H1 eq_refl) as (_ & Hw & _). split; [exact Hw | exact (H2 eq_refl)].
Defined.

Lemma by_config_configured rt config message :
  (forall token, configured config "secretKey" = Some token ->
     sendDingTalkByConfig rt config message
     = sendDingTalk rt (dingTalkEndpoint +:+ token) (fst (string_field config "signSecret")) message
     /\ sendWeComByConfig rt config message = sendWeCom rt (weComEndpoint +:+ token) message
     /\ sendFeishuByConfig rt config message = sendFeishu rt (feishuEndpoint +:+ token) message)
  /\ (forall url, configured config "url" = Some url ->
        sendWebhookByConfig rt config message = sendCustomWebhook rt url message).
Proof.
  split.
  - intros token Hk. pose proof (configured_nonempty _ _ _ Hk) as Hne.
    unfold sendDingTalkByConfig, sendWeComByConfig, sendFeishuByConfig.
    rewrite (string_field_configured config "secretKey"), Hk. cbn [negb orb].
    destruct (String.eqb_spec token "") as [E|_]; [contradiction|].
    destruct (string_field config "signSecret"). repeat split.
  - intros url Hk. pose proof (configured_nonempty _ _ _ Hk) as Hne.
    unfold sendWebhookByConfig. rewrite string_field_configured, Hk. cbn [negb orb].
    destruct (String.eqb_spec url "") as [E|_]; [contradiction | reflexivity].
Qed.

(** X4. Each configured sender reads its own keys and nothing else: the
    DingTalk sender does the same whatever is stored under a key other
    than [secretKey] and [signSecret], the WeCom sender under a key other
    than [secretKey], the custom webhook sender under a key other than
    [url] (so a [secretKey] next to the [url] is never used). *)
Theorem by_config_reads_only_its_keys (rt : Runtime) (config : gmap string json)
    (k : string) (v : json) (message : string) :
  (k <> "secretKey" -> k <> "signSecret" ->
   sendDingTalkByConfig rt (<[k := v]> config) message
   = sendDingTalkByConfig rt config message)
  /\ (k <> "secretKey" ->
      sendWeComByConfig rt (<[k := v]> config) message = sendWeComByConfig rt config message)
  /\ (k <> "url" ->
      sendWebhookByConfig rt (<[k := v]> config) message
      = sendWebhookByConfig rt config message).
Proof.
  split; [|split].
  - intros H1 H2. unfold sendDingTalkByConfig. by rewrite !string_field_insert_ne.
  - intros H1. unfold sendWeComByConfig. by rewrite !string_field_insert_ne.
  - intros H1. unfold sendWebhookByConfig. by rewrite !string_field_insert_ne.
Qed.

Lemma by_config_reads_only_its_keys_witness :
  let rt := refRuntime 1700000000000 (always 200 "ok") in
  let config : gmap string json := {["url" := JStr "http://localhost/hook"]} in
  sendWebhookByConfig rt (<["secretKey" := JStr "unused"]> config) "hi"
  = sendWebhookByConfig rt config "hi".
Proof.
  intros rt config.
  destruct (by_config_reads_only_its_keys rt config "secretKey" (JStr "unused") "hi")
    as (_ & _ & H).
  apply H. discriminate.
Defined.

(** An occurrence of a text whose only [=] is its last character cannot
    reach across an [=]. *)
Lemma has_prefix_through_eq q : forall a b,
  string_mem "=" q = false ->
  has_prefix (q +:+ "=") ((a +:+ "=") +:+ b) = has_prefix (q +:+ "=") (a +:+ "=").
Proof.
  induction q as [|y q IH]; intros a b Hq.
  - destruct a as [|x a]; [reflexivity|].
    rewrite !append_cons. cbn [has_prefix String.append]. change ("" +:+ "=") with "=".
    cbn [has_prefix]. by destruct (Ascii.eqb "=" x).
  - apply string_mem_cons in Hq as [Hy Hq].
    destruct a as [|x a]; rewrite !append_cons.
    + change ("" +:+ "=") with "=". rewrite append_cons. cbn [has_prefix].
      by rewrite Ascii.eqb_sym, Hy.
    + cbn [has_prefix]. destruct (Ascii.eqb y x); [by apply IH | reflexivity].
Qed.

Lemma count_sub_through_eq y q a b :
  string_mem "=" (String y q) = false ->
  count_sub (String y q +:+ "=") ((a +:+ "=") +:+ b)
  = (count_sub (String y q +:+ "=") (a +:+ "=") + count_sub (String y q +:+ "=") b)%nat.
Proof.
  intros Hq. remember (count_sub (String y q +:+ "=") b) as n eqn:Hn.
  induction a as [|x a IH].
  - pose proof (has_prefix_through_eq (String y q) "" b Hq) as Hp.
    change (("" +:+ "=") +:+ b) with (String "=" b) in *.
    change ("" +:+ "=") with "=" in *.
    cbn [count_sub]. rewrite Hp, <- Hn. rewrite (append_cons y q "=").
    cbn [has_prefix]. destruct (Ascii.eqb y "="); [destruct (has_prefix _ _)|]; lia.
  - pose proof (has_prefix_through_eq (String y q) (String x a) b Hq) as Hp.
    rewrite !append_cons in *. cbn [count_sub]. rewrite Hp, IH.
    destruct (has_prefix (String y q +:+ "=") (String x (a +:+ "="))); lia.
Qed.

Lemma count_sub_after_endpoint token :
  count_sub "timestamp=" (dingTalkEndpoint +:+ token) = count_sub "timestamp=" token
  /\ count_sub "sign=" (dingTalkEndpoint +:+ token) = count_sub "sign=" token.
Proof.
  change dingTalkEndpoint
    with ("https://oapi.dingtalk.com/robot/send?access_token" +:+ "=").
  split.
  - rewrite (count_sub_through_eq "t" "imestamp") by reflexivity.
    replace (count_sub ("timestamp" +:+ "=")
               ("https://oapi.dingtalk.com/robot/send?access_token" +:+ "="))
      with 0%nat by (vm_compute; reflexivity).
    reflexivity.
  - rewrite (count_sub_through_eq "s" "ign") by reflexivity.
    replace (count_sub ("sign" +:+ "=")
               ("https://oapi.dingtalk.com/robot/send?access_token" +:+ "="))
      with 0%nat by (vm_compute; reflexivity).
    reflexivity.
Qed.

(** X5. With the access token [token] configured, [sendDingTalkByConfig]
    posts to the robot endpoint followed by the token as it is.  A
    [signSecret] that is a non-empty string adds [&timestamp=] with the
    reading of the clock and [&sign=] with its sign, so that the URL has
    one [timestamp=] and one [sign=] more than the token has (exactly one
    of each for a token that has none); a [signSecret] that is missing,
    not a string or empty adds nothing. *)
Theorem dingtalk_by_config_url (rt : Runtime) (config : gmap string json)
    (token message : string) (w : World) :
  configured config "secretKey" = Some token ->
  let base := dingTalkEndpoint +:+ token in
  let t := now_ms rt (clock_reads w) in
  (forall secret,
     configured config "signSecret" = Some secret ->
     let url := base +:+ "&timestamp=" +:+ format_d t +:+ "&sign=" +:+
                calculateDingTalkSign t secret in
     sendDingTalkByConfig rt config message w = post rt url (dingTalkBody message) (tick w)
     /\ count_sub "timestamp=" url = S (count_sub "timestamp=" token)
     /\ count_sub "sign=" url = S (count_sub "sign=" token))
  /\ (configured config "signSecret" = None ->
      sendDingTalkByConfig rt config message w = post rt base (dingTalkBody message) (tick w)).
Proof.
  intros Hk base t.
  destruct (by_config_configured rt config message) as [Hc _].
  destruct (Hc token Hk) as (Hd & _ & _). rewrite Hd, sendDingTalk_post. fold base t.
  rewrite (string_field_configured config "signSecret").
  split.
  - intros secret Hs url. rewrite Hs. cbn [fst].
    pose proof (configured_nonempty _ _ _ Hs) as Hne.
    destruct (signed_url_counts base secret t Hne) as [Hts Hsg].
    destruct (count_sub_after_endpoint token) as [Ht0 Hs0]. fold base in Ht0, Hs0.
    assert (Hurl : dingTalkURL base secret t = url).
    { unfold dingTalkURL. destruct (String.eqb_spec secret ""); [contradiction | reflexivity]. }
    rewrite Hurl in *. rewrite Ht0 in Hts. rewrite Hs0 in Hsg. auto.
  - intros Hs. rewrite Hs.
    destruct (config !! "signSecret") as [[| | |s| |]|]; reflexivity.
Qed.

Lemma dingtalk_by_config_url_witness :
  let rt := refRuntime 1700000000000 (always 200 "ok") in
  let config : gmap string json :=
    <["secretKey" := JStr "tok"]> (<["signSecret" := JStr "s"]> ∅) in
  requests (snd (sendDingTalkByConfig rt config "m" world0))
  = [ json_post
        ("https://oapi.dingtalk.com/robot/send?access_token=tok" +:+
         "&timestamp=1700000000000&sign=izNUYw3bO0KxsDYzYMDR365t+vMgZSe8PyS8sv7esqs=")
        (json_text "{'msgtype':'text','text':{'content':'m'}}") ].
Proof.
  intros rt config.
  destruct (dingtalk_by_config_url rt config "tok" "m" world0 eq_refl) as [H _].
  destruct (H "s" eq_refl) as (-> & _ & _).
  vm_compute. reflexivity.
Defined.

(** ** What a dispatch does to the world *)

Lemma continues_refl w : continues w w [].
Proof. split; [by rewrite app_nil_r|]. split; [exists []; by rewrite app_nil_r | lia]. Qed.

Lemma continues_trans w1 w2 w3 n1 n2 :
  continues w1 w2 n1 -> continues w2 w3 n2 -> continues w1 w3 (n1 ++ n2).
Proof.
  intros (Hr1 & [l1 Hl1] & Hc1) (Hr2 & [l2 Hl2] & Hc2).
  split; [by rewrite Hr2, Hr1, app_assoc|].
  split; [exists (l1 ++ l2); by rewrite Hl2, Hl1, app_assoc | lia].
Qed.

Lemma continues_log level msg fields w : continues w (log_line level msg fields w) [].
Proof.
  unfold log_line, logger. cbn [snd]. split; [cbn; by rewrite app_nil_r|].
  split; [eexists; reflexivity | cbn; lia].
Qed.

Lemma continues_tick w : continues w (tick w) [].
Proof.
  split; [cbn; by rewrite app_nil_r|].
  split; [exists []; cbn; by rewrite app_nil_r | cbn; lia].
Qed.

Lemma sendJSONRequest_continues rt url body w :
  let w' := snd (sendJSONRequest rt url body w) in
  clock_reads w' = clock_reads w
  /\ (continues w w' [] \/ exists data, continues w w' [json_post url data]).
Proof.
  unfold sendJSONRequest.
  destruct (json_Marshal rt body) as [data|e]; [|split; [reflexivity | left; apply continues_refl]].
  destruct (url_error rt url) as [e|]; [split; [reflexivity | left; apply continues_refl]|].
  unfold bind, http_Do, ret, logger. fold (json_post url data).
  split.
  - destruct (client_Do rt (requests w) (json_post url data)) as [[code respBody]|e]; [|reflexivity].
    destruct ((code <? 200) || (code >=? 300)); reflexivity.
  - right. exists data.
    destruct (client_Do rt (requests w) (json_post url data)) as [[code respBody]|e].
    + destruct ((code <? 200) || (code >=? 300)); cbn [snd];
        (split; [reflexivity|]; split; [|cbn; lia]);
        [exists []; cbn; by rewrite app_nil_r | eexists; reflexivity].
    + split; [reflexivity|]. split; [exists []; cbn; by rewrite app_nil_r | cbn; lia].
Qed.

Lemma post_continues rt url body w :
  let w' := snd (post rt url body w) in
  clock_reads w' = clock_reads w
  /\ (continues w w' [] \/ exists data, continues w w' [json_post url data]).
Proof.
  pose proof (sendJSONRequest_continues rt url body w) as H.
  unfold post. destruct (sendJSONRequest rt url body w) as [r w']. exact H.
Qed.

Lemma sendWeCom_continues rt url message w :
  let w' := snd (sendWeCom rt url message w) in
  clock_reads w' = clock_reads w
  /\ (continues w w' [] \/ exists data, continues w w' [json_post url data]).
Proof.
  pose proof (sendJSONRequest_continues rt url (weComBody message) w) as H.
  unfold sendWeCom, bind, ret.
  destruct (sendJSONRequest rt url (weComBody message) w) as [[result|e] w']; [|exact H].
  destruct (json_Unmarshal_WeComResult rt result) as [r|e]; [|exact H].
  destruct (negb (Errcode r =? 0)); exact H.
Qed.

Lemma by_config_unconfigured rt config message w :
  (configured config "secretKey" = None ->
   sendDingTalkByConfig rt config message w = (Some "钉钉配置缺少 secretKey", w)
   /\ sendWeComByConfig rt config message w = (Some "企业微信配置缺少 secretKey", w)
   /\ sendFeishuByConfig rt config message w = (Some "飞书配置缺少 secretKey", w))
  /\ (configured config "url" = None ->
      sendWebhookByConfig rt config message w = (Some "自定义Webhook配置缺少 url", w)).
Proof.
  split; intros Hk.
  - unfold sendDingTalkByConfig, sendWeComByConfig, sendFeishuByConfig.
    rewrite string_field_configured, Hk.
    destruct (config !! "secretKey") as [[| | |s| |]|]; repeat split.
  - unfold sendWebhookByConfig. rewrite string_field_configured, Hk.
    destruct (config !! "url") as [[| | |s| |]|]; repeat split.
Qed.

Lemma has_prefix_refl p : has_prefix p p = true.
Proof. rewrite <- (append_nil_r p) at 2. apply has_prefix_app. Qed.

Lemma has_prefix_dingTalkURL base secret t : has_prefix base (dingTalkURL base secret t) = true.
Proof.
  unfold dingTalkURL. destruct (String.eqb secret ""); [apply has_prefix_refl | apply has_prefix_app].
Qed.

(** The four configured senders, each with the URLs it can post to. *)
Lemma by_config_continues rt config message w :
  (let w' := snd (sendDingTalkByConfig rt config message w) in
   w' = w \/
   exists token, configured config "secretKey" = Some token
     /\ clock_reads w' = S (clock_reads w)
     /\ (continues w w' [] \/ exists url data,
           continues w w' [json_post url data]
           /\ has_prefix (dingTalkEndpoint +:+ token) url = true))
  /\ (let w' := snd (sendWeComByConfig rt config message w) in
      clock_reads w' = clock_reads w
      /\ (continues w w' [] \/ exists token data,
            configured config "secretKey" = Some token
            /\ continues w w' [json_post (weComEndpoint +:+ token) data]))
  /\ (let w' := snd (sendFeishuByConfig rt config message w) in
      clock_reads w' = clock_reads w
      /\ (continues w w' [] \/ exists token data,
            configured config "secretKey" = Some token
            /\ continues w w' [json_post (feishuEndpoint +:+ token) data]))
  /\ (let w' := snd (sendWebhookByConfig rt config message w) in
      clock_reads w' = clock_reads w
      /\ (continues w w' [] \/ exists url data,
            configured config "url" = Some url
            /\ continues w w' [json_post url data])).
Proof.
  destruct (by_config_configured rt config message) as [Hk Hu].
  destruct (by_config_unconfigured rt config message w) as [Hk0 Hu0].
  split; [|split; [|split]].
  - destruct (configured config "secretKey") as [token|] eqn:E.
    + destruct (Hk token eq_refl) as (-> & _ & _). right. exists token. split; [reflexivity|].
      rewrite sendDingTalk_post.
      set (url := dingTalkURL _ _ _).
      destruct (post_continues rt url (dingTalkBody message) (tick w)) as [Hc Hr].
      split; [exact Hc|].
      destruct Hr as [Hr|[data Hr]].
      * left. apply (continues_trans _ _ _ [] [] (continues_tick w) Hr).
      * right. exists url, data. split.
        -- apply (continues_trans _ _ _ [] _ (continues_tick w) Hr).
        -- apply has_prefix_dingTalkURL.
    + destruct (Hk0 eq_refl) as (-> & _ & _). left. reflexivity.
  - destruct (configured config "secretKey") as [token|] eqn:E.
    + destruct (Hk token eq_refl) as (_ & -> & _).
      destruct (sendWeCom_continues rt (weComEndpoint +:+ token) message w) as [Hc Hr].
      split; [exact Hc|]. destruct Hr as [Hr|[data Hr]]; [left; exact Hr | right; eauto].
    + destruct (Hk0 eq_refl) as (_ & -> & _). split; [reflexivity | left; apply continues_refl].
  - destruct (configured config "secretKey") as [token|] eqn:E.
    + destruct (Hk token eq_refl) as (_ & _ & ->). rewrite sendFeishu_post.
      destruct (post_continues rt (feishuEndpoint +:+ token) (feishuBody message) w) as [Hc Hr].
      split; [exact Hc|]. destruct Hr as [Hr|[data Hr]]; [left; exact Hr | right; eauto].
    + destruct (Hk0 eq_refl) as (_ & _ & ->). split; [reflexivity | left; apply continues_refl].
  - destruct (configured config "url") as [url|] eqn:E.
    + rewrite (Hu url eq_refl), sendCustomWebhook_post.
      destruct (post_continues rt url (customWebhookBody message) w) as [Hc Hr].
      split; [exact Hc|]. destruct Hr as [Hr|[data Hr]]; [left; exact Hr | right; eauto].
    + rewrite (Hu0 eq_refl). split; [reflexivity | left; apply continues_refl].
Qed.

Lemma SendNotificationByConfig_cases rt cfg record agent w :
  SendNotificationByConfig rt cfg record agent w
  = if negb (Channel_Enabled cfg) then (Some "通知渠道已禁用", w)
    else
      let w1 := log_line "info" "发送通知" [("channelType", Channel_Type cfg)] w in
      let message := buildMessage rt agent record in
      let ty := Channel_Type cfg in
      if String.eqb ty "dingtalk" then sendDingTalkByConfig rt (Channel_Config cfg) message w1
      else if String.eqb ty "wecom" then sendWeComByConfig rt (Channel_Config cfg) message w1
      else if String.eqb ty "feishu" then sendFeishuByConfig rt (Channel_Config cfg) message w1
      else if String.eqb ty "webhook" then sendWebhookByConfig rt (Channel_Config cfg) message w1
      else if String.eqb ty "email" then (Some "邮件通知暂未实现", w1)
      else (Some ("不支持的通知渠道类型: " +:+ ty), w1).
Proof.
  unfold SendNotificationByConfig. destruct (Channel_Enabled cfg); [|reflexivity].
  cbn [negb]. unfold bind at 1. unfold logger at 1, log_line, logger. cbn [snd].
  repeat match goal with |- context [String.eqb ?a ?b] => destruct (String.eqb a b) end;
    reflexivity.
Qed.

(** X6. One dispatch hands at most one request to the client, after the
    earlier ones, and only for an enabled channel: a POST with the JSON
    content type, to the DingTalk robot endpoint followed by the
    configured token (and whatever the signing adds), to the WeCom or the
    Feishu endpoint followed by the token, or to the configured URL of the
    custom webhook.  The log only grows, and the clock is read at most
    once, by a DingTalk channel only. *)
Theorem dispatch_requests (rt : Runtime) (cfg : NotificationChannelConfig)
    (record : AlertRecord) (agent : Agent) (w : World) :
  let w' := snd (SendNotificationByConfig rt cfg record agent w) in
  (continues w w' []
   \/ exists url data,
        continues w w' [json_post url data]
        /\ Channel_Enabled cfg = true
        /\ ((Channel_Type cfg = "dingtalk"
             /\ exists token, configured (Channel_Config cfg) "secretKey" = Some token
                  /\ has_prefix (dingTalkEndpoint +:+ token) url = true)
            \/ (Channel_Type cfg = "wecom"
                /\ exists token, configured (Channel_Config cfg) "secretKey" = Some token
                     /\ url = weComEndpoint +:+ token)
            \/ (Channel_Type cfg = "feishu"
                /\ exists token, configured (Channel_Config cfg) "secretKey" = Some token
                     /\ url = feishuEndpoint +:+ token)
            \/ (Channel_Type cfg = "webhook"
                /\ configured (Channel_Config cfg) "url" = Some url)))
  /\ (clock_reads w' = clock_reads w
      \/ (clock_reads w' = S (clock_reads w) /\ Channel_Type cfg = "dingtalk")).
Proof.
  rewrite SendNotificationByConfig_cases.
  destruct (Channel_Enabled cfg) eqn:He; cbn [negb];
    [|split; [left; apply continues_refl | left; reflexivity]].
  set (w1 := log_line "info" "发送通知" [("channelType", Channel_Type cfg)] w).
  pose proof (continues_log "info" "发送通知" [("channelType", Channel_Type cfg)] w) as Hlog.
  fold w1 in Hlog.
  assert (Hc1 : clock_reads w1 = clock_reads w) by reflexivity.
  cbv zeta.
  destruct (by_config_continues rt (Channel_Config cfg) (buildMessage rt agent record) w1)
    as (Hd & Hw & Hf & Hh).
  destruct (String.eqb_spec (Channel_Type cfg) "dingtalk") as [Ety|_].
  { cbv zeta in Hd. destruct Hd as [->|(token & Hk & Hc & Hr)].
    - split; [left; exact Hlog | left; exact Hc1].
    - split; [|right; split; [by rewrite Hc, Hc1 | exact Ety]].
      destruct Hr as [Hr|(url & data & Hr & Hp)].
      + left. apply (continues_trans _ _ _ [] [] Hlog Hr).
      + right. exists url, data. split; [apply (continues_trans _ _ _ [] _ Hlog Hr)|].
        split; [reflexivity|]. left. eauto. }
  destruct (String.eqb_spec (Channel_Type cfg) "wecom") as [Ety|_].
  { cbv zeta in Hw. destruct Hw as [Hc Hr]. split; [|left; by rewrite Hc].
    destruct Hr as [Hr|(token & data & Hk & Hr)].
    - left. apply (continues_trans _ _ _ [] [] Hlog Hr).
    - right. exists (weComEndpoint +:+ token), data.
      split; [apply (continues_trans _ _ _ [] _ Hlog Hr)|].
      split; [reflexivity|]. right. left. eauto. }
  destruct (String.eqb_spec (Channel_Type cfg) "feishu") as [Ety|_].
  { cbv zeta in Hf. destruct Hf as [Hc Hr]. split; [|left; by rewrite Hc].
    destruct Hr as [Hr|(token & data & Hk & Hr)].
    - left. apply (continues_trans _ _ _ [] [] Hlog Hr).
    - right. exists (feishuEndpoint +:+ token), data.
      split; [apply (continues_trans _ _ _ [] _ Hlog Hr)|].
      split; [reflexivity|]. right. right. left. eauto. }
  destruct (String.eqb_spec (Channel_Type cfg) "webhook") as [Ety|_].
  { cbv zeta in Hh. destruct Hh as [Hc Hr]. split; [|left; by rewrite Hc].
    destruct Hr as [Hr|(url & data & Hk & Hr)].
    - left. apply (continues_trans _ _ _ [] [] Hlog Hr).
    - right. exists url, data.
      split; [apply (continues_trans _ _ _ [] _ Hlog Hr)|].
      split; [reflexivity|]. right. right. right. eauto. }
  destruct (String.eqb (Channel_Type cfg) "email");
    (split; [left; exact Hlog | left; exact Hc1]).
Qed.

(** X7. For an enabled channel whose type is none of [dingtalk],
    [wecom], [feishu], [webhook] and [email] (the empty type among them),
    [SendNotificationByConfig] returns the error "不支持的通知渠道类型: "
    followed by the type, after its one log line and without a request. *)
Theorem unsupported_channel_type (rt : Runtime) (cfg : NotificationChannelConfig)
    (record : AlertRecord) (agent : Agent) (w : World) :
  Channel_Enabled cfg = true ->
  known_type (Channel_Type cfg) = false ->
  SendNotificationByConfig rt cfg record agent w
  = (Some ("不支持的通知渠道类型: " +:+ Channel_Type cfg),
     log_line "info" "发送通知" [("channelType", Channel_Type cfg)] w)
  /\ requests (snd (SendNotificationByConfig rt cfg record agent w)) = requests w.
Proof.
  intros He Hty. rewrite SendNotificationByConfig_cases, He. cbn [negb]. cbv zeta.
  unfold known_type in Hty. repeat (apply orb_false_iff in Hty as [Hty ?]).
  repeat match goal with H : String.eqb _ _ = false |- _ => rewrite H; clear H end.
  split; reflexivity.
Qed.

Lemma unsupported_channel_type_witness :
  let rt := refRuntime 1700000000000 (always 200 "ok") in
  let cfg := {| Channel_Type := "slack"; Channel_Enabled := true;
                Channel_Config := {["url" := JStr "http://localhost/hook"]} |} in
  let record := {| Record_AlertType := "cpu"; Record_Message := "cpu high";
                   Record_Threshold := 80; Record_ActualValue := 91.5;
                   Record_Level := "warning"; Record_Status := "firing";
                   Record_FiredAt := 1700000000000; Record_ResolvedAt := 0 |} in
  let agent := {| Agent_ID := "a1"; Agent_Name := "web-1"; Agent_Hostname := "web-1.local";
                  Agent_IP := "10.0.0.1" |} in
  fst (SendNotificationByConfig rt cfg record agent world0) = Some "不支持的通知渠道类型: slack"
  /\ requests (snd (SendNotificationByConfig rt cfg record agent world0)) = [].
Proof.
  intros rt cfg record agent.
  destruct (unsupported_channel_type rt cfg record agent world0 eq_refl eq_refl) as [H1 H2].
  rewrite H1 in *. split; [reflexivity | exact H2].
Defined.

(** One dispatch, as a step of the world. *)
Lemma dispatch_step rt cfg record agent w :
  let w' := snd (SendNotificationByConfig rt cfg record agent w) in
  exists new,
    continues w w' new
    /\ (length new <= 1)%nat
    /\ Forall is_json_post new
    /\ (clock_reads w' <= S (clock_reads w))%nat.
Proof.
  rewrite SendNotificationByConfig_cases.
  destruct (Channel_Enabled cfg); cbn [negb];
    [|exists []; split; [apply continues_refl|]; split; [cbn; lia|];
      split; [constructor | cbn; lia]].
  set (w1 := log_line "info" "发送通知" [("channelType", Channel_Type cfg)] w).
  pose proof (continues_log "info" "发送通知" [("channelType", Channel_Type cfg)] w) as Hlog.
  fold w1 in Hlog.
  assert (Hc1 : clock_reads w1 = clock_reads w) by reflexivity.
  cbv zeta.
  destruct (by_config_continues rt (Channel_Config cfg) (buildMessage rt agent record) w1)
    as (Hd & Hw & Hf & Hh). cbv zeta in Hd, Hw, Hf, Hh.
  assert (Hnone : forall w', continues w1 w' [] -> (clock_reads w' <= S (clock_reads w))%nat ->
            exists new, continues w w' new /\ (length new <= 1)%nat
                        /\ Forall is_json_post new /\ (clock_reads w' <= S (clock_reads w))%nat).
  { intros w' Hr Hc. exists []. split; [apply (continues_trans _ _ _ [] [] Hlog Hr)|].
    split; [cbn; lia|]. split; [constructor | exact Hc]. }
  assert (Hone : forall w' url data, continues w1 w' [json_post url data] ->
            (clock_reads w' <= S (clock_reads w))%nat ->
            exists new, continues w w' new /\ (length new <= 1)%nat
                        /\ Forall is_json_post new /\ (clock_reads w' <= S (clock_reads w))%nat).
  { intros w' url data Hr Hc. exists [json_post url data].
    split; [apply (continues_trans _ _ _ [] _ Hlog Hr)|].
    split; [cbn; lia|]. split; [|exact Hc]. constructor; [by split | constructor]. }
  destruct (String.eqb (Channel_Type cfg) "dingtalk").
  { destruct Hd as [->|(token & _ & Hc & [Hr|(url & data & Hr & _)])].
    - apply Hnone; [apply continues_refl | lia].
    - apply Hnone; [exact Hr | lia].
    - apply (Hone _ url data); [exact Hr | lia]. }
  destruct (String.eqb (Channel_Type cfg) "wecom").
  { destruct Hw as [Hc [Hr|(token & data & _ & Hr)]];
      [apply Hnone | eapply Hone]; first [exact Hr | lia]. }
  destruct (String.eqb (Channel_Type cfg) "feishu").
  { destruct Hf as [Hc [Hr|(token & data & _ & Hr)]];
      [apply Hnone | eapply Hone]; first [exact Hr | lia]. }
  destruct (String.eqb (Channel_Type cfg) "webhook").
  { destruct Hh as [Hc [Hr|(url & data & _ & Hr)]];
      [apply Hnone | eapply Hone]; first [exact Hr | lia]. }
  destruct (String.eqb (Channel_Type cfg) "email"); cbn [snd];
    (apply Hnone; [apply continues_refl | lia]).
Qed.

(** ** Dispatch to many channels: the world and the parts of a list *)

Lemma SendNotificationByConfigs_attempts rt cfgs record agent w :
  SendNotificationByConfigs rt cfgs record agent w
  = (match failures (fst (attempts rt cfgs record agent w)) with
     | [] => None
     | errs => Some ("部分通知发送失败: " +:+ format_v_errors errs)
     end, snd (attempts rt cfgs record agent w)).
Proof.
  unfold SendNotificationByConfigs, bind. rewrite sendAll_attempts. cbn [app].
  destruct (failures (fst (attempts rt cfgs record agent w))); reflexivity.
Qed.

Lemma attempts_app rt record agent a b : forall w,
  attempts rt (a ++ b) record agent w
  = (fst (attempts rt a record agent w)
     ++ fst (attempts rt b record agent (snd (attempts rt a record agent w))),
     snd (attempts rt b record agent (snd (attempts rt a record agent w)))).
Proof.
  induction a as [|ch a IH]; intros w.
  - cbn [app attempts fst snd]. by destruct (attempts rt b record agent w).
  - cbn [app attempts].
    destruct (SendNotificationByConfig rt ch record agent w) as [o w1].
    match goal with |- context [attempts rt (a ++ b) record agent ?w2] =>
      rewrite (IH w2); destruct (attempts rt a record agent w2) as [oa wa] end.
    reflexivity.
Qed.

Lemma failures_app l1 l2 : failures (l1 ++ l2) = failures l1 ++ failures l2.
Proof.
  induction l1 as [|o l1 IH]; [reflexivity|].
  change ((o :: l1) ++ l2) with (o :: (l1 ++ l2)). rewrite !failures_cons, IH.
  by destruct o.
Qed.

Lemma attempts_continues rt record agent cfgs : forall w,
  exists new,
    continues w (snd (attempts rt cfgs record agent w)) new
    /\ (length new <= length cfgs)%nat
    /\ Forall is_json_post new
    /\ (clock_reads (snd (attempts rt cfgs record agent w))
        <= clock_reads w + length cfgs)%nat.
Proof.
  induction cfgs as [|ch cfgs IH]; intros w.
  - exists []. cbn [attempts snd length]. split; [apply continues_refl|].
    split; [lia|]. split; [constructor | lia].
  - cbn [attempts].
    pose proof (dispatch_step rt ch record agent w) as Hstep.
    destruct (SendNotificationByConfig rt ch record agent w) as [o w1]. cbn [snd] in Hstep.
    destruct Hstep as (n1 & Hc1 & Hl1 & Hp1 & Hk1).
    set (w2 := match o with
               | Some e => log_line "error" "发送通知失败"
                             [("channelType", Channel_Type ch); ("error", e)] w1
               | None => w1
               end).
    assert (Hc2 : continues w1 w2 [] /\ clock_reads w2 = clock_reads w1).
    { unfold w2. destruct o; split; try reflexivity;
        [apply continues_log | apply continues_refl]. }
    destruct Hc2 as [Hc2 Hk2].
    destruct (IH w2) as (n3 & Hc3 & Hl3 & Hp3 & Hk3).
    destruct (attempts rt cfgs record agent w2) as [os w3]. cbn [snd] in *.
    exists (n1 ++ n3). split.
    + pose proof (continues_trans _ _ _ _ _ Hc1 Hc2) as H12. rewrite app_nil_r in H12.
      apply (continues_trans _ _ _ _ _ H12 Hc3).
    + cbn [length]. split; [rewrite length_app; lia|].
      split; [apply Forall_app; auto | lia].
Qed.

(** X8. [SendNotificationByConfigs] keeps the earlier requests and log
    lines in place and adds to them: at most one request per channel of
    the list, each of them a POST with the JSON content type, and at most
    one reading of the clock per channel. *)
Theorem batch_requests (rt : Runtime) (cfgs : list NotificationChannelConfig)
    (record : AlertRecord) (agent : Agent) (w : World) :
  let w' := snd (SendNotificationByConfigs rt cfgs record agent w) in
  exists new,
    continues w w' new
    /\ (length new <= length cfgs)%nat
    /\ Forall is_json_post new
    /\ (clock_reads w' <= clock_reads w + length cfgs)%nat.
Proof.
  rewrite SendNotificationByConfigs_attempts. cbn [snd]. apply attempts_continues.
Qed.

(** X9. Dispatching to the list [a ++ b] does to the world what
    dispatching to [a] and then to [b] does; it returns nil exactly when
    both do, and its errors are those of [a] followed by those of [b]. *)
Theorem batch_of_concatenation (rt : Runtime) (a b : list NotificationChannelConfig)
    (record : AlertRecord) (agent : Agent) (w : World) :
  let ra := SendNotificationByConfigs rt a record agent w in
  let rb := SendNotificationByConfigs rt b record agent (snd ra) in
  let r := SendNotificationByConfigs rt (a ++ b) record agent w in
  snd r = snd rb
  /\ (fst r = None <-> fst ra = None /\ fst rb = None)
  /\ failures (fst (attempts rt (a ++ b) record agent w))
     = failures (fst (attempts rt a record agent w))
       ++ failures (fst (attempts rt b record agent (snd ra))).
Proof.
  cbv zeta. rewrite !SendNotificationByConfigs_attempts. cbn [fst snd].
  rewrite attempts_app. cbn [fst snd]. rewrite failures_app.
  split; [reflexivity|]. split; [|reflexivity].
  destruct (failures (fst (attempts rt a record agent w))) as [|e1 l1];
    destruct (failures (fst (attempts rt b record agent _))) as [|e2 l2]; cbn [app];
    split; try tauto; try discriminate; intros [? ?]; discriminate.
Qed.

(** X10. A disabled channel counts as a failed one: when the list holds
    a channel with [Enabled = false], [SendNotificationByConfigs] returns
    the aggregate error, and "通知渠道已禁用" is a part of its message. *)
Theorem disabled_channel_fails_batch (rt : Runtime) (cfgs : list NotificationChannelConfig)
    (cfg : NotificationChannelConfig) (record : AlertRecord) (agent : Agent) (w : World) :
  In cfg cfgs ->
  Channel_Enabled cfg = false ->
  exists msg,
    fst (SendNotificationByConfigs rt cfgs record agent w) = Some msg
    /\ has_prefix "部分通知发送失败: " msg = true
    /\ contains "通知渠道已禁用" msg = true.
Proof.
  intros Hin Hoff. apply in_split in Hin as (before & after & ->).
  pose proof (attempts_nth rt record agent before cfg after w) as Hnth.
  rewrite SendNotificationByConfig_cases, Hoff in Hnth. cbn [negb fst] in Hnth.
  apply nth_error_In, failures_In in Hnth.
  rewrite SendNotificationByConfigs_attempts. cbn [fst].
  destruct (failures (fst (attempts rt (before ++ cfg :: after) record agent w)))
    as [|e errs] eqn:E; [destruct Hnth|].
  eexists. split; [reflexivity|]. split; [apply has_prefix_app|].
  apply aggregate_contains, Hnth.
Qed.

Lemma disabled_channel_fails_batch_witness :
  let rt := refRuntime 1700000000000 (always 200 "ok") in
  let record := {| Record_AlertType := "cpu"; Record_Message := "cpu high";
                   Record_Threshold := 80; Record_ActualValue := 91.5;
                   Record_Level := "warning"; Record_Status := "firing";
                   Record_FiredAt := 1700000000000; Record_ResolvedAt := 0 |} in
  let agent := {| Agent_ID := "a1"; Agent_Name := "web-1"; Agent_Hostname := "web-1.local";
                  Agent_IP := "10.0.0.1" |} in
  let off := {| Channel_Type := "feishu"; Channel_Enabled := false;
                Channel_Config := {["secretKey" := JStr "hook"]} |} in
  let hook := {| Channel_Type := "webhook"; Channel_Enabled := true;
                 Channel_Config := {["url" := JStr "http://localhost/hook"]} |} in
  fst (SendNotificationByConfigs rt [hook; off] record agent world0)
  = Some "部分通知发送失败: [通知渠道已禁用]".
Proof.
  intros rt record agent off hook.
  destruct (disabled_channel_fails_batch rt [hook; off] off record agent world0)
    as (msg & Hm & _); [right; left; reflexivity | reflexivity |].
  assert (E : fst (SendNotificationByConfigs rt [hook; off] record agent world0)
              = Some "部分通知发送失败: [通知渠道已禁用]") by (vm_compute; reflexivity).
  rewrite Hm in E. injection E as ->. exact Hm.
Defined.

(** ** The text of an alert *)

Lemma count_sub_skip p a s : (count_sub p s <= count_sub p (a +:+ s))%nat.
Proof.
  induction a as [|x a IH]; [reflexivity|].
  rewrite append_cons. cbn [count_sub]. lia.
Qed.

Lemma contains_skip p a s : contains p s = true -> contains p (a +:+ s) = true.
Proof.
  unfold contains. rewrite !negb_true_iff, !Nat.eqb_neq.
  pose proof (count_sub_skip p a s). lia.
Qed.

Lemma contains_here p b : contains p (p +:+ b) = true.
Proof. apply (contains_infix "" p b). Qed.

Lemma contains_self p : contains p p = true.
Proof. rewrite <- (append_nil_r p) at 2. apply contains_here. Qed.

Ltac find_part :=
  repeat first [apply contains_here | apply contains_self | apply contains_skip].

(** X11. The text of a firing alert carries the agent's name, id, host
    name and IP, the alert type, the alert message, the formatted
    threshold and value and the formatted time of firing (in whole
    seconds); the text of a resolved alert carries the same
    identification, the value and the time of resolution, and nothing of
    the record's level, message, threshold or time of firing. *)
Theorem buildMessage_contents (rt : Runtime) (agent : Agent) (record : AlertRecord) :
  (Record_Status record = "firing" ->
   forall part,
     In part [ Agent_Name agent; Agent_ID agent; Agent_Hostname agent; Agent_IP agent;
               Record_AlertType record; Record_Message record;
               format_f2 rt (Record_Threshold record);
               format_f2 rt (Record_ActualValue record);
               format_time rt (Z.quot (Record_FiredAt record) 1000) ] ->
     contains part (buildMessage rt agent record) = true)
  /\ (Record_Status record = "resolved" ->
      (forall part,
         In part [ Agent_Name agent; Agent_ID agent; Agent_Hostname agent; Agent_IP agent;
                   Record_AlertType record;
                   format_f2 rt (Record_ActualValue record);
                   format_time rt (Z.quot (Record_ResolvedAt record) 1000) ] ->
         contains part (buildMessage rt agent record) = true)
      /\ forall level message threshold firedAt,
           buildMessage rt agent
             {| Record_AlertType := Record_AlertType record; Record_Message := message;
                Record_Threshold := threshold;
                Record_ActualValue := Record_ActualValue record;
                Record_Level := level; Record_Status := Record_Status record;
                Record_FiredAt := firedAt;
                Record_ResolvedAt := Record_ResolvedAt record |}
           = buildMessage rt agent record).
Proof.
  split.
  - intros Hs part Hin. unfold buildMessage. rewrite Hs, String.eqb_refl.
    cbn [In] in Hin.
    repeat (destruct Hin as [<-|Hin]; [find_part|]). destruct Hin.
  - intros Hs. split.
    + intros part Hin. unfold buildMessage. rewrite Hs.
      change (String.eqb "resolved" "firing") with false. rewrite String.eqb_refl.
      cbn [In] in Hin.
      repeat (destruct Hin as [<-|Hin]; [find_part|]). destruct Hin.
    + intros level message threshold firedAt. unfold buildMessage.
      cbn [Record_Status Record_AlertType Record_ActualValue Record_ResolvedAt].
      rewrite Hs. change (String.eqb "resolved" "firing") with false.
      rewrite String.eqb_refl. reflexivity.
Qed.

Lemma buildMessage_contents_witness :
  let rt := refRuntime 0 (always 200 "") in
  let agent := {| Agent_ID := "a1"; Agent_Name := "web-1"; Agent_Hostname := "web-1.local";
                  Agent_IP := "10.0.0.1" |} in
  let record := {| Record_AlertType := "cpu"; Record_Message := "cpu high";
                   Record_Threshold := 80; Record_ActualValue := 91.5;
                   Record_Level := "warning"; Record_Status := "firing";
                   Record_FiredAt := 1700000000999; Record_ResolvedAt := 0 |} in
  contains "cpu high" (buildMessage rt agent record) = true
  /\ contains "2023-11-14 22:13:20" (buildMessage rt agent record) = true.
Proof.
  intros rt agent record.
  destruct (buildMessage_contents rt agent record) as [H _].
  split; apply (H eq_refl); cbn [In]; [do 5 right; left; reflexivity|].
  do 8 right. left. vm_compute. reflexivity.
Defined.

(** X12. A record whose status is neither [firing] nor [resolved] has
    the empty text, and it is dispatched all the same: an enabled Feishu
    channel with a token posts the body with the empty text, after the
    log line of the dispatch. *)
Theorem other_status_sends_empty_text (rt : Runtime) (cfg : NotificationChannelConfig)
    (token : string) (record : AlertRecord) (agent : Agent) (w : World) :
  Record_Status record <> "firing" ->
  Record_Status record <> "resolved" ->
  buildMessage rt agent record = ""
  /\ (Channel_Enabled cfg = true ->
      Channel_Type cfg = "feishu" ->
      configured (Channel_Config cfg) "secretKey" = Some token ->
      SendNotificationByConfig rt cfg record agent w
      = post rt (feishuEndpoint +:+ token) (feishuBody "")
          (log_line "info" "发送通知" [("channelType", "feishu")] w)).
Proof.
  intros Hf Hr.
  assert (Hm : buildMessage rt agent record = "").
  { unfold buildMessage.
    destruct (String.eqb_spec (Record_Status record) "firing"); [contradiction|].
    destruct (String.eqb_spec (Record_Status record) "resolved"); [contradiction|].
    reflexivity. }
  split; [exact Hm|]. intros He Hty Hk.
  rewrite SendNotificationByConfig_cases, He, Hty, Hm. cbn [negb]. cbv zeta.
  change (String.eqb "feishu" "dingtalk") with false.
  change (String.eqb "feishu" "wecom") with false.
  change (String.eqb "feishu" "feishu") with true. cbv iota.
  destruct (by_config_configured rt (Channel_Config cfg) "") as [Hc _].
  destruct (Hc token Hk) as (_ & _ & ->). reflexivity.
Qed.

Lemma other_status_sends_empty_text_witness :
  let rt := refRuntime 0 (always 200 "") in
  let cfg := {| Channel_Type := "feishu"; Channel_Enabled := true;
                Channel_Config := {["secretKey" := JStr "hook"]} |} in
  let agent := {| Agent_ID := "a1"; Agent_Name := "web-1"; Agent_Hostname := "web-1.local";
                  Agent_IP := "10.0.0.1" |} in
  let record := {| Record_AlertType := "cpu"; Record_Message := "cpu high";
                   Record_Threshold := 80; Record_ActualValue := 91.5;
                   Record_Level := "warning"; Record_Status := "pending";
                   Record_FiredAt := 1700000000999; Record_ResolvedAt := 0 |} in
  map req_body (requests (snd (SendNotificationByConfig rt cfg record agent world0)))
  = [json_text "{'content':{'text':''},'msg_type':'text'}"].
Proof.
  intros rt cfg agent record.
  destruct (other_status_sends_empty_text rt cfg "hook" record agent world0) as [_ H];
    [discriminate | discriminate |].
  rewrite (H eq_refl eq_refl eq_refl). vm_compute. reflexivity.
Defined.

(** ** A dispatch without an error *)

Lemma sendJSONRequest_sent rt url body w respBody :
  fst (sendJSONRequest rt url body w) = Ok respBody ->
  answered_2xx rt w (snd (sendJSONRequest rt url body w)).
Proof.
  unfold sendJSONRequest.
  destruct (json_Marshal rt body) as [data|e]; [|discriminate].
  destruct (url_error rt url) as [e|]; [discriminate|].
  unfold bind, http_Do, ret, logger. fold (json_post url data).
  destruct (client_Do rt (requests w) (json_post url data)) as [[code b]|e] eqn:Hdo;
    [|discriminate].
  destruct (Z.ltb_spec code 200); destruct (Z.geb_spec code 300); cbn [orb fst snd];
    try discriminate.
  intros _. exists url, data, code, b. split; [reflexivity|]. split; [exact Hdo | lia].
Qed.

Lemma post_sent rt url body w :
  fst (post rt url body w) = None -> answered_2xx rt w (snd (post rt url body w)).
Proof.
  pose proof (sendJSONRequest_sent rt url body w) as H. unfold post.
  destruct (sendJSONRequest rt url body w) as [[respBody|e] w']; [|discriminate].
  intros _. apply (H respBody). reflexivity.
Qed.

Lemma sendWeCom_sent rt url message w :
  fst (sendWeCom rt url message w) = None ->
  answered_2xx rt w (snd (sendWeCom rt url message w)).
Proof.
  pose proof (sendJSONRequest_sent rt url (weComBody message) w) as H.
  unfold sendWeCom, bind, ret.
  destruct (sendJSONRequest rt url (weComBody message) w) as [[result|e] w']; [|discriminate].
  destruct (json_Unmarshal_WeComResult rt result) as [r|e]; [|discriminate].
  destruct (negb (Errcode r =? 0)); [discriminate|].
  intros _. apply (H result). reflexivity.
Qed.

Lemma answered_same_requests rt w0 w w' :
  requests w = requests w0 -> answered_2xx rt w w' -> answered_2xx rt w0 w'.
Proof.
  intros E (url & data & code & respBody & Hr & Hdo & Hc). rewrite E in Hr, Hdo.
  exists url, data, code, respBody. auto.
Qed.

(** A configured sender that returns no error found its key and had its
    one request answered. *)
Lemma by_config_sent rt config message w :
  (fst (sendDingTalkByConfig rt config message w) = None ->
   configured config "secretKey" <> None
   /\ answered_2xx rt w (snd (sendDingTalkByConfig rt config message w)))
  /\ (fst (sendWeComByConfig rt config message w) = None ->
      configured config "secretKey" <> None
      /\ answered_2xx rt w (snd (sendWeComByConfig rt config message w)))
  /\ (fst (sendFeishuByConfig rt config message w) = None ->
      configured config "secretKey" <> None
      /\ answered_2xx rt w (snd (sendFeishuByConfig rt config message w)))
  /\ (fst (sendWebhookByConfig rt config message w) = None ->
      configured config "url" <> None
      /\ answered_2xx rt w (snd (sendWebhookByConfig rt config message w))).
Proof.
  destruct (by_config_configured rt config message) as [Hk Hu].
  destruct (by_config_unconfigured rt config message w) as [Hk0 Hu0].
  split; [|split; [|split]].
  - destruct (configured config "secretKey") as [token|] eqn:E.
    + destruct (Hk token eq_refl) as (-> & _ & _). rewrite sendDingTalk_post.
      intros H. split; [discriminate|].
      apply (answered_same_requests rt w (tick w)); [reflexivity | apply post_sent, H].
    + destruct (Hk0 eq_refl) as (-> & _ & _). discriminate.
  - destruct (configured config "secretKey") as [token|] eqn:E.
    + destruct (Hk token eq_refl) as (_ & -> & _).
      intros H. split; [discriminate | apply sendWeCom_sent, H].
    + destruct (Hk0 eq_refl) as (_ & -> & _). discriminate.
  - destruct (configured config "secretKey") as [token|] eqn:E.
    + destruct (Hk token eq_refl) as (_ & _ & ->). rewrite sendFeishu_post.
      intros H. split; [discriminate | apply post_sent, H].
    + destruct (Hk0 eq_refl) as (_ & _ & ->). discriminate.
  - destruct (configured config "url") as [url|] eqn:E.
    + rewrite (Hu url eq_refl), sendCustomWebhook_post.
      intros H. split; [discriminate | apply post_sent, H].
    + rewrite (Hu0 eq_refl). discriminate.
Qed.

Lemma dispatch_ok_sent rt cfg record agent w :
  fst (SendNotificationByConfig rt cfg record agent w) = None ->
  Channel_Enabled cfg = true
  /\ http_type (Channel_Type cfg) = true
  /\ configured (Channel_Config cfg) (needed_key (Channel_Type cfg)) <> None
  /\ answered_2xx rt w (snd (SendNotificationByConfig rt cfg record agent w)).
Proof.
  rewrite SendNotificationByConfig_cases.
  destruct (Channel_Enabled cfg); cbn [negb]; [|discriminate].
  set (w1 := log_line "info" "发送通知" [("channelType", Channel_Type cfg)] w). cbv zeta.
  destruct (by_config_sent rt (Channel_Config cfg) (buildMessage rt agent record) w1)
    as (Hd & Hw & Hf & Hh).
  unfold http_type, needed_key.
  destruct (String.eqb_spec (Channel_Type cfg) "dingtalk") as [E|_].
  { intros H. destruct (Hd H) as [Hk Ha]. rewrite ?E. repeat split; auto. }
  destruct (String.eqb_spec (Channel_Type cfg) "wecom") as [E|_].
  { intros H. destruct (Hw H) as [Hk Ha]. rewrite ?E. repeat split; auto. }
  destruct (String.eqb_spec (Channel_Type cfg) "feishu") as [E|_].
  { intros H. destruct (Hf H) as [Hk Ha]. rewrite ?E. repeat split; auto. }
  destruct (String.eqb_spec (Channel_Type cfg) "webhook") as [E|_].
  { intros H. destruct (Hh H) as [Hk Ha]. rewrite ?E. repeat split; auto. }
  destruct (String.eqb (Channel_Type cfg) "email"); discriminate.
Qed.

(** X13. [SendNotificationByConfig] returns nil only for an enabled
    channel of one of the types [dingtalk], [wecom], [feishu] and
    [webhook] whose configuration holds a non-empty string under the key
    the type needs ([url] for the webhook, [secretKey] for the others), and
    only after it handed exactly one request to the client and received an
    answer with a status code in [200, 300) for it. *)
Theorem dispatch_success_means_answer (rt : Runtime) (cfg : NotificationChannelConfig)
    (record : AlertRecord) (agent : Agent) (w : World) :
  fst (SendNotificationByConfig rt cfg record agent w) = None ->
  Channel_Enabled cfg = true
  /\ In (Channel_Type cfg) ["dingtalk"; "wecom"; "feishu"; "webhook"]
  /\ (exists s, configured (Channel_Config cfg) (needed_key (Channel_Type cfg)) = Some s)
  /\ answered_2xx rt w (snd (SendNotificationByConfig rt cfg record agent w)).
Proof.
  intros H. destruct (dispatch_ok_sent rt cfg record agent w H) as (He & Ht & Hk & Ha).
  split; [exact He|]. split; [|split; [|exact Ha]].
  - unfold http_type in Ht. cbn [In].
    destruct (String.eqb_spec (Channel_Type cfg) "dingtalk"); [auto|].
    destruct (String.eqb_spec (Channel_Type cfg) "wecom"); [auto|].
    destruct (String.eqb_spec (Channel_Type cfg) "feishu"); [auto|].
    destruct (String.eqb_spec (Channel_Type cfg) "webhook"); [auto 6 | discriminate].
  - destruct (configured _ _) as [s|]; [eauto | contradiction].
Qed.

Lemma dispatch_success_means_answer_witness :
  let rt := refRuntime 1700000000000 (always 204 "") in
  let hook := {| Channel_Type := "webhook"; Channel_Enabled := true;
                 Channel_Config := {["url" := JStr "http://localhost/hook"]} |} in
  let record := {| Record_AlertType := "cpu"; Record_Message := "cpu high";
                   Record_Threshold := 80; Record_ActualValue := 91.5;
                   Record_Level := "warning"; Record_Status := "firing";
                   Record_FiredAt := 1700000000000; Record_ResolvedAt := 0 |} in
  let agent := {| Agent_ID := "a1"; Agent_Name := "web-1"; Agent_Hostname := "web-1.local";
                  Agent_IP := "10.0.0.1" |} in
  fst (SendNotificationByConfig rt hook record agent world0) = None
  /\ answered_2xx rt world0 (snd (SendNotificationByConfig rt hook record agent world0)).
Proof.
  intros rt hook record agent.
  assert (H : fst (SendNotificationByConfig rt hook record agent world0) = None)
    by (vm_compute; reflexivity).
  split; [exact H|].
  apply (dispatch_success_means_answer rt hook record agent world0 H).
Defined.

Lemma attempts_all_ok rt record agent cfgs : forall w,
  failures (fst (attempts rt cfgs record agent w)) = [] ->
  Forall (fun cfg => Channel_Enabled cfg = true /\ http_type (Channel_Type cfg) = true) cfgs
  /\ exists new,
       requests (snd (attempts rt cfgs record agent w)) = requests w ++ new
       /\ length new = length cfgs
       /\ Forall is_json_post new.
Proof.
  induction cfgs as [|ch cfgs IH]; intros w.
  - intros _. split; [constructor|]. exists []. cbn [attempts snd].
    split; [by rewrite app_nil_r|]. split; [reflexivity | constructor].
  - cbn [attempts].
    pose proof (dispatch_ok_sent rt ch record agent w) as Hok.
    destruct (SendNotificationByConfig rt ch record agent w) as [o w1]. cbn [fst snd] in Hok.
    match goal with |- context [attempts rt cfgs record agent ?w2] =>
      specialize (IH w2); destruct (attempts rt cfgs record agent w2) as [os w3] eqn:Hrest end.
    cbn [fst snd] in *. rewrite failures_cons.
    destruct o as [e|]; [discriminate|]. intros Hnil.
    destruct (Hok eq_refl) as (He & Ht & _ & (url & data & code & respBody & Hr & _ & _)).
    destruct (IH Hnil) as (Hall & new & Hn & Hl & Hp).
    split; [constructor; auto|].
    exists (json_post url data :: new). split; [|split].
    + rewrite Hn, Hr, <- app_assoc. reflexivity.
    + cbn [length]. by rewrite Hl.
    + constructor; [by split | exact Hp].
Qed.

(** X14. [SendNotificationByConfigs] returns nil only when every channel
    of the list is enabled and of one of the four HTTP types, and then it
    has handed exactly one request per channel to the client. *)
Theorem batch_success_all_sent (rt : Runtime) (cfgs : list NotificationChannelConfig)
    (record : AlertRecord) (agent : Agent) (w : World) :
  fst (SendNotificationByConfigs rt cfgs record agent w) = None ->
  Forall (fun cfg => Channel_Enabled cfg = true /\ http_type (Channel_Type cfg) = true) cfgs
  /\ exists new,
       requests (snd (SendNotificationByConfigs rt cfgs record agent w)) = requests w ++ new
       /\ length new = length cfgs
       /\ Forall is_json_post new.
Proof.
  rewrite SendNotificationByConfigs_attempts. cbn [fst snd].
  destruct (failures (fst (attempts rt cfgs record agent w))) as [|e errs] eqn:E;
    [|discriminate].
  intros _. apply attempts_all_ok, E.
Qed.

Lemma batch_success_all_sent_witness :
  let rt := refRuntime 1700000000000 (always 200 "ok") in
  let hook := {| Channel_Type := "webhook"; Channel_Enabled := true;
                 Channel_Config := {["url" := JStr "http://localhost/hook"]} |} in
  let feishu := {| Channel_Type := "feishu"; Channel_Enabled := true;
                   Channel_Config := {["secretKey" := JStr "token"]} |} in
  let record := {| Record_AlertType := "cpu"; Record_Message := "cpu high";
                   Record_Threshold := 80; Record_ActualValue := 91.5;
                   Record_Level := "warning"; Record_Status := "firing";
                   Record_FiredAt := 1700000000000; Record_ResolvedAt := 0 |} in
  let agent := {| Agent_ID := "a1"; Agent_Name := "web-1"; Agent_Hostname := "web-1.local";
                  Agent_IP := "10.0.0.1" |} in
  fst (SendNotificationByConfigs rt [hook; feishu] record agent world0) = None
  /\ length (requests (snd (SendNotificationByConfigs rt [hook; feishu] record agent world0)))
     = 2%nat.
Proof.
  intros rt hook feishu record agent.
  assert (H : fst (SendNotificationByConfigs rt [hook; feishu] record agent world0) = None)
    by (vm_compute; reflexivity).
  split; [exact H|].
  destruct (batch_success_all_sent rt [hook; feishu] record agent world0 H)
    as (_ & new & -> & Hl & _).
  rewrite length_app, Hl. reflexivity.
Defined.

(** ** The handlers of the property store *)

(** X15. [GetProperty] changes neither the store nor the requests nor
    the clock.  It answers 200 or 500: 500 exactly when [Get] fails or
    returns a property whose value is not empty and does not decode.  A
    200 carries the id and the name of the stored property (not the id of
    the path) and the decoded value, [null] for an empty stored value,
    which is not handed to the decoder, and leaves the world as it was.
    A 500 carries one of two fixed messages and adds one error line
    with the id of the path to the log. *)
Theorem get_property_outcomes (rt : Runtime) (db : Type) (service : PropertyService db)
    (c : Context) (d : db) (w : World) :
  let r := GetProperty rt service c (d, w) in
  let resp := fst r in
  let w' := snd (snd r) in
  fst (snd r) = d
  /\ quiet w w'
  /\ (status resp = 200 \/ status resp = 500)
  /\ (status resp = 500 <->
      (exists err, svc_Get service (Param c "id") d = Err err)
      \/ (exists property err,
            svc_Get service (Param c "id") d = Ok property
            /\ Property_Value property <> ""
            /\ json_Unmarshal rt (Property_Value property) = Err err))
  /\ (status resp = 200 ->
      w' = w
      /\ exists property value,
           svc_Get service (Param c "id") d = Ok property
           /\ resp_json resp
              = property_json (Property_ID property) (Property_Name property) value
           /\ (Property_Value property = "" -> value = JNull)
           /\ (Property_Value property <> "" ->
               json_Unmarshal rt (Property_Value property) = Ok value))
  /\ (status resp = 500 ->
      (error_message resp = Some "获取属性失败"
       \/ error_message resp = Some "解析属性值失败")
      /\ exists err msg,
           logged_one w w'
             {| log_level := "error"; log_msg := msg;
                log_fields := [("id", Param c "id"); ("error", err)] |}).
Proof.
  unfold GetProperty, bind, readDB. cbn [fst].
  destruct (svc_Get service (Param c "id") d) as [property|e] eqn:Hget.
  - destruct (String.eqb_spec (Property_Value property) "") as [Hv|Hv]; cbn [negb].
    + unfold JSON, ret. cbn [fst snd status resp_json].
      split; [reflexivity|]. split; [by split|]. split; [by left|].
      split; [|split; [|discriminate]].
      * split; [discriminate|]. intros [(err & [=])|(p & err & [= <-] & Hne & _)].
        contradiction.
      * intros _. split; [reflexivity|]. exists property, JNull.
        split; [reflexivity|]. split; [reflexivity|]. split; [reflexivity | contradiction].
    + destruct (json_Unmarshal rt (Property_Value property)) as [value|err] eqn:Hu.
      * unfold JSON, ret. cbn [fst snd status resp_json].
        split; [reflexivity|]. split; [by split|]. split; [by left|].
        split; [|split; [|discriminate]].
        -- split; [discriminate|].
           intros [(err & [=])|(p & err & [= <-] & _ & Hu')]. congruence.
        -- intros _. split; [reflexivity|]. exists property, value.
           split; [reflexivity|]. split; [reflexivity|].
           split; [contradiction | intros _; exact Hu].
      * unfold JSON, ret, liftW, logger. cbn [fst snd status resp_json].
        split; [reflexivity|]. split; [by split|]. split; [by right|].
        split; [|split; [discriminate|]].
        -- split; [|reflexivity]. intros _. right. exists property, err. auto.
        -- intros _. split; [right; vm_compute; reflexivity|]. eexists _, _. reflexivity.
  - unfold JSON, ret, liftW, logger. cbn [fst snd status resp_json].
    split; [reflexivity|]. split; [by split|]. split; [by right|].
    split; [|split; [discriminate|]].
    + split; [|reflexivity]. intros _. left. eauto.
    + intros _. split; [left; vm_compute; reflexivity|]. eexists _, _. reflexivity.
Qed.

(** X16. For a request whose path names [system_config], [GetSystemConfig]
    and [GetProperty] give the same answer and leave the same state
    exactly when [Get] finds the property; when it does not, the first
    answers 200 and the second 500. *)
Theorem system_config_agrees_with_get_property (rt : Runtime) (db : Type)
    (service : PropertyService db) (c c' : Context) (d : db) (w : World) :
  Param c "id" = PropertyIDSystemConfig ->
  (GetSystemConfig rt service c' (d, w) = GetProperty rt service c (d, w)
   <-> exists property, svc_Get service PropertyIDSystemConfig d = Ok property)
  /\ (forall err, svc_Get service PropertyIDSystemConfig d = Err err ->
        status (fst (GetSystemConfig rt service c' (d, w))) = 200
        /\ status (fst (GetProperty rt service c (d, w))) = 500).
Proof.
  intros Hid. unfold GetSystemConfig, GetProperty, bind, readDB. cbn [fst]. rewrite Hid.
  destruct (svc_Get service PropertyIDSystemConfig d) as [property|e].
  - split; [|discriminate]. split; [eauto|]. intros _. reflexivity.
  - split.
    + split; [intros [=] | intros [p [=]]].
    + intros err _. split; reflexivity.
Qed.

Lemma system_config_agrees_with_get_property_witness :
  let rt := refRuntime 1700000000000 (always 200 "ok") in
  let c := {| params := {["id" := "system_config"]}; bound := Err "no body" |} in
  let c' := {| params := ∅; bound := Err "no body" |} in
  let d : gmap string Property :=
    {[ "system_config" :=
         {| Property_ID := "system_config"; Property_Name := "系统配置";
            Property_Value := json_text "{'systemNameEn':'Pika'}" |} ]} in
  GetSystemConfig rt (kvService rt) c' (d, world0) = GetProperty rt (kvService rt) c (d, world0)
  /\ status (fst (GetProperty rt (kvService rt) c (d, world0))) = 200.
Proof.
  intros rt c c' d.
  destruct (system_config_agrees_with_get_property rt _ (kvService rt) c c' d world0 eq_refl)
    as [H _].
  split; [|vm_compute; reflexivity].
  apply H.
  exists {| Property_ID := "system_config"; Property_Name := "系统配置";
            Property_Value := json_text "{'systemNameEn':'Pika'}" |}.
  vm_compute. reflexivity.
Defined.

(** X17. [SetProperty] answers a body that does not bind with 400 and
    leaves the store and the world as they were.  Otherwise the store is
    as [Set] left it, also when [Set] failed, and the answer is 200
    exactly when [Set] returned no error, 500 otherwise.  [DeleteProperty]
    answers 200 exactly when [Delete] returned no error, 500 otherwise.
    Neither makes a request or reads the clock; the world changes only
    for a 500, by one error line of the log. *)
Theorem write_handlers_outcomes (rt : Runtime) (db : Type) (service : PropertyService db)
    (c : Context) (d : db) (w : World) :
  (forall e, bound c = Err e ->
     SetProperty rt service c (d, w)
     = ({| status := 400; resp_json := JObj {["error" := JStr "无效的请求参数"]} |}, (d, w)))
  /\ (forall name value, bound c = Ok (name, value) ->
        let r := SetProperty rt service c (d, w) in
        let done := svc_Set service (Param c "id") name value d in
        fst (snd r) = snd done
        /\ quiet w (snd (snd r))
        /\ (fst done = None ->
            fst r = {| status := 200; resp_json := JObj {["message" := JStr "设置成功"]} |}
            /\ snd (snd r) = w)
        /\ (forall err, fst done = Some err ->
              fst r = {| status := 500; resp_json := JObj {["error" := JStr "设置属性失败"]} |}
              /\ snd (snd r)
                 = log_line "error" "设置属性失败" [("id", Param c "id"); ("error", err)] w))
  /\ (let r := DeleteProperty rt service c (d, w) in
      let done := svc_Delete service (Param c "id") d in
      fst (snd r) = snd done
      /\ quiet w (snd (snd r))
      /\ (fst done = None ->
          fst r = {| status := 200; resp_json := JObj {["message" := JStr "删除成功"]} |}
          /\ snd (snd r) = w)
      /\ (forall err, fst done = Some err ->
            fst r = {| status := 500; resp_json := JObj {["error" := JStr "删除属性失败"]} |}
            /\ snd (snd r)
               = log_line "error" "删除属性失败" [("id", Param c "id"); ("error", err)] w)).
Proof.
  split; [|split].
  - intros e He. unfold SetProperty. rewrite He. reflexivity.
  - intros name value Hb. unfold SetProperty. rewrite Hb. unfold bind, updateDB. cbn [fst snd].
    destruct (svc_Set service (Param c "id") name value d) as [[err|] d'];
      unfold JSON, ret, liftW, logger, log_line; cbn [fst snd].
    + split; [reflexivity|]. split; [by split|]. split; [discriminate|].
      intros err' [= <-]. split; reflexivity.
    + split; [reflexivity|]. split; [by split|]. split; [by split | discriminate].
  - unfold DeleteProperty, bind, updateDB. cbn [fst snd].
    destruct (svc_Delete service (Param c "id") d) as [[err|] d'];
      unfold JSON, ret, liftW, logger, log_line; cbn [fst snd].
    + split; [reflexivity|]. split; [by split|]. split; [discriminate|].
      intros err' [= <-]. split; reflexivity.
    + split; [reflexivity|]. split; [by split|]. split; [by split | discriminate].
Qed.

Lemma write_handlers_outcomes_witness :
  let rt := refRuntime 1700000000000 (always 200 "ok") in
  let c := {| params := {["id" := "motd"]}; bound := Err "unexpected end of JSON input" |} in
  let d : gmap string Property :=
    {[ "motd" := {| Property_ID := "motd"; Property_Name := "greeting";
                    Property_Value := json_text "'hello'" |} ]} in
  SetProperty rt (kvService rt) c (d, world0)
  = ({| status := 400; resp_json := JObj {["error" := JStr "无效的请求参数"]} |}, (d, world0)).
Proof.
  intros rt c d.
  destruct (write_handlers_outcomes rt _ (kvService rt) c d world0) as [H _].
  apply (H "unexpected end of JSON input"). reflexivity.
Defined.

(** ** The test of a stored channel *)

(** The test of a channel that was found, by what its sender returns. *)
Lemma TestNotificationChannel_found {db} rt (service : PropertyService db) c d w channels ch :
  Param c "type" <> "" ->
  svc_GetValue service PropertyIDNotificationChannels d = Ok channels ->
  find (of_type (Param c "type")) channels = Some ch ->
  TestNotificationChannel rt service c (d, w)
  = if negb (Channel_Enabled ch)
    then ({| status := 400; resp_json := JObj {["error" := JStr "通知渠道未启用"]} |}, (d, w))
    else
      match test_send rt ch with
      | None =>
          ({| status := 400; resp_json := JObj {["error" := JStr "不支持的通知渠道类型"]} |},
           (d, w))
      | Some send =>
          match send w with
          | (Some e, w') =>
              ({| status := 500;
                  resp_json := JObj {["error" := JStr ("发送测试通知失败: " +:+ e)]} |},
               (d, log_line "error" "发送测试通知失败"
                     [("type", Param c "type"); ("error", e)] w'))
          | (None, w') =>
              ({| status := 200; resp_json := JObj {["message" := JStr "测试通知已发送"]} |},
               (d, w'))
          end
      end.
Proof.
  intros Hty Hget Hfind. unfold TestNotificationChannel.
  destruct (String.eqb_spec (Param c "type") "") as [E|_]; [contradiction|].
  unfold bind at 1. unfold readDB at 1. cbn [fst].
  unfold of_type in Hfind. rewrite Hget, Hfind.
  destruct (Channel_Enabled ch); cbn [negb]; [|reflexivity].
  unfold test_send, testMessage. cbv zeta.
  repeat match goal with
         | |- context [String.eqb (Channel_Type ch) ?l] =>
             destruct (String.eqb (Channel_Type ch) l)
         end;
    try reflexivity;
    unfold bind, liftW; cbn [fst snd];
    match goal with |- context [?send rt (Channel_Config ch) ?m w] =>
      destruct (send rt (Channel_Config ch) m w) as [[e|] w'] end;
    reflexivity.
Qed.

Lemma find_none_Forall {A} (f : A -> bool) l :
  find f l = None <-> Forall (fun x => f x = false) l.
Proof.
  induction l as [|x l IH]; [by split|]. cbn [find].
  destruct (f x) eqn:E.
  - split; [discriminate | intros H; inversion H; congruence].
  - rewrite IH. split; [by constructor | by inversion 1].
Qed.

Lemma find_first {A} (f : A -> bool) before x after :
  Forall (fun b => f b = false) before -> f x = true ->
  find f (before ++ x :: after) = Some x.
Proof.
  intros Hb Hx. induction Hb as [|b before Hb _ IH]; cbn [app find].
  - by rewrite Hx.
  - by rewrite Hb.
Qed.

(** One step of a configured sender. *)
Lemma by_config_step rt config message w :
  let stepped (w' : World) :=
    exists new, continues w w' new /\ (length new <= 1)%nat /\ Forall is_json_post new
                /\ (clock_reads w' <= S (clock_reads w))%nat in
  stepped (snd (sendDingTalkByConfig rt config message w))
  /\ stepped (snd (sendWeComByConfig rt config message w))
  /\ stepped (snd (sendFeishuByConfig rt config message w))
  /\ stepped (snd (sendWebhookByConfig rt config message w)).
Proof.
  cbv zeta.
  destruct (by_config_continues rt config message w) as (Hd & Hw & Hf & Hh).
  cbv zeta in Hd, Hw, Hf, Hh.
  assert (Hnone : forall w', continues w w' [] -> (clock_reads w' <= S (clock_reads w))%nat ->
            exists new, continues w w' new /\ (length new <= 1)%nat
                        /\ Forall is_json_post new /\ (clock_reads w' <= S (clock_reads w))%nat).
  { intros w' Hr Hc. exists []. split; [exact Hr|].
    split; [cbn; lia|]. split; [constructor | exact Hc]. }
  assert (Hone : forall w' url data, continues w w' [json_post url data] ->
            (clock_reads w' <= S (clock_reads w))%nat ->
            exists new, continues w w' new /\ (length new <= 1)%nat
                        /\ Forall is_json_post new /\ (clock_reads w' <= S (clock_reads w))%nat).
  { intros w' url data Hr Hc. exists [json_post url data]. split; [exact Hr|].
    split; [cbn; lia|]. split; [|exact Hc]. constructor; [by split | constructor]. }
  split; [|split; [|split]].
  - destruct Hd as [->|(token & _ & Hc & [Hr|(url & data & Hr & _)])].
    + apply Hnone; [apply continues_refl | lia].
    + apply Hnone; [exact Hr | lia].
    + apply (Hone _ url data); [exact Hr | lia].
  - destruct Hw as [Hc [Hr|(token & data & _ & Hr)]];
      [apply Hnone | eapply Hone]; first [exact Hr | lia].
  - destruct Hf as [Hc [Hr|(token & data & _ & Hr)]];
      [apply Hnone | eapply Hone]; first [exact Hr | lia].
  - destruct Hh as [Hc [Hr|(url & data & _ & Hr)]];
      [apply Hnone | eapply Hone]; first [exact Hr | lia].
Qed.

(** The sender of a test: its step, and what its success means. *)
Lemma test_send_step rt ch send w :
  test_send rt ch = Some send ->
  http_type (Channel_Type ch) = true
  /\ (exists new, continues w (snd (send w)) new /\ (length new <= 1)%nat
                  /\ Forall is_json_post new
                  /\ (clock_reads (snd (send w)) <= S (clock_reads w))%nat)
  /\ (fst (send w) = None -> answered_2xx rt w (snd (send w))).
Proof.
  unfold test_send, http_type. cbv zeta.
  destruct (by_config_step rt (Channel_Config ch) testMessage w) as (Sd & Sw & Sf & Sh).
  destruct (by_config_sent rt (Channel_Config ch) testMessage w) as (Hd & Hw & Hf & Hh).
  destruct (String.eqb (Channel_Type ch) "dingtalk");
    [intros [= <-]; split; [reflexivity|]; split; [exact Sd | apply Hd]|].
  destruct (String.eqb (Channel_Type ch) "wecom");
    [intros [= <-]; split; [reflexivity|]; split; [exact Sw | apply Hw]|].
  destruct (String.eqb (Channel_Type ch) "feishu");
    [intros [= <-]; split; [reflexivity|]; split; [exact Sf | apply Hf]|].
  destruct (String.eqb (Channel_Type ch) "webhook");
    [intros [= <-]; split; [reflexivity|]; split; [exact Sh | apply Hh]|].
  discriminate.
Qed.

Lemma test_send_none rt ch :
  test_send rt ch = None <-> http_type (Channel_Type ch) = false.
Proof.
  unfold test_send, http_type. cbv zeta.
  repeat match goal with
         | |- context [String.eqb (Channel_Type ch) ?l] =>
             destruct (String.eqb (Channel_Type ch) l)
         end; cbn [orb]; split; (discriminate || reflexivity).
Qed.

(** X18. Without a [type] in the path (or with an empty one)
    [TestNotificationChannel] answers 400 "缺少渠道类型参数" and does
    nothing else, whatever the store holds.  With a type and a stored list
    of channels, it answers 404 exactly when no channel of the list has
    that type, and then the state is as it was. *)
Theorem test_channel_lookup (rt : Runtime) (db : Type) (service : PropertyService db)
    (c : Context) (d : db) (w : World) :
  (Param c "type" = "" ->
   TestNotificationChannel rt service c (d, w)
   = ({| status := 400; resp_json := JObj {["error" := JStr "缺少渠道类型参数"]} |}, (d, w)))
  /\ (Param c "type" <> "" ->
      forall channels,
        svc_GetValue service PropertyIDNotificationChannels d = Ok channels ->
        (status (fst (TestNotificationChannel rt service c (d, w))) = 404
         <-> Forall (fun ch => Channel_Type ch <> Param c "type") channels)
        /\ (status (fst (TestNotificationChannel rt service c (d, w))) = 404 ->
            TestNotificationChannel rt service c (d, w)
            = ({| status := 404;
                  resp_json := JObj {["error" := JStr "通知渠道不存在，请先配置"]} |}, (d, w)))).
Proof.
  split.
  - intros E. unfold TestNotificationChannel. rewrite E. reflexivity.
  - intros Hty channels Hget.
    assert (Hall : Forall (fun ch => Channel_Type ch <> Param c "type") channels
                   <-> find (of_type (Param c "type")) channels = None).
    { rewrite find_none_Forall. apply Forall_proper; [|reflexivity]. intros ch.
      unfold of_type. destruct (String.eqb_spec (Channel_Type ch) (Param c "type"));
        split; congruence. }
    destruct (find (of_type (Param c "type")) channels) as [ch|] eqn:Hfind.
    + rewrite (TestNotificationChannel_found rt service c d w channels ch Hty Hget Hfind).
      assert (Hne : status (fst (if negb (Channel_Enabled ch)
                 then ({| status := 400;
                          resp_json := JObj {["error" := JStr "通知渠道未启用"]} |}, (d, w))
                 else match test_send rt ch with
                      | None =>
                          ({| status := 400;
                              resp_json := JObj {["error" := JStr "不支持的通知渠道类型"]} |},
                           (d, w))
                      | Some send =>
                          match send w with
                          | (Some e, w') =>
                              ({| status := 500;
                                  resp_json :=
                                    JObj {["error" := JStr ("发送测试通知失败: " +:+ e)]} |},
                               (d, log_line "error" "发送测试通知失败"
                                     [("type", Param c "type"); ("error", e)] w'))
                          | (None, w') =>
                              ({| status := 200;
                                  resp_json := JObj {["message" := JStr "测试通知已发送"]} |},
                               (d, w'))
                          end
                      end)) <> 404).
      { destruct (Channel_Enabled ch); cbn [negb]; [|discriminate].
        destruct (test_send rt ch) as [send|]; [|discriminate].
        destruct (send w) as [[e|] w']; discriminate. }
      split; [|intros H; contradiction].
      rewrite Hall. split; [intros H; contradiction | discriminate].
    + assert (E : TestNotificationChannel rt service c (d, w)
                  = ({| status := 404;
                        resp_json := JObj {["error" := JStr "通知渠道不存在，请先配置"]} |},
                     (d, w))).
      { unfold TestNotificationChannel.
        destruct (String.eqb_spec (Param c "type") "") as [E|_]; [contradiction|].
        unfold bind, readDB. cbn [fst]. unfold of_type in Hfind. rewrite Hget, Hfind.
        reflexivity. }
      rewrite E. split; [|reflexivity]. rewrite Hall. split; reflexivity.
Qed.

Lemma test_channel_lookup_witness :
  let rt := refRuntime 1700000000000 (always 200 "ok") in
  let c := {| params := {["type" := "wecom"]}; bound := Err "no body" |} in
  let d : gmap string Property :=
    {[ "notification_channels" :=
         {| Property_ID := "notification_channels"; Property_Name := "channels";
            Property_Value :=
              json_text "[{'type':'feishu','enabled':true,'config':{'secretKey':'hook'}}]" |} ]} in
  TestNotificationChannel rt (kvService rt) c (d, world0)
  = ({| status := 404;
        resp_json := JObj {["error" := JStr "通知渠道不存在，请先配置"]} |}, (d, world0)).
Proof.
  intros rt c d.
  pose (ch := {| Channel_Type := "feishu"; Channel_Enabled := true;
                 Channel_Config := {["secretKey" := JStr "hook"]} |}).
  destruct (test_channel_lookup rt _ (kvService rt) c d world0) as [_ H].
  destruct (H ltac:(discriminate) [ch] ltac:(vm_compute; reflexivity)) as [H1 H2].
  apply H2, H1. constructor; [discriminate | constructor].
Defined.

(** X19. Only the first stored channel of the asked type counts: for a
    stored list [before ++ ch :: after] in which no channel of [before]
    has the type and [ch] has it, the answer and the world are those for
    the stored list [ch] alone, whatever [after] holds (an enabled
    channel of the same type among it is never tried). *)
Theorem test_channel_first_match (rt : Runtime) (db : Type) (service : PropertyService db)
    (c : Context) (d : db) (w : World)
    (before after : list NotificationChannelConfig) (ch : NotificationChannelConfig)
    (db' : Type) (service' : PropertyService db') (d' : db') :
  Param c "type" <> "" ->
  svc_GetValue service PropertyIDNotificationChannels d = Ok (before ++ ch :: after) ->
  Forall (fun b => Channel_Type b <> Param c "type") before ->
  Channel_Type ch = Param c "type" ->
  svc_GetValue service' PropertyIDNotificationChannels d' = Ok [ch] ->
  fst (TestNotificationChannel rt service c (d, w))
  = fst (TestNotificationChannel rt service' c (d', w))
  /\ snd (snd (TestNotificationChannel rt service c (d, w)))
     = snd (snd (TestNotificationChannel rt service' c (d', w))).
Proof.
  intros Hty Hget Hbefore Hch Hget'.
  assert (Hx : of_type (Param c "type") ch = true)
    by (unfold of_type; rewrite Hch; apply String.eqb_refl).
  assert (Hfind : find (of_type (Param c "type")) (before ++ ch :: after) = Some ch).
  { apply find_first; [|exact Hx]. eapply Forall_impl; [exact Hbefore|].
    intros b Hb. unfold of_type. by destruct (String.eqb_spec (Channel_Type b) (Param c "type")). }
  assert (Hfind' : find (of_type (Param c "type")) [ch] = Some ch)
    by (cbn [find]; by rewrite Hx).
  rewrite (TestNotificationChannel_found rt service c d w _ ch Hty Hget Hfind).
  rewrite (TestNotificationChannel_found rt service' c d' w _ ch Hty Hget' Hfind').
  destruct (Channel_Enabled ch); cbn [negb]; [|by split].
  destruct (test_send rt ch) as [send|]; [|by split].
  destruct (send w) as [[e|] w']; by split.
Qed.

Lemma test_channel_first_match_witness :
  let rt := refRuntime 1700000000000 (always 200 "ok") in
  let c := {| params := {["type" := "feishu"]}; bound := Err "no body" |} in
  let stored (text : string) : gmap string Property :=
    {[ "notification_channels" :=
         {| Property_ID := "notification_channels"; Property_Name := "channels";
            Property_Value := json_text text |} ]} in
  let d := stored
    "[{'type':'feishu','enabled':false,'config':{'secretKey':'a'}},{'type':'feishu','enabled':true,'config':{'secretKey':'b'}}]" in
  fst (TestNotificationChannel rt (kvService rt) c (d, world0))
  = {| status := 400; resp_json := JObj {["error" := JStr "通知渠道未启用"]} |}.
Proof.
  intros rt c stored d.
  pose (off := {| Channel_Type := "feishu"; Channel_Enabled := false;
                  Channel_Config := {["secretKey" := JStr "a"]} |}).
  pose (on := {| Channel_Type := "feishu"; Channel_Enabled := true;
                 Channel_Config := {["secretKey" := JStr "b"]} |}).
  pose (d' := stored "[{'type':'feishu','enabled':false,'config':{'secretKey':'a'}}]").
  destruct (test_channel_first_match rt _ (kvService rt) c d world0 [] [on] off
              _ (kvService rt) d') as [H _];
    [discriminate | vm_compute; reflexivity | constructor | reflexivity
    | vm_compute; reflexivity |].
  rewrite H. vm_compute. reflexivity.
Defined.

(** X20. A stored, enabled channel of a type other than [dingtalk],
    [wecom], [feishu] and [webhook] ([email] among them) is answered with
    400 "不支持的通知渠道类型": nothing is sent and nothing is logged. *)
Theorem test_channel_unsupported_type (rt : Runtime) (db : Type)
    (service : PropertyService db) (c : Context) (d : db) (w : World)
    (channels : list NotificationChannelConfig) (ch : NotificationChannelConfig) :
  Param c "type" <> "" ->
  http_type (Param c "type") = false ->
  svc_GetValue service PropertyIDNotificationChannels d = Ok channels ->
  find (of_type (Param c "type")) channels = Some ch ->
  Channel_Enabled ch = true ->
  TestNotificationChannel rt service c (d, w)
  = ({| status := 400; resp_json := JObj {["error" := JStr "不支持的通知渠道类型"]} |}, (d, w)).
Proof.
  intros Hty Hhttp Hget Hfind Hon.
  rewrite (TestNotificationChannel_found rt service c d w channels ch Hty Hget Hfind), Hon.
  cbn [negb].
  assert (Hch : Channel_Type ch = Param c "type").
  { apply find_some in Hfind as [_ Hx]. unfold of_type in Hx. by apply String.eqb_eq. }
  rewrite <- Hch in Hhttp. by rewrite (proj2 (test_send_none rt ch) Hhttp).
Qed.

Lemma test_channel_unsupported_type_witness :
  let rt := refRuntime 1700000000000 (always 200 "ok") in
  let c := {| params := {["type" := "email"]}; bound := Err "no body" |} in
  let d : gmap string Property :=
    {[ "notification_channels" :=
         {| Property_ID := "notification_channels"; Property_Name := "channels";
            Property_Value :=
              json_text "[{'type':'email','enabled':true,'config':{'to':'ops'}}]" |} ]} in
  TestNotificationChannel rt (kvService rt) c (d, world0)
  = ({| status := 400; resp_json := JObj {["error" := JStr "不支持的通知渠道类型"]} |},
     (d, world0)).
Proof.
  intros rt c d.
  pose (ch := {| Channel_Type := "email"; Channel_Enabled := true;
                 Channel_Config := {["to" := JStr "ops"]} |}).
  apply (test_channel_unsupported_type rt _ (kvService rt) c d world0 [ch] ch);
    [discriminate | reflexivity | vm_compute; reflexivity | reflexivity | reflexivity].
Defined.

(** X21. [TestNotificationChannel] never changes the store.  It hands at
    most one request to the client, a POST with the JSON content type,
    after the earlier ones, and reads the clock at most once.  Its answer
    is 200, 400, 404 or 500; a 400 or a 404 leaves the world as it was; a
    200 carries "测试通知已发送" and is given only after exactly one
    request was handed to the client and answered with a status code in
    [200, 300). *)
Theorem test_channel_effects (rt : Runtime) (db : Type) (service : PropertyService db)
    (c : Context) (d : db) (w : World) :
  let r := TestNotificationChannel rt service c (d, w) in
  let resp := fst r in
  let w' := snd (snd r) in
  fst (snd r) = d
  /\ (exists new, continues w w' new /\ (length new <= 1)%nat /\ Forall is_json_post new)
  /\ (clock_reads w' <= S (clock_reads w))%nat
  /\ In (status resp) [200; 400; 404; 500]
  /\ (status resp = 400 \/ status resp = 404 -> w' = w)
  /\ (status resp = 200 ->
      resp_json resp = JObj {["message" := JStr "测试通知已发送"]}
      /\ answered_2xx rt w w').
Proof.
  cbv zeta.
  assert (Hstay : forall code body,
            code = 400 \/ code = 404 ->
            let r : Response * (db * World) := ({| status := code; resp_json := body |}, (d, w)) in
            fst (snd r) = d
            /\ (exists new, continues w (snd (snd r)) new /\ (length new <= 1)%nat
                            /\ Forall is_json_post new)
            /\ (clock_reads (snd (snd r)) <= S (clock_reads w))%nat
            /\ In (status (fst r)) [200; 400; 404; 500]
            /\ (status (fst r) = 400 \/ status (fst r) = 404 -> snd (snd r) = w)
            /\ (status (fst r) = 200 ->
                resp_json (fst r) = JObj {["message" := JStr "测试通知已发送"]}
                /\ answered_2xx rt w (snd (snd r)))).
  { intros code body Hcode. cbn [fst snd status resp_json].
    split; [reflexivity|].
    split; [exists []; split; [apply continues_refl|]; split; [cbn; lia | constructor]|].
    split; [lia|]. split; [cbn [In]; destruct Hcode as [-> | ->]; auto|].
    split; [reflexivity|]. intros ->. destruct Hcode; discriminate. }
  destruct (String.eqb_spec (Param c "type") "") as [E|Hty].
  { unfold TestNotificationChannel. rewrite E.
    change (String.eqb "" "") with true. cbv iota. apply Hstay. by left. }
  destruct (svc_GetValue service PropertyIDNotificationChannels d) as [channels|err] eqn:Hget.
  2:{ unfold TestNotificationChannel.
      destruct (String.eqb_spec (Param c "type") "") as [E|_]; [contradiction|].
      unfold bind, readDB, liftW, logger, JSON, ret. cbn [fst snd]. rewrite Hget.
      cbn [fst snd status resp_json].
      split; [reflexivity|].
      split; [exists []; split; [|split; [cbn; lia | constructor]]|].
      { split; [cbn; by rewrite app_nil_r|]. split; [eexists; reflexivity | cbn; lia]. }
      split; [cbn; lia|]. split; [cbn [In]; auto 6|].
      split; [intros [H|H]; discriminate | discriminate]. }
  destruct (find (of_type (Param c "type")) channels) as [ch|] eqn:Hfind.
  2:{ unfold TestNotificationChannel.
      destruct (String.eqb_spec (Param c "type") "") as [E|_]; [contradiction|].
      unfold bind, readDB. cbn [fst]. unfold of_type in Hfind. rewrite Hget, Hfind.
      apply Hstay. by right. }
  rewrite (TestNotificationChannel_found rt service c d w channels ch Hty Hget Hfind).
  destruct (Channel_Enabled ch); cbn [negb]; [|apply Hstay; by left].
  destruct (test_send rt ch) as [send|] eqn:Hsend; [|apply Hstay; by left].
  destruct (test_send_step rt ch send w Hsend) as (_ & (new & Hc & Hl & Hp & Hk) & Hok).
  destruct (send w) as [[e|] w'] eqn:Hs; cbn [fst snd status resp_json] in *.
  - split; [reflexivity|]. split.
    + exists new. split; [|auto].
      pose proof (continues_trans _ _ _ _ _ Hc
                    (continues_log "error" "发送测试通知失败"
                       [("type", Param c "type"); ("error", e)] w')) as H.
      by rewrite app_nil_r in H.
    + split; [exact Hk|]. split; [cbn [In]; auto 6|].
      split; [intros [H|H]; discriminate | discriminate].
  - split; [reflexivity|]. split; [exists new; auto|].
    split; [exact Hk|]. split; [cbn [In]; auto|].
    split; [intros [H|H]; discriminate|]. intros _. split; [reflexivity | apply Hok; reflexivity].
Qed.

(** ** WeCom: an answer that is a refusal *)

(** X22. When WeCom answers with a status code in [200, 300) and a body
    that decodes to a result with a non-zero [errcode], [sendWeCom]
    returns the error [errmsg] (the empty message when the answer has
    none), and yet the log holds the line "通知发送成功" for that very
    request: the success is logged before the body is looked at. *)
Theorem wecom_refusal_logged_as_success (rt : Runtime) (webhook message : string) (w : World)
    (code : Z) (respBody : string) (r : WeComResult) :
  exchange rt webhook (weComBody message) w = Some (code, respBody) ->
  200 <= code < 300 ->
  json_Unmarshal_WeComResult rt respBody = Ok r ->
  Errcode r <> 0 ->
  exists data,
    json_Marshal rt (weComBody message) = Ok data
    /\ sendWeCom rt webhook message w
       = (Some (Errmsg r),
          {| clock_reads := clock_reads w;
             requests := requests w ++ [json_post webhook data];
             logged := logged w ++ [ {| log_level := "info"; log_msg := "通知发送成功";
                                        log_fields := [("url", webhook);
                                                       ("response", respBody)] |} ] |}).
Proof.
  unfold exchange, sendWeCom, sendJSONRequest. intros Hx Hc Hu He.
  destruct (json_Marshal rt (weComBody message)) as [data|e]; [|discriminate].
  destruct (url_error rt webhook) as [e|]; [discriminate|].
  exists data. split; [reflexivity|].
  unfold bind, http_Do, ret, logger. fold (json_post webhook data) in *.
  destruct (client_Do rt (requests w) (json_post webhook data)) as [[code' body']|e];
    [|discriminate].
  injection Hx as -> ->.
  destruct (Z.ltb_spec code 200); [lia|]. destruct (Z.geb_spec code 300); [lia|].
  cbn [orb]. rewrite Hu. destruct (Z.eqb_spec (Errcode r) 0); [contradiction|]. reflexivity.
Qed.

Lemma wecom_refusal_logged_as_success_witness :
  let rt := refRuntime 1700000000000
              (always 200 (json_text "{'errcode':93000,'errmsg':'invalid webhook url'}")) in
  let w' := snd (sendWeCom rt "http://localhost/hook" "hello" world0) in
  fst (sendWeCom rt "http://localhost/hook" "hello" world0) = Some "invalid webhook url"
  /\ map log_msg (logged w') = ["通知发送成功"].
Proof.
  intros rt.
  destruct (wecom_refusal_logged_as_success rt "http://localhost/hook" "hello" world0 200
              (json_text "{'errcode':93000,'errmsg':'invalid webhook url'}")
              {| Errcode := 93000; Errmsg := "invalid webhook url"; WeCom_Type := "";
                 MediaId := ""; CreatedAt := "" |})
    as (data & _ & ->);
    [vm_compute; reflexivity | lia | vm_compute; reflexivity | discriminate |].
  split; reflexivity.
Defined.

(** ** The channels that the page saves *)

Lemma form_fields values :
  (switch_of values "dingtalk" = dingtalkEnabled values
   /\ switch_of values "wecom" = wecomEnabled values
   /\ switch_of values "feishu" = feishuEnabled values
   /\ switch_of values "webhook" = webhookEnabled values)
  /\ (key_field_of values "dingtalk" = dingtalkSecretKey values
      /\ key_field_of values "wecom" = wecomSecretKey values
      /\ key_field_of values "feishu" = feishuSecretKey values
      /\ key_field_of values "webhook" = webhookUrl values)
  /\ (needed_key "dingtalk" = "secretKey" /\ needed_key "wecom" = "secretKey"
      /\ needed_key "feishu" = "secretKey" /\ needed_key "webhook" = "url").
Proof. repeat split. Qed.

Lemma configured_or_empty (k : string) (field : option string) (rest : gmap string json) :
  configured (<[k := JStr (or_empty field)]> rest) k
  = if truthy_string field then field else None.
Proof.
  unfold configured. rewrite lookup_insert_eq. unfold or_empty.
  destruct field as [s|]; [|reflexivity]. cbn [truthy_string].
  destruct (String.eqb_spec s "") as [->|Hs]; cbn [negb]; [reflexivity|].
  destruct (String.eqb_spec s ""); [contradiction | reflexivity].
Qed.

Lemma or_false_truthy b : or_false b = truthy_bool b.
Proof. unfold or_false. by destruct (truthy_bool b). Qed.

Lemma handleSave_channel values ch :
  In ch (handleSave values) ->
  http_type (Channel_Type ch) = true
  /\ (truthy_bool (switch_of values (Channel_Type ch))
      || truthy_string (key_field_of values (Channel_Type ch)) = true)
  /\ Channel_Enabled ch = truthy_bool (switch_of values (Channel_Type ch))
  /\ configured (Channel_Config ch) (needed_key (Channel_Type ch))
     = (if truthy_string (key_field_of values (Channel_Type ch))
        then key_field_of values (Channel_Type ch) else None).
Proof.
  destruct (form_fields values) as ((S1 & S2 & S3 & S4) & (K1 & K2 & K3 & K4)
                                    & (N1 & N2 & N3 & N4)).
  unfold handleSave. cbv zeta.
  destruct (truthy_bool (dingtalkEnabled values) || truthy_string (dingtalkSecretKey values))
    eqn:E1;
  destruct (truthy_bool (wecomEnabled values) || truthy_string (wecomSecretKey values))
    eqn:E2;
  destruct (truthy_bool (feishuEnabled values) || truthy_string (feishuSecretKey values))
    eqn:E3;
  destruct (truthy_bool (webhookEnabled values) || truthy_string (webhookUrl values))
    eqn:E4;
  cbn [app In]; intros Hin;
  repeat (destruct Hin as [<-|Hin]; [|]); try contradiction;
  cbn [Channel_Type Channel_Enabled Channel_Config];
  rewrite ?S1, ?S2, ?S3, ?S4, ?K1, ?K2, ?K3, ?K4, ?N1, ?N2, ?N3, ?N4;
  (split; [reflexivity|]); (split; [assumption|]);
  (split; [apply or_false_truthy | apply configured_or_empty]).
Qed.

(** X23. The list that [handleSave] builds holds the types [dingtalk],
    [wecom], [feishu] and [webhook] in this order, each at most once and
    no other type; a type is in the list exactly when its switch is on or
    its key field is not empty.  Each channel is enabled exactly when its
    switch is on, and its configuration holds the key that the server
    reads for its type exactly when the key field is not empty. *)
Theorem saved_channels_shape (values : FormValues) :
  let saved := handleSave values in
  sublist (map Channel_Type saved) ["dingtalk"; "wecom"; "feishu"; "webhook"]
  /\ NoDup (map Channel_Type saved)
  /\ (forall ty, In ty (map Channel_Type saved)
                 <-> http_type ty = true
                     /\ (truthy_bool (switch_of values ty)
                         || truthy_string (key_field_of values ty) = true))
  /\ Forall (fun ch =>
       Channel_Enabled ch = truthy_bool (switch_of values (Channel_Type ch))
       /\ configured (Channel_Config ch) (needed_key (Channel_Type ch))
          = (if truthy_string (key_field_of values (Channel_Type ch))
             then key_field_of values (Channel_Type ch) else None)) saved.
Proof.
  cbv zeta. split; [|split; [|split]].
  - unfold handleSave. cbv zeta.
    repeat match goal with |- context [if ?b then _ else _] => destruct b end;
      cbn [app map Channel_Type];
      repeat first [apply sublist_nil | apply sublist_skip | apply sublist_cons].
  - unfold handleSave. cbv zeta.
    repeat match goal with |- context [if ?b then _ else _] => destruct b end;
      cbn [app map Channel_Type];
      repeat (apply NoDup_cons_2;
              [intros H; repeat (apply elem_of_cons in H as [H|H]; [discriminate|]);
               by apply elem_of_nil in H|]);
      apply NoDup_nil_2.
  - intros ty. split.
    + intros Hin. apply in_map_iff in Hin as (ch & Hch & Hin). rewrite <- Hch.
      destruct (handleSave_channel values ch Hin) as (H1 & H2 & _). auto.
    + intros [Hty Hw].
      assert (Hcase : ty = "dingtalk" \/ ty = "wecom" \/ ty = "feishu" \/ ty = "webhook").
      { unfold http_type in Hty.
        destruct (String.eqb_spec ty "dingtalk"); [auto|].
        destruct (String.eqb_spec ty "wecom"); [auto|].
        destruct (String.eqb_spec ty "feishu"); [auto|].
        destruct (String.eqb_spec ty "webhook"); [auto | discriminate]. }
      destruct (form_fields values) as ((S1 & S2 & S3 & S4) & (K1 & K2 & K3 & K4) & _).
      unfold handleSave. cbv zeta.
      destruct Hcase as [E|[E|[E|E]]]; rewrite E in Hw |- *;
        rewrite ?S1, ?S2, ?S3, ?S4, ?K1, ?K2, ?K3, ?K4 in Hw; rewrite Hw;
        repeat match goal with |- context [if ?b then _ else _] => destruct b end;
        cbn [app map Channel_Type In]; auto 6.
  - apply List.Forall_forall. intros ch Hin.
    destruct (handleSave_channel values ch Hin) as (_ & _ & H3 & H4). auto.
Qed.




